(** * Pan-tilt pet tracker: the tracking control loop

    A shallow embedding of the control kernel of the tracker
    (modules/servo_controller.py, modules/simple_p_controller.py,
    modules/pid_controller.py, modules/yolo_detector.py,
    modules/tracking_coordinator.py) and the properties of its
    specification.

    Conventions of the embedding.
    - Python floats are idealised as rationals [Q]: no rounding, no NaN, no
      infinities.  Comparisons are the decidable ones of [Q].
    - Objects mutated in place become records; a method takes the object and
      returns the object after the call next to its result.
    - [time.time()] and [datetime.now()] are inputs: every reading of a clock
      that a method performs is a parameter of the method, in seconds.
    - [time.sleep] and logging have no effect on the modelled state and are
      left out.
    - The physical driver (I2C bus, PCA9685, adafruit servo objects) is the
      environment: each call that writes to it is given the outcome of the
      write.  Exceptions are caught where the source catches them.
    - The camera and the YOLO network are the environment as well: a pass
      of the main loop is given whether a frame was read and what the
      network answers (its boxes, or an exception).
    - An argument on which Python arithmetic raises [TypeError] (for
      instance [None]) is [None] of an [option]. *)

From Stdlib Require Import QArith Qabs Lqa ZArith Lia List String Bool.
From Stdlib Require Import DecimalString.
Import ListNotations.
Open Scope Q_scope.

(** ** Numbers: comparisons, [abs], [max], [numpy.clip] *)

Definition Qleb (x y : Q) : bool := Qle_bool x y.
Definition Qltb (x y : Q) : bool := negb (Qle_bool y x).

(** Python's builtin [max(a, b)]: the first argument unless the second is
    strictly greater. *)
Definition py_max (a b : Q) : Q := if Qltb a b then b else a.

(** [numpy.maximum], [numpy.minimum] and [numpy.clip] on scalars;
    [np.clip(x, lo, hi)] is [minimum(maximum(x, lo), hi)], also when
    [lo > hi]. *)
Definition np_maximum (x y : Q) : Q := if Qltb x y then y else x.
Definition np_minimum (x y : Q) : Q := if Qltb y x then y else x.
Definition np_clip (x lo hi : Q) : Q := np_minimum (np_maximum x lo) hi.

(** How a block of statements ends. *)
Inductive completion : Type := Normal | Raised.

(** Component-wise equality of pairs of rationals. *)
Definition Qpair_eq (p q : Q * Q) : Prop := fst p == fst q /\ snd p == snd q.

(** ** Lists: slices from the end, [numpy.mean], [numpy.var] *)

(** Python's [l[-n:]] for [n >= 0]: the last [n] elements, the whole list
    when [n] is 0 or exceeds the length. *)
Definition py_last {A : Type} (n : nat) (l : list A) : list A :=
  match n with
  | O => l
  | S _ => skipn (List.length l - n) l
  end.

Definition Qsum (l : list Q) : Q := fold_right Qplus 0 l.

(** [numpy.mean] and [numpy.var] (population variance) of a list; of the
    empty list they are [nan], here [None]. *)
Definition np_mean (l : list Q) : option Q :=
  match l with
  | [] => None
  | _ :: _ => Some (Qsum l / inject_Z (Z.of_nat (List.length l)))
  end.

Definition np_var (l : list Q) : option Q :=
  match np_mean l with
  | None => None
  | Some m => np_mean (map (fun x => (x - m) * (x - m)) l)
  end.

(** The guarded form the statistics use: [np.mean(l) if l else 0]. *)
Definition mean_or_zero (l : list Q) : Q :=
  match np_mean l with
  | Some m => m
  | None => 0
  end.

Definition var_or_zero (l : list Q) : Q :=
  match np_var l with
  | Some v => v
  | None => 0
  end.

(** ** modules/servo_controller.py *)

Module ServoCtl.

Inductive ServoStatus : Type :=
  UNINITIALIZED | INITIALIZING | READY | MOVING | ERROR.

Definition ServoStatus_eqb (a b : ServoStatus) : bool :=
  match a, b with
  | UNINITIALIZED, UNINITIALIZED | INITIALIZING, INITIALIZING
  | READY, READY | MOVING, MOVING | ERROR, ERROR => true
  | _, _ => false
  end.

(** An [adafruit_motor.servo.Servo] object: the angle last written to it. *)
Record Servo : Type := { angle : option Q }.

(** What the driver does with the two writes of [_set_servo_angles]. *)
Inductive HwOutcome : Type := WriteOk | PanWriteRaises | TiltWriteRaises.

Record ServoController : Type := {
  pan_min : Q;
  pan_max : Q;
  tilt_min : Q;
  tilt_max : Q;
  pan_servo : option Servo;
  tilt_servo : option Servo;
  current_pan_angle : Q;
  current_tilt_angle : Q;
  status : ServoStatus;
  move_speed : Q;
  settle_time : Q
}.

Definition set_status (c : ServoController) (s : ServoStatus) : ServoController :=
  {| pan_min := pan_min c; pan_max := pan_max c;
     tilt_min := tilt_min c; tilt_max := tilt_max c;
     pan_servo := pan_servo c; tilt_servo := tilt_servo c;
     current_pan_angle := current_pan_angle c;
     current_tilt_angle := current_tilt_angle c;
     status := s;
     move_speed := move_speed c; settle_time := settle_time c |}.

Definition set_current_angles (c : ServoController) (pan tilt : Q) : ServoController :=
  {| pan_min := pan_min c; pan_max := pan_max c;
     tilt_min := tilt_min c; tilt_max := tilt_max c;
     pan_servo := pan_servo c; tilt_servo := tilt_servo c;
     current_pan_angle := pan;
     current_tilt_angle := tilt;
     status := status c;
     move_speed := move_speed c; settle_time := settle_time c |}.

Definition set_pan_servo (c : ServoController) (s : option Servo) : ServoController :=
  {| pan_min := pan_min c; pan_max := pan_max c;
     tilt_min := tilt_min c; tilt_max := tilt_max c;
     pan_servo := s; tilt_servo := tilt_servo c;
     current_pan_angle := current_pan_angle c;
     current_tilt_angle := current_tilt_angle c;
     status := status c;
     move_speed := move_speed c; settle_time := settle_time c |}.

Definition set_tilt_servo (c : ServoController) (s : option Servo) : ServoController :=
  {| pan_min := pan_min c; pan_max := pan_max c;
     tilt_min := tilt_min c; tilt_max := tilt_max c;
     pan_servo := pan_servo c; tilt_servo := s;
     current_pan_angle := current_pan_angle c;
     current_tilt_angle := current_tilt_angle c;
     status := status c;
     move_speed := move_speed c; settle_time := settle_time c |}.

(** [ServoController.__init__]; the defaults are [pan_range = (-90, 90)] and
    [tilt_range = (-45, 45)]. *)
Definition __init__ (pan_range tilt_range : Q * Q) : ServoController :=
  {| pan_min := fst pan_range; pan_max := snd pan_range;
     tilt_min := fst tilt_range; tilt_max := snd tilt_range;
     pan_servo := None; tilt_servo := None;
     current_pan_angle := 0;
     current_tilt_angle := 0;
     status := UNINITIALIZED;
     move_speed := 0.5; settle_time := 0.1 |}.

Definition default_pan_range : Q * Q := (-90, 90).
Definition default_tilt_range : Q * Q := (-45, 45).

Definition _is_ready (c : ServoController) : bool :=
  ServoStatus_eqb (status c) READY.

Definition _is_pan_angle_safe (c : ServoController) (a : Q) : bool :=
  Qleb (pan_min c) a && Qleb a (pan_max c).

Definition _is_tilt_angle_safe (c : ServoController) (a : Q) : bool :=
  Qleb (tilt_min c) a && Qleb a (tilt_max c).

Definition is_angle_safe (c : ServoController) (pan tilt : Q) : bool :=
  _is_pan_angle_safe c pan && _is_tilt_angle_safe c tilt.

Definition _pan_angle_to_servo (a : Q) : Q := a + 90.
Definition _tilt_angle_to_servo (a : Q) : Q := a + 90.

(** [_set_servo_angles]: the pan servo is written first, then the tilt
    servo; a write to a servo that was never created ([None]) raises, and so
    does a write the driver refuses.  A pan write that went through stays
    written when the tilt write raises. *)
Definition _set_servo_angles (c : ServoController) (hw : HwOutcome)
    (pan_angle tilt_angle : Q) : completion * ServoController :=
  let pan_servo_angle := _pan_angle_to_servo pan_angle in
  let tilt_servo_angle := _tilt_angle_to_servo tilt_angle in
  match pan_servo c, hw with
  | None, _ | Some _, PanWriteRaises => (Raised, c)
  | Some _, _ =>
      let c1 := set_pan_servo c (Some {| angle := Some pan_servo_angle |}) in
      match tilt_servo c1, hw with
      | None, _ | Some _, TiltWriteRaises => (Raised, c1)
      | Some _, _ =>
          (Normal, set_tilt_servo c1 (Some {| angle := Some tilt_servo_angle |}))
      end
  end.

(** [initialize]: [bus_up] says whether the I2C bus, the PCA9685 and the two
    servo objects could be created; when they could not, the constructor
    that failed raised before any servo field was assigned. *)
Definition initialize (c : ServoController) (bus_up : bool) (hw : HwOutcome)
    : bool * ServoController :=
  let c1 := set_status c INITIALIZING in
  if negb bus_up then (false, set_status c1 ERROR)
  else
    let c2 := set_tilt_servo (set_pan_servo c1 (Some {| angle := None |}))
                (Some {| angle := None |}) in
    match _set_servo_angles c2 hw 0 0 with
    | (Raised, c3) => (false, set_status c3 ERROR)
    | (Normal, c3) => (true, set_status (set_current_angles c3 0 0) READY)
    end.

Definition set_angles (c : ServoController) (hw : HwOutcome)
    (pan_angle tilt_angle : Q) : bool * ServoController :=
  if negb (_is_ready c) then (false, c)
  else if negb (is_angle_safe c pan_angle tilt_angle) then (false, c)
  else
    match _set_servo_angles (set_status c MOVING) hw pan_angle tilt_angle with
    | (Normal, c1) =>
        (true, set_status (set_current_angles c1 pan_angle tilt_angle) READY)
    | (Raised, c1) => (false, set_status c1 ERROR)
    end.

Definition get_current_angles (c : ServoController) : Q * Q :=
  (current_pan_angle c, current_tilt_angle c).

Definition move_to_center (c : ServoController) (hw : HwOutcome)
    : bool * ServoController :=
  set_angles c hw 0 0.

(** [emergency_stop] never raises: a failing write is caught and logged. *)
Definition emergency_stop (c : ServoController) (hw : HwOutcome) : ServoController :=
  let c1 := set_status c ERROR in
  match pan_servo c1, tilt_servo c1 with
  | Some _, Some _ => snd (_set_servo_angles c1 hw 0 0)
  | _, _ => c1
  end.

(** The commanded pair lies in the configured ranges. *)
Definition in_range (c : ServoController) (pan tilt : Q) : Prop :=
  (pan_min c <= pan <= pan_max c) /\ (tilt_min c <= tilt <= tilt_max c).

(** A controller brought up with the default ranges on working hardware. *)
Definition ready_default : ServoController :=
  snd (initialize (__init__ default_pan_range default_tilt_range) true WriteOk).

(** *** The rest of the controller's interface *)

Definition with_move_speed (c : ServoController) (s : Q) : ServoController :=
  {| pan_min := pan_min c; pan_max := pan_max c;
     tilt_min := tilt_min c; tilt_max := tilt_max c;
     pan_servo := pan_servo c; tilt_servo := tilt_servo c;
     current_pan_angle := current_pan_angle c;
     current_tilt_angle := current_tilt_angle c;
     status := status c;
     move_speed := s; settle_time := settle_time c |}.

(** [set_pan_angle] makes one write, to the pan servo: of the outcomes only
    [PanWriteRaises] makes it raise. *)
Definition set_pan_angle (c : ServoController) (hw : HwOutcome) (angle : Q)
    : bool * ServoController :=
  if negb (_is_ready c) then (false, c)
  else if negb (_is_pan_angle_safe c angle) then (false, c)
  else
    let c1 := set_status c MOVING in
    let servo_angle := _pan_angle_to_servo angle in
    match pan_servo c1, hw with
    | None, _ | Some _, PanWriteRaises => (false, set_status c1 ERROR)
    | Some _, _ =>
        let c2 := set_pan_servo c1 (Some {| angle := Some servo_angle |}) in
        (true,
         set_status (set_current_angles c2 angle (current_tilt_angle c2)) READY)
    end.

(** [set_tilt_angle] makes one write, to the tilt servo: of the outcomes only
    [TiltWriteRaises] makes it raise. *)
Definition set_tilt_angle (c : ServoController) (hw : HwOutcome) (angle : Q)
    : bool * ServoController :=
  if negb (_is_ready c) then (false, c)
  else if negb (_is_tilt_angle_safe c angle) then (false, c)
  else
    let c1 := set_status c MOVING in
    let servo_angle := _tilt_angle_to_servo angle in
    match tilt_servo c1, hw with
    | None, _ | Some _, TiltWriteRaises => (false, set_status c1 ERROR)
    | Some _, _ =>
        let c2 := set_tilt_servo c1 (Some {| angle := Some servo_angle |}) in
        (true,
         set_status (set_current_angles c2 (current_pan_angle c2) angle) READY)
    end.

(** [set_move_speed]: a speed outside [0.1, 2.0] is logged and dropped. *)
Definition set_move_speed (c : ServoController) (speed : Q) : ServoController :=
  if Qleb 0.1 speed && Qleb speed 2.0 then with_move_speed c speed else c.

(** [cleanup]: [pca_ok] says that zeroing the PWM channels and [deinit] do
    not raise (also when there is no PCA9685 object).  Any exception is
    caught and logged, and then the status is not reset. *)
Definition cleanup (c : ServoController) (hw : HwOutcome) (pca_ok : bool)
    : ServoController :=
  if ServoStatus_eqb (status c) UNINITIALIZED then c
  else
    let (r, c1) :=
      match pan_servo c, tilt_servo c with
      | Some _, Some _ => _set_servo_angles c hw 0 0
      | _, _ => (Normal, c)
      end in
    match r with
    | Raised => c1
    | Normal => if pca_ok then set_status c1 UNINITIALIZED else c1
    end.

(** One leg of [test_movement]: the angles of a list are set one after the
    other with [setter]; the first failure ends the test.  [hw k] is the
    outcome the driver gives the [k]-th call. *)
Fixpoint test_leg
    (setter : ServoController -> HwOutcome -> Q -> bool * ServoController)
    (c : ServoController) (hw : nat -> HwOutcome) (k : nat) (angles : list Q)
    : bool * (ServoController * nat) :=
  match angles with
  | [] => (true, (c, k))
  | a :: rest =>
      let (ok, c1) := setter c (hw k) a in
      if ok then test_leg setter c1 hw (S k) rest else (false, (c1, S k))
  end.

Definition pan_test_angles : list Q := [45; 0; -45; 0].
Definition tilt_test_angles : list Q := [30; 0; -30; 0].

Fixpoint test_cycles (cycles : nat) (c : ServoController)
    (hw : nat -> HwOutcome) (k : nat) : bool * (ServoController * nat) :=
  match cycles with
  | O => (true, (c, k))
  | S n =>
      let '(ok, (c1, k1)) := test_leg set_pan_angle c hw k pan_test_angles in
      if ok then
        let '(ok2, (c2, k2)) :=
          test_leg set_tilt_angle c1 hw k1 tilt_test_angles in
        if ok2 then test_cycles n c2 hw k2 else (false, (c2, k2))
      else (false, (c1, k1))
  end.

(** [test_movement]; the result of the final [move_to_center] is not looked
    at. *)
Definition test_movement (c : ServoController) (hw : nat -> HwOutcome)
    (cycles : nat) : bool * ServoController :=
  if negb (_is_ready c) then (false, c)
  else
    let '(ok, (c1, k)) := test_cycles cycles c hw 0 in
    if ok then (true, snd (move_to_center c1 (hw k))) else (false, c1).

(** The calls a user of the controller can make. *)
Inductive Op : Type :=
  | OpInitialize (bus_up : bool) (hw : HwOutcome)
  | OpSetPanAngle (hw : HwOutcome) (angle : Q)
  | OpSetTiltAngle (hw : HwOutcome) (angle : Q)
  | OpSetAngles (hw : HwOutcome) (pan tilt : Q)
  | OpMoveToCenter (hw : HwOutcome)
  | OpTestMovement (hw : nat -> HwOutcome) (cycles : nat)
  | OpEmergencyStop (hw : HwOutcome)
  | OpCleanup (hw : HwOutcome) (pca_ok : bool)
  | OpSetMoveSpeed (speed : Q).

Definition step (c : ServoController) (op : Op) : ServoController :=
  match op with
  | OpInitialize bus_up hw => snd (initialize c bus_up hw)
  | OpSetPanAngle hw a => snd (set_pan_angle c hw a)
  | OpSetTiltAngle hw a => snd (set_tilt_angle c hw a)
  | OpSetAngles hw p t => snd (set_angles c hw p t)
  | OpMoveToCenter hw => snd (move_to_center c hw)
  | OpTestMovement hw n => snd (test_movement c hw n)
  | OpEmergencyStop hw => emergency_stop c hw
  | OpCleanup hw pca_ok => cleanup c hw pca_ok
  | OpSetMoveSpeed s => set_move_speed c s
  end.

Definition run (c : ServoController) (ops : list Op) : ServoController :=
  fold_left step ops c.

(** The angle last written to a servo, if any. *)
Definition commanded (s : option Servo) : option Q :=
  match s with
  | Some sv => angle sv
  | None => None
  end.

(** What the guard is there for: the stored angles are within the
    configured ranges, and so is every angle a servo was last told to go
    to, once converted back from servo coordinates. *)
Definition within_limits (c : ServoController) : Prop :=
  in_range c (current_pan_angle c) (current_tilt_angle c)
  /\ (forall a : Q, commanded (pan_servo c) = Some a ->
      pan_min c <= a - 90 <= pan_max c)
  /\ (forall a : Q, commanded (tilt_servo c) = Some a ->
      tilt_min c <= a - 90 <= tilt_max c).

(** The configured ranges, which no call changes. *)
Definition same_ranges (c c' : ServoController) : Prop :=
  pan_min c' = pan_min c /\ pan_max c' = pan_max c
  /\ tilt_min c' = tilt_min c /\ tilt_max c' = tilt_max c.

(** The invariant of the controller: within its limits, with ranges that
    contain the centre position the controller falls back to. *)
Definition guarded (c : ServoController) : Prop :=
  within_limits c /\ in_range c 0 0.

(** What every call keeps: the limits, and the ranges themselves. *)
Definition keeps (c c' : ServoController) : Prop :=
  guarded c -> guarded c' /\ same_ranges c c'.

(** A controller that can move: ready, with both servo objects. *)
Definition operational (c : ServoController) : Prop :=
  status c = READY /\ pan_servo c <> None /\ tilt_servo c <> None.

End ServoCtl.

(** ** modules/simple_p_controller.py *)

Module SimpleP.

Inductive SimplePStatus : Type := UNINITIALIZED | READY | RUNNING | ERROR.

Definition SimplePStatus_eqb (a b : SimplePStatus) : bool :=
  match a, b with
  | UNINITIALIZED, UNINITIALIZED | READY, READY
  | RUNNING, RUNNING | ERROR, ERROR => true
  | _, _ => false
  end.

Record SimplePState : Type := {
  last_error : Q * Q;
  last_output : Q * Q;
  last_update_time : Q;
  total_corrections : nat
}.

(** One entry of [performance_history]. *)
Record HistoryEntry : Type := {
  timestamp : Q;
  detection_center : Q * Q;
  error : Q * Q;
  correction : Q * Q;
  is_in_deadband : bool
}.

Record SimpleProportionalController : Type := {
  image_width : Z;
  image_height : Z;
  image_center : Z * Z;
  pan_gain : Q;
  tilt_gain : Q;
  max_correction : Q;
  deadband : Q;
  name : string;
  state : SimplePState;
  status : SimplePStatus;
  performance_history : list HistoryEntry;
  start_time : Q
}.

Definition set_status (c : SimpleProportionalController) (s : SimplePStatus)
    : SimpleProportionalController :=
  {| image_width := image_width c; image_height := image_height c;
     image_center := image_center c;
     pan_gain := pan_gain c; tilt_gain := tilt_gain c;
     max_correction := max_correction c; deadband := deadband c;
     name := name c; state := state c; status := s;
     performance_history := performance_history c;
     start_time := start_time c |}.

Definition set_state (c : SimpleProportionalController) (st : SimplePState)
    : SimpleProportionalController :=
  {| image_width := image_width c; image_height := image_height c;
     image_center := image_center c;
     pan_gain := pan_gain c; tilt_gain := tilt_gain c;
     max_correction := max_correction c; deadband := deadband c;
     name := name c; state := st; status := status c;
     performance_history := performance_history c;
     start_time := start_time c |}.

Definition set_performance_history (c : SimpleProportionalController)
    (h : list HistoryEntry) : SimpleProportionalController :=
  {| image_width := image_width c; image_height := image_height c;
     image_center := image_center c;
     pan_gain := pan_gain c; tilt_gain := tilt_gain c;
     max_correction := max_correction c; deadband := deadband c;
     name := name c; state := state c; status := status c;
     performance_history := h;
     start_time := start_time c |}.

(** [__init__]: [t_start] and [t_ready] are the two readings of
    [time.time()]; [//] is floor division. *)
Definition __init__ (image_width image_height : Z)
    (pan_gain tilt_gain max_correction deadband : Q) (name : string)
    (t_start t_ready : Q) : SimpleProportionalController :=
  {| image_width := image_width; image_height := image_height;
     image_center := ((image_width / 2)%Z, (image_height / 2)%Z);
     pan_gain := pan_gain; tilt_gain := tilt_gain;
     max_correction := max_correction; deadband := deadband;
     name := name;
     state := {| last_error := (0, 0); last_output := (0, 0);
                 last_update_time := t_ready; total_corrections := 0 |};
     status := READY;
     performance_history := [];
     start_time := t_start |}.

(** The constructor with its default arguments for a given image size. *)
Definition default (image_width image_height : Z) (t_start t_ready : Q)
    : SimpleProportionalController :=
  __init__ image_width image_height 0.0156 0.0208 15 5 "SimpleP" t_start t_ready.

(** [list.pop(0)] once the list is longer than [n]. *)
Definition evict {A : Type} (n : nat) (l : list A) : list A :=
  if Nat.ltb n (List.length l) then List.tl l else l.

(** The arithmetic of [calculate_correction] after the subtraction from the
    image centre: deadband, gains (tilt negated), clip. *)
Definition apply_deadband (c : SimpleProportionalController) (e : Q) : Q :=
  if Qltb (Qabs e) (deadband c) then 0 else e.

(** [calculate_correction]: [current_time] is the reading of [time.time()];
    an argument that is not a pair of numbers makes the subtraction raise,
    which the method catches. *)
Definition calculate_correction (c : SimpleProportionalController)
    (current_time : Q) (detection_center : option (Q * Q))
    : (Q * Q) * SimpleProportionalController :=
  if SimplePStatus_eqb (status c) ERROR then ((0, 0), c)
  else
    let c1 := set_status c RUNNING in
    match detection_center with
    | None => ((0, 0), set_status c1 ERROR)
    | Some (x, y) =>
        let x_error := x - inject_Z (fst (image_center c1)) in
        let y_error := y - inject_Z (snd (image_center c1)) in
        let x_error := apply_deadband c1 x_error in
        let y_error := apply_deadband c1 y_error in
        let pan_correction := x_error * pan_gain c1 in
        let tilt_correction := (- y_error) * tilt_gain c1 in
        let pan_correction :=
          np_clip pan_correction (- max_correction c1) (max_correction c1) in
        let tilt_correction :=
          np_clip tilt_correction (- max_correction c1) (max_correction c1) in
        let st := {| last_error := (x_error, y_error);
                     last_output := (pan_correction, tilt_correction);
                     last_update_time := current_time;
                     total_corrections := S (total_corrections (state c1)) |} in
        let entry := {| timestamp := current_time;
                        detection_center := (x, y);
                        error := (x_error, y_error);
                        correction := (pan_correction, tilt_correction);
                        is_in_deadband :=
                          Qltb (Qabs x_error) (deadband c1)
                          && Qltb (Qabs y_error) (deadband c1) |} in
        let c2 := set_state c1 st in
        let c3 := set_performance_history c2
                    (evict 50 (performance_history c2 ++ [entry])) in
        ((pan_correction, tilt_correction), set_status c3 READY)
    end.

Definition set_gains (c : SimpleProportionalController) (pg tg : Q)
    : SimpleProportionalController :=
  {| image_width := image_width c; image_height := image_height c;
     image_center := image_center c;
     pan_gain := pg; tilt_gain := tg;
     max_correction := max_correction c; deadband := deadband c;
     name := name c; state := state c; status := status c;
     performance_history := performance_history c;
     start_time := start_time c |}.

Definition set_max_correction (c : SimpleProportionalController) (m : Q)
    : SimpleProportionalController :=
  {| image_width := image_width c; image_height := image_height c;
     image_center := image_center c;
     pan_gain := pan_gain c; tilt_gain := tilt_gain c;
     max_correction := m; deadband := deadband c;
     name := name c; state := state c; status := status c;
     performance_history := performance_history c;
     start_time := start_time c |}.

Definition set_deadband (c : SimpleProportionalController) (d : Q)
    : SimpleProportionalController :=
  {| image_width := image_width c; image_height := image_height c;
     image_center := image_center c;
     pan_gain := pan_gain c; tilt_gain := tilt_gain c;
     max_correction := max_correction c; deadband := d;
     name := name c; state := state c; status := status c;
     performance_history := performance_history c;
     start_time := start_time c |}.

(** [reset]: [now] is the reading of [time.time()]. *)
Definition reset (c : SimpleProportionalController) (now : Q)
    : SimpleProportionalController :=
  let c1 := set_state c {| last_error := (0, 0); last_output := (0, 0);
                           last_update_time := now; total_corrections := 0 |} in
  let c2 := set_performance_history c1 [] in
  if negb (SimplePStatus_eqb (status c2) ERROR) then set_status c2 READY else c2.

(** [cleanup]: the statistics it logs do not change the object. *)
Definition cleanup (c : SimpleProportionalController)
    : SimpleProportionalController :=
  set_status (set_performance_history c []) UNINITIALIZED.

(** *** The rest of the controller's interface *)

(** [calculate_tracking_error]: the offset of the centre of a box from the
    image centre; on a box that is not four numbers the arithmetic raises,
    which the method catches. *)
Definition calculate_tracking_error (c : SimpleProportionalController)
    (detection_bbox : option (Q * Q * Q * Q)) : Q * Q :=
  match detection_bbox with
  | None => (0, 0)
  | Some (x1, y1, x2, y2) =>
      let bbox_center_x := (x1 + x2) / 2 in
      let bbox_center_y := (y1 + y2) / 2 in
      (bbox_center_x - inject_Z (fst (image_center c)),
       bbox_center_y - inject_Z (snd (image_center c)))
  end.

(** The [recent_performance] part of [get_performance_statistics], over the
    last 20 entries of the history. *)
Record RecentPerformance : Type := {
  mean_error_x : Q;
  mean_error_y : Q;
  mean_correction_pan : Q;
  mean_correction_tilt : Q;
  deadband_rate : Q;
  x_variance : Q;
  y_variance : Q
}.

(** [get_performance_statistics]: without history the dictionary has no
    [recent_performance] entry. *)
Definition recent_performance (c : SimpleProportionalController)
    : option RecentPerformance :=
  match performance_history c with
  | [] => None
  | _ :: _ =>
      let recent := py_last 20 (performance_history c) in
      let recent_errors_x := map (fun p => fst (error p)) recent in
      let recent_errors_y := map (fun p => snd (error p)) recent in
      let recent_corrections_pan := map (fun p => fst (correction p)) recent in
      let recent_corrections_tilt := map (fun p => snd (correction p)) recent in
      let deadband_count :=
        List.length (filter (fun p => is_in_deadband p) recent) in
      Some {| mean_error_x := mean_or_zero (map Qabs recent_errors_x);
              mean_error_y := mean_or_zero (map Qabs recent_errors_y);
              mean_correction_pan :=
                mean_or_zero (map Qabs recent_corrections_pan);
              mean_correction_tilt :=
                mean_or_zero (map Qabs recent_corrections_tilt);
              deadband_rate :=
                inject_Z (Z.of_nat deadband_count)
                / inject_Z (Z.of_nat
                              (Nat.min (List.length (performance_history c)) 20));
              x_variance := var_or_zero recent_errors_x;
              y_variance := var_or_zero recent_errors_y |}
  end.

(** *** DualSimplePController *)

Record DualSimplePController : Type := {
  controller : SimpleProportionalController
}.

Definition dual__init__ (image_width image_height : Z)
    (pan_gain tilt_gain : Q) (t_start t_ready : Q) : DualSimplePController :=
  {| controller := __init__ image_width image_height pan_gain tilt_gain
                            15 5 "DualSimpleP" t_start t_ready |}.

Definition dual_update (d : DualSimplePController) (current_time : Q)
    (detection_center : option (Q * Q))
    : (Q * Q) * DualSimplePController :=
  let (r, c') := calculate_correction (controller d) current_time
                   detection_center in
  (r, {| controller := c' |}).

(** [update_from_bbox], on a box of four numbers; the centre is computed
    outside any [try]. *)
Definition dual_update_from_bbox (d : DualSimplePController) (current_time : Q)
    (detection_bbox : Q * Q * Q * Q) : (Q * Q) * DualSimplePController :=
  let '(x1, y1, x2, y2) := detection_bbox in
  let center_x := (x1 + x2) / 2 in
  let center_y := (y1 + y2) / 2 in
  let (r, c') := calculate_correction (controller d) current_time
                   (Some (center_x, center_y)) in
  (r, {| controller := c' |}).

Definition dual_reset (d : DualSimplePController) (now : Q)
    : DualSimplePController :=
  {| controller := reset (controller d) now |}.

Definition dual_get_statistics (d : DualSimplePController)
    : option RecentPerformance :=
  recent_performance (controller d).

Definition dual_cleanup (d : DualSimplePController) : DualSimplePController :=
  {| controller := cleanup (controller d) |}.

(** [create_simple_p_controller] and [create_dual_simple_p_controller]. *)
Definition create_simple_p_controller (image_width image_height : Z)
    (pan_gain tilt_gain : Q) (t_start t_ready : Q)
    : SimpleProportionalController :=
  __init__ image_width image_height pan_gain tilt_gain 15 5 "SimpleP"
           t_start t_ready.

Definition create_dual_simple_p_controller (image_width image_height : Z)
    (t_start t_ready : Q) : DualSimplePController :=
  dual__init__ image_width image_height 0.0156 0.0208 t_start t_ready.

(** The calls a user of the controller can make. *)
Inductive Op : Type :=
  | OpCorrect (current_time : Q) (detection_center : option (Q * Q))
  | OpReset (now : Q)
  | OpSetGains (pan_gain tilt_gain : Q)
  | OpSetMaxCorrection (max_correction : Q)
  | OpSetDeadband (deadband : Q)
  | OpCleanup.

Definition step (c : SimpleProportionalController) (op : Op)
    : SimpleProportionalController :=
  match op with
  | OpCorrect t d => snd (calculate_correction c t d)
  | OpReset now => reset c now
  | OpSetGains pg tg => set_gains c pg tg
  | OpSetMaxCorrection m => set_max_correction c m
  | OpSetDeadband d => set_deadband c d
  | OpCleanup => cleanup c
  end.

Definition run (c : SimpleProportionalController) (ops : list Op)
    : SimpleProportionalController :=
  fold_left step ops c.

(** Two controllers with the same image centre, gains, limit and deadband. *)
Definition same_law (c c' : SimpleProportionalController) : Prop :=
  image_center c' = image_center c
  /\ pan_gain c' = pan_gain c /\ tilt_gain c' = tilt_gain c
  /\ max_correction c' = max_correction c /\ deadband c' = deadband c.

(** The calls that neither change the parameters of the law nor hand the
    controller an argument it cannot subtract from. *)
Definition keeps_law (op : Op) : bool :=
  match op with
  | OpCorrect _ (Some _) | OpReset _ | OpCleanup => true
  | _ => false
  end.

End SimpleP.

(** ** modules/pid_controller.py *)

Module PID.

Inductive PIDStatus : Type := UNINITIALIZED | READY | RUNNING | SATURATED | ERROR.

Definition PIDStatus_eqb (a b : PIDStatus) : bool :=
  match a, b with
  | UNINITIALIZED, UNINITIALIZED | READY, READY | RUNNING, RUNNING
  | SATURATED, SATURATED | ERROR, ERROR => true
  | _, _ => false
  end.

Record PIDState : Type := {
  proportional : Q;
  integral : Q;
  derivative : Q;
  prev_error : Q;
  prev_time : Q;
  output : Q;
  is_saturated : bool
}.

(** One entry of [performance_history]. *)
Record HistoryEntry : Type := {
  h_timestamp : Q;
  h_error : Q;
  h_output : Q;
  p_term : Q;
  i_term : Q;
  d_term : Q;
  h_is_saturated : bool
}.

Record PIDController : Type := {
  kP : Q;
  kI : Q;
  kD : Q;
  output_limits : Q * Q;
  integral_limits : Q * Q;
  sample_time : Q;
  name : string;
  state : PIDState;
  status : PIDStatus;
  update_count : nat;
  saturation_count : nat;
  performance_history : list HistoryEntry;
  start_time : Q;
  total_updates : nat;
  average_update_time : Q
}.

Definition set_status (c : PIDController) (s : PIDStatus) : PIDController :=
  {| kP := kP c; kI := kI c; kD := kD c;
     output_limits := output_limits c; integral_limits := integral_limits c;
     sample_time := sample_time c; name := name c;
     state := state c; status := s;
     update_count := update_count c; saturation_count := saturation_count c;
     performance_history := performance_history c;
     start_time := start_time c; total_updates := total_updates c;
     average_update_time := average_update_time c |}.

Definition set_state (c : PIDController) (st : PIDState) : PIDController :=
  {| kP := kP c; kI := kI c; kD := kD c;
     output_limits := output_limits c; integral_limits := integral_limits c;
     sample_time := sample_time c; name := name c;
     state := st; status := status c;
     update_count := update_count c; saturation_count := saturation_count c;
     performance_history := performance_history c;
     start_time := start_time c; total_updates := total_updates c;
     average_update_time := average_update_time c |}.

Definition set_saturation_count (c : PIDController) (n : nat) : PIDController :=
  {| kP := kP c; kI := kI c; kD := kD c;
     output_limits := output_limits c; integral_limits := integral_limits c;
     sample_time := sample_time c; name := name c;
     state := state c; status := status c;
     update_count := update_count c; saturation_count := n;
     performance_history := performance_history c;
     start_time := start_time c; total_updates := total_updates c;
     average_update_time := average_update_time c |}.

Definition set_performance_history (c : PIDController) (h : list HistoryEntry)
    : PIDController :=
  {| kP := kP c; kI := kI c; kD := kD c;
     output_limits := output_limits c; integral_limits := integral_limits c;
     sample_time := sample_time c; name := name c;
     state := state c; status := status c;
     update_count := update_count c; saturation_count := saturation_count c;
     performance_history := h;
     start_time := start_time c; total_updates := total_updates c;
     average_update_time := average_update_time c |}.

Definition set_total_updates (c : PIDController) (n : nat) : PIDController :=
  {| kP := kP c; kI := kI c; kD := kD c;
     output_limits := output_limits c; integral_limits := integral_limits c;
     sample_time := sample_time c; name := name c;
     state := state c; status := status c;
     update_count := update_count c; saturation_count := saturation_count c;
     performance_history := performance_history c;
     start_time := start_time c; total_updates := n;
     average_update_time := average_update_time c |}.

Definition set_average_update_time (c : PIDController) (a : Q) : PIDController :=
  {| kP := kP c; kI := kI c; kD := kD c;
     output_limits := output_limits c; integral_limits := integral_limits c;
     sample_time := sample_time c; name := name c;
     state := state c; status := status c;
     update_count := update_count c; saturation_count := saturation_count c;
     performance_history := performance_history c;
     start_time := start_time c; total_updates := total_updates c;
     average_update_time := a |}.

Definition with_output_limits (c : PIDController) (l : Q * Q) : PIDController :=
  {| kP := kP c; kI := kI c; kD := kD c;
     output_limits := l; integral_limits := integral_limits c;
     sample_time := sample_time c; name := name c;
     state := state c; status := status c;
     update_count := update_count c; saturation_count := saturation_count c;
     performance_history := performance_history c;
     start_time := start_time c; total_updates := total_updates c;
     average_update_time := average_update_time c |}.

Definition with_integral_limits (c : PIDController) (l : Q * Q) : PIDController :=
  {| kP := kP c; kI := kI c; kD := kD c;
     output_limits := output_limits c; integral_limits := l;
     sample_time := sample_time c; name := name c;
     state := state c; status := status c;
     update_count := update_count c; saturation_count := saturation_count c;
     performance_history := performance_history c;
     start_time := start_time c; total_updates := total_updates c;
     average_update_time := average_update_time c |}.

(** [__init__]: [t_start] and [t_ready] are the two readings of
    [time.time()].  The limits are stored as given, without a check. *)
Definition __init__ (kP kI kD : Q) (output_limits integral_limits : Q * Q)
    (sample_time : Q) (name : string) (t_start t_ready : Q) : PIDController :=
  {| kP := kP; kI := kI; kD := kD;
     output_limits := output_limits; integral_limits := integral_limits;
     sample_time := sample_time; name := name;
     state := {| proportional := 0; integral := 0; derivative := 0;
                 prev_error := 0; prev_time := t_ready; output := 0;
                 is_saturated := false |};
     status := READY;
     update_count := 0; saturation_count := 0;
     performance_history := [];
     start_time := t_start; total_updates := 0;
     average_update_time := 0 |}.

(** The constructor with its default limits and sample time. *)
Definition default (kP kI kD : Q) (t_start t_ready : Q) : PIDController :=
  __init__ kP kI kD (-90, 90) (-50, 50) 0.01 "PID" t_start t_ready.

Definition evict {A : Type} (n : nat) (l : list A) : list A :=
  if Nat.ltb n (List.length l) then List.tl l else l.

(** [update]: [update_start_time], [current_time] and [end_time] are the
    three readings of [time.time()].  The rate limit is tested before the
    error is used; an error that is not a number makes [kP * error] raise,
    which the method catches. *)
Definition update (c : PIDController)
    (update_start_time current_time end_time : Q) (error : option Q)
    : Q * PIDController :=
  if PIDStatus_eqb (status c) ERROR then (0, c)
  else
    let c1 := set_status c RUNNING in
    let delta_time := current_time - prev_time (state c1) in
    if Qltb delta_time (sample_time c1) && Nat.ltb 0 (total_updates c1)
    then (output (state c1), c1)
    else
      match error with
      | None => (0, set_status c1 ERROR)
      | Some error =>
          let st := state c1 in
          let p := kP c1 * error in
          let i :=
            if Qltb 0 delta_time
            then np_clip (integral st + error * delta_time)
                         (fst (integral_limits c1)) (snd (integral_limits c1))
            else integral st in
          let integral_term := kI c1 * i in
          let d :=
            if Qltb 0 delta_time && Nat.ltb 0 (total_updates c1)
            then kD c1 * ((error - prev_error st) / delta_time)
            else 0 in
          let raw_output := p + integral_term + d in
          let out :=
            np_clip raw_output (fst (output_limits c1)) (snd (output_limits c1)) in
          let sat :=
            Qltb (py_max (Qabs (fst (output_limits c1)))
                         (Qabs (snd (output_limits c1))))
                 (Qabs raw_output) in
          let c2 := if sat
                    then set_status
                           (set_saturation_count c1 (S (saturation_count c1)))
                           SATURATED
                    else set_status c1 READY in
          let st' := {| proportional := p; integral := i; derivative := d;
                        prev_error := error; prev_time := current_time;
                        output := out; is_saturated := sat |} in
          let c3 := set_total_updates (set_state c2 st') (S (total_updates c2)) in
          let update_time := end_time - update_start_time in
          let n := inject_Z (Z.of_nat (total_updates c3)) in
          let c4 := set_average_update_time c3
                      ((average_update_time c3 * (n - 1) + update_time) / n) in
          let entry := {| h_timestamp := current_time; h_error := error;
                          h_output := out; p_term := p;
                          i_term := integral_term; d_term := d;
                          h_is_saturated := sat |} in
          (out, set_performance_history c4
                  (evict 100 (performance_history c4 ++ [entry])))
      end.

(** [reset]: [now] is the reading of [time.time()]; [total_updates] and
    [average_update_time] are not reset. *)
Definition reset (c : PIDController) (now : Q) : PIDController :=
  let c1 := set_state c {| proportional := 0; integral := 0; derivative := 0;
                           prev_error := 0; prev_time := now; output := 0;
                           is_saturated := false |} in
  let c2 := set_performance_history (set_saturation_count c1 0) [] in
  if negb (PIDStatus_eqb (status c2) ERROR) then set_status c2 READY else c2.

Definition set_parameters (c : PIDController) (p i d : Q) : PIDController :=
  {| kP := p; kI := i; kD := d;
     output_limits := output_limits c; integral_limits := integral_limits c;
     sample_time := sample_time c; name := name c;
     state := state c; status := status c;
     update_count := update_count c; saturation_count := saturation_count c;
     performance_history := performance_history c;
     start_time := start_time c; total_updates := total_updates c;
     average_update_time := average_update_time c |}.

(** [set_output_limits] and [set_integral_limits] raise [PIDError] when
    [min >= max], before anything is assigned. *)
Definition set_output_limits (c : PIDController) (min_output max_output : Q)
    : completion * PIDController :=
  if Qleb max_output min_output then (Raised, c)
  else (Normal, with_output_limits c (min_output, max_output)).

Definition set_integral_limits (c : PIDController) (min_integral max_integral : Q)
    : completion * PIDController :=
  if Qleb max_integral min_integral then (Raised, c)
  else (Normal, with_integral_limits c (min_integral, max_integral)).

(** [get_components]: proportional, integral term, derivative, output, raw
    output, saturation flag. *)
Definition get_components (c : PIDController) : Q * Q * Q * Q * Q * bool :=
  let integral_term := kI c * integral (state c) in
  (proportional (state c), integral_term, derivative (state c),
   output (state c),
   proportional (state c) + integral_term + derivative (state c),
   is_saturated (state c)).

Definition cleanup (c : PIDController) : PIDController :=
  set_status (set_performance_history c []) UNINITIALIZED.

(** Both limits of the integral hold for the stored accumulator. *)
Definition integral_in_limits (c : PIDController) : Prop :=
  fst (integral_limits c) <= integral (state c) <= snd (integral_limits c).

(** A call of [update] recomputes the output: the controller is not in
    [ERROR] and the call is not rate limited. *)
Definition recomputes (c : PIDController) (current_time : Q) : bool :=
  negb (PIDStatus_eqb (status c) ERROR)
  && negb (Qltb (current_time - prev_time (state c)) (sample_time c)
           && Nat.ltb 0 (total_updates c)).

(** A run of [update] calls; every call comes with its three clock readings
    and its error. *)
Fixpoint run (c : PIDController) (calls : list (Q * Q * Q * option Q))
    : PIDController :=
  match calls with
  | [] => c
  | (t0, t1, t2, e) :: rest => run (snd (update c t0 t1 t2 e)) rest
  end.

(** *** The rest of the controller's interface *)

(** [get_parameters]: gains, both pairs of limits and the sample time. *)
Definition get_parameters (c : PIDController) : Q * Q * Q * (Q * Q) * (Q * Q) * Q :=
  (kP c, kI c, kD c, output_limits c, integral_limits c, sample_time c).

(** [is_stable], for a [window_size >= 0]: with fewer entries than the
    window the answer is [False]; otherwise the variance of the outputs of
    the last [window_size] entries is compared with the tolerance.  The
    variance of no output at all is [nan], and [nan < tolerance] is
    [False]. *)
Definition is_stable (c : PIDController) (tolerance : Q) (window_size : nat)
    : bool :=
  if Nat.ltb (List.length (performance_history c)) window_size then false
  else
    match np_var (map h_output (py_last window_size (performance_history c))) with
    | Some output_variance => Qltb output_variance tolerance
    | None => false
    end.

Record RecentPerformance : Type := {
  mean_error : Q;
  mean_output : Q;
  output_variance : Q;
  rp_is_stable : bool
}.

Record Statistics : Type := {
  s_name : string;
  s_parameters : Q * Q * Q * (Q * Q) * (Q * Q) * Q;
  s_total_updates : nat;
  s_average_update_time : Q;
  saturation_rate : Q;
  current_status : PIDStatus;
  recent_performance : RecentPerformance
}.

(** [get_performance_statistics]: the empty dictionary, here [None], when
    the history is empty. *)
Definition get_performance_statistics (c : PIDController) : option Statistics :=
  match performance_history c with
  | [] => None
  | _ :: _ =>
      let recent_errors := map h_error (py_last 50 (performance_history c)) in
      let recent_outputs := map h_output (py_last 50 (performance_history c)) in
      Some {| s_name := name c;
              s_parameters := get_parameters c;
              s_total_updates := total_updates c;
              s_average_update_time := average_update_time c * 1000;
              saturation_rate :=
                inject_Z (Z.of_nat (saturation_count c))
                / inject_Z (Z.of_nat (Nat.max (total_updates c) 1));
              current_status := status c;
              recent_performance :=
                {| mean_error := mean_or_zero (map Qabs recent_errors);
                   mean_output := mean_or_zero recent_outputs;
                   output_variance := var_or_zero recent_outputs;
                   rp_is_stable := is_stable c 1 10 |} |}
  end.

(** The calls a client can make on a controller, with the clock readings
    each one takes. *)
Inductive Op : Type :=
  | OpUpdate (update_start_time current_time end_time : Q) (error : option Q)
  | OpReset (now : Q)
  | OpSetParameters (kP kI kD : Q)
  | OpSetOutputLimits (min_output max_output : Q)
  | OpSetIntegralLimits (min_integral max_integral : Q)
  | OpCleanup.

Definition step (c : PIDController) (op : Op) : PIDController :=
  match op with
  | OpUpdate t0 t1 t2 e => snd (update c t0 t1 t2 e)
  | OpReset now => reset c now
  | OpSetParameters p i d => set_parameters c p i d
  | OpSetOutputLimits lo hi => snd (set_output_limits c lo hi)
  | OpSetIntegralLimits lo hi => snd (set_integral_limits c lo hi)
  | OpCleanup => cleanup c
  end.

Definition drive (c : PIDController) (ops : list Op) : PIDController :=
  fold_left step ops c.

(** The values the [update] calls of a sequence return, in order. *)
Fixpoint returned (c : PIDController) (ops : list Op) : list Q :=
  match ops with
  | [] => []
  | OpUpdate t0 t1 t2 e :: rest =>
      fst (update c t0 t1 t2 e) :: returned (snd (update c t0 t1 t2 e)) rest
  | op :: rest => returned (step c op) rest
  end.

(** The measured durations [end_time - update_start_time] of the [update]
    calls of a sequence that reach the statistics, in order: the calls that
    recompute from a number. *)
Fixpoint durations (c : PIDController) (ops : list Op) : list Q :=
  match ops with
  | [] => []
  | OpUpdate t0 t1 t2 e :: rest =>
      (if recomputes c t1
       then match e with Some _ => [t2 - t0] | None => [] end
       else [])
      ++ durations (snd (update c t0 t1 t2 e)) rest
  | op :: rest => durations (step c op) rest
  end.

Definition changes_output_limits (op : Op) : bool :=
  match op with
  | OpSetOutputLimits _ _ => true
  | _ => false
  end.

Definition changes_integral_limits (op : Op) : bool :=
  match op with
  | OpSetIntegralLimits _ _ => true
  | _ => false
  end.

(** The last recomputation of the output since the construction or the
    last [reset], over a sequence of calls: the value it returned and the
    output limits in force when it was computed.  [acc] is what was known
    before the sequence; [None] says that nothing was recomputed yet. *)
Fixpoint last_recomputation (c : PIDController) (ops : list Op)
    (acc : option (Q * (Q * Q))) : option (Q * (Q * Q)) :=
  match ops with
  | [] => acc
  | op :: rest =>
      last_recomputation (step c op) rest
        (match op with
         | OpUpdate t0 t1 t2 (Some e) =>
             if recomputes c t1
             then Some (fst (update c t0 t1 t2 (Some e)), output_limits c)
             else acc
         | OpReset _ => None
         | _ => acc
         end)
  end.

(** The value of that recomputation, 0 when there is none. *)
Definition recomputed_output (r : option (Q * (Q * Q))) : Q :=
  match r with
  | Some (v, _) => v
  | None => 0
  end.

(** The counters of the controller agree with each other. *)
Definition counters_ok (c : PIDController) : Prop :=
  (saturation_count c <= total_updates c)%nat
  /\ (List.length (performance_history c) <= total_updates c)%nat
  /\ (List.length (performance_history c) <= 100)%nat.

(** *** DualPIDController *)

(** The keyword arguments a parameter dictionary can override; a key that
    is absent is [None]. *)
Record Params : Type := {
  p_kP : option Q;
  p_kI : option Q;
  p_kD : option Q;
  p_output_limits : option (Q * Q);
  p_integral_limits : option (Q * Q);
  p_sample_time : option Q;
  p_name : option string
}.

Definition no_params : Params :=
  {| p_kP := None; p_kI := None; p_kD := None; p_output_limits := None;
     p_integral_limits := None; p_sample_time := None; p_name := None |}.

Definition or_default {A : Type} (o : option A) (d : A) : A :=
  match o with
  | Some x => x
  | None => d
  end.

Record DualPIDController : Type := {
  pan_pid : PIDController;
  tilt_pid : PIDController
}.

(** [DualPIDController.__init__]: the defaults, overridden key by key
    ([dict.update]), then one [PIDController(...)] per axis with its own two
    clock readings.  [None] for a dictionary, like the empty dictionary,
    leaves the defaults. *)
Definition dual__init__ (pan_params tilt_params : option Params)
    (pan_start pan_ready tilt_start tilt_ready : Q) : DualPIDController :=
  let pp := or_default pan_params no_params in
  let tp := or_default tilt_params no_params in
  {| pan_pid :=
       __init__ (or_default (p_kP pp) 0.8) (or_default (p_kI pp) 0.1)
                (or_default (p_kD pp) 0.05)
                (or_default (p_output_limits pp) (-90, 90))
                (or_default (p_integral_limits pp) (-50, 50))
                (or_default (p_sample_time pp) 0.01)
                (or_default (p_name pp) "Pan_PID"%string)
                pan_start pan_ready;
     tilt_pid :=
       __init__ (or_default (p_kP tp) 0.8) (or_default (p_kI tp) 0.1)
                (or_default (p_kD tp) 0.05)
                (or_default (p_output_limits tp) (-45, 45))
                (or_default (p_integral_limits tp) (-50, 50))
                (or_default (p_sample_time tp) 0.01)
                (or_default (p_name tp) "Tilt_PID"%string)
                tilt_start tilt_ready |}.

(** [DualPIDController.update]: the pan controller first, then the tilt
    controller, each with its own three clock readings. *)
Definition dual_update (d : DualPIDController)
    (pan_clock : Q * Q * Q) (pan_error : option Q)
    (tilt_clock : Q * Q * Q) (tilt_error : option Q)
    : (Q * Q) * DualPIDController :=
  let '(p0, p1, p2) := pan_clock in
  let '(t0, t1, t2) := tilt_clock in
  let rp := update (pan_pid d) p0 p1 p2 pan_error in
  let rt := update (tilt_pid d) t0 t1 t2 tilt_error in
  ((fst rp, fst rt), {| pan_pid := snd rp; tilt_pid := snd rt |}).

Definition dual_reset (d : DualPIDController) (pan_now tilt_now : Q)
    : DualPIDController :=
  {| pan_pid := reset (pan_pid d) pan_now;
     tilt_pid := reset (tilt_pid d) tilt_now |}.

Definition dual_get_statistics (d : DualPIDController)
    : option Statistics * option Statistics :=
  (get_performance_statistics (pan_pid d),
   get_performance_statistics (tilt_pid d)).

Definition dual_cleanup (d : DualPIDController) : DualPIDController :=
  {| pan_pid := cleanup (pan_pid d); tilt_pid := cleanup (tilt_pid d) |}.

(** [create_pid_controller] and [create_dual_pid_controller]. *)
Definition create_pid_controller (kP kI kD : Q) (t_start t_ready : Q)
    : PIDController :=
  default kP kI kD t_start t_ready.

Definition create_dual_pid_controller
    (pan_start pan_ready tilt_start tilt_ready : Q) : DualPIDController :=
  dual__init__ None None pan_start pan_ready tilt_start tilt_ready.

Inductive DualOp : Type :=
  | DualUpdate (pan_clock : Q * Q * Q) (pan_error : option Q)
               (tilt_clock : Q * Q * Q) (tilt_error : option Q)
  | DualReset (pan_now tilt_now : Q)
  | DualCleanup.

Definition dual_step (d : DualPIDController) (op : DualOp) : DualPIDController :=
  match op with
  | DualUpdate pc pe tc te => snd (dual_update d pc pe tc te)
  | DualReset pn tn => dual_reset d pn tn
  | DualCleanup => dual_cleanup d
  end.

Fixpoint dual_returned (d : DualPIDController) (ops : list DualOp)
    : list (Q * Q) :=
  match ops with
  | [] => []
  | DualUpdate pc pe tc te :: rest =>
      fst (dual_update d pc pe tc te)
      :: dual_returned (snd (dual_update d pc pe tc te)) rest
  | op :: rest => dual_returned (dual_step d op) rest
  end.

End PID.

(** ** modules/yolo_detector.py *)

Module Yolo.

Inductive DetectorStatus : Type :=
  UNINITIALIZED | LOADING | READY | DETECTING | ERROR.

Definition DetectorStatus_eqb (a b : DetectorStatus) : bool :=
  match a, b with
  | UNINITIALIZED, UNINITIALIZED | LOADING, LOADING | READY, READY
  | DETECTING, DETECTING | ERROR, ERROR => true
  | _, _ => false
  end.

(** [int(x)] of a number: truncation toward zero. *)
Definition py_int (x : Q) : Z := Z.quot (Qnum x) (Z.pos (Qden x)).

(** [str(n)] of an integer, as an f-string prints it. *)
Definition py_str (n : Z) : string := NilZero.string_of_int (Z.to_int n).

(** The [Detection] dataclass. *)
Record Detection : Type := {
  class_id : Z;
  class_name : string;
  confidence : Q;
  bbox : Z * Z * Z * Z;
  center : Q * Q
}.

(** [Detection(class_id=..., class_name=..., confidence=..., bbox=...)]:
    [__post_init__] overwrites [center] with the midpoint of the box. *)
Definition Detection__init__ (class_id : Z) (class_name : string)
    (confidence : Q) (bbox : Z * Z * Z * Z) : Detection :=
  let '(x1, y1, x2, y2) := bbox in
  {| class_id := class_id; class_name := class_name;
     confidence := confidence; bbox := bbox;
     center := (inject_Z (x1 + x2) / 2, inject_Z (y1 + y2) / 2) |}.

(** What the network hands back: per result an optional list of boxes, each
    with its class, confidence and corner coordinates as numbers. *)
Record Box : Type := {
  cls : Q;
  conf : Q;
  xyxy : Q * Q * Q * Q
}.

Definition Result : Type := option (list Box).

Inductive ModelOutcome : Type :=
  | ModelRaises
  | ModelReturns (results : list Result).

(** The loaded network, [self.model] when it is not [None]. *)
Inductive Model : Type := YOLO (model_path : string).

(** One entry of [detection_history]. *)
Record HistoryEntry : Type := {
  h_timestamp : Q;
  h_count : nat;
  h_processing_time : Q
}.

Record YOLODetector : Type := {
  model_path : string;
  confidence_threshold : Q;
  image_size : Z * Z;
  target_classes : list Z;
  model : option Model;
  status : DetectorStatus;
  total_detections : nat;
  detection_history : list HistoryEntry;
  processing_times : list Q;
  fps_counter : nat;
  fps_start_time : Q;
  current_fps : Q
}.

Definition set_status (d : YOLODetector) (s : DetectorStatus) : YOLODetector :=
  {| model_path := model_path d;
     confidence_threshold := confidence_threshold d;
     image_size := image_size d; target_classes := target_classes d;
     model := model d; status := s;
     total_detections := total_detections d;
     detection_history := detection_history d;
     processing_times := processing_times d;
     fps_counter := fps_counter d; fps_start_time := fps_start_time d;
     current_fps := current_fps d |}.

Definition set_model (d : YOLODetector) (m : option Model) : YOLODetector :=
  {| model_path := model_path d;
     confidence_threshold := confidence_threshold d;
     image_size := image_size d; target_classes := target_classes d;
     model := m; status := status d;
     total_detections := total_detections d;
     detection_history := detection_history d;
     processing_times := processing_times d;
     fps_counter := fps_counter d; fps_start_time := fps_start_time d;
     current_fps := current_fps d |}.

Definition set_confidence (d : YOLODetector) (t : Q) : YOLODetector :=
  {| model_path := model_path d;
     confidence_threshold := t;
     image_size := image_size d; target_classes := target_classes d;
     model := model d; status := status d;
     total_detections := total_detections d;
     detection_history := detection_history d;
     processing_times := processing_times d;
     fps_counter := fps_counter d; fps_start_time := fps_start_time d;
     current_fps := current_fps d |}.

Definition set_records (d : YOLODetector) (n : nat)
    (h : list HistoryEntry) (p : list Q) : YOLODetector :=
  {| model_path := model_path d;
     confidence_threshold := confidence_threshold d;
     image_size := image_size d; target_classes := target_classes d;
     model := model d; status := status d;
     total_detections := n;
     detection_history := h;
     processing_times := p;
     fps_counter := fps_counter d; fps_start_time := fps_start_time d;
     current_fps := current_fps d |}.

(** [__init__]: [target_classes=None] stands for cat and dog; [fps_now] is
    the reading of [time.time()]. *)
Definition __init__ (model_path : string) (confidence_threshold : Q)
    (target_classes : option (list Z)) (image_size : Z * Z) (fps_now : Q)
    : YOLODetector :=
  {| model_path := model_path;
     confidence_threshold := confidence_threshold;
     image_size := image_size;
     target_classes := match target_classes with
                       | None => [15%Z; 16%Z]
                       | Some l => l
                       end;
     model := None; status := UNINITIALIZED;
     total_detections := 0;
     detection_history := [];
     processing_times := [];
     fps_counter := 0; fps_start_time := fps_now; current_fps := 0 |}.

Definition create_yolo_detector (model_path : string) (fps_now : Q)
    : YOLODetector :=
  __init__ model_path 0.5 None (640%Z, 480%Z) fps_now.

(** [class_names.get(class_id, f"Class_{class_id}")]. *)
Definition class_names_get (class_id : Z) : string :=
  if Z.eqb class_id 15 then "Cat"%string
  else if Z.eqb class_id 16 then "Dog"%string
  else ("Class_" ++ py_str class_id)%string.

(** [load_model]: [loads] tells whether [YOLO(self.model_path)] returns
    rather than raises. *)
Definition load_model (d : YOLODetector) (loads : bool) : bool * YOLODetector :=
  let d1 := set_status d LOADING in
  if loads then (true, set_status (set_model d1 (Some (YOLO (model_path d1)))) READY)
  else (false, set_status d1 ERROR).

Definition evict {A : Type} (n : nat) (l : list A) : list A :=
  if Nat.ltb n (List.length l) then List.tl l else l.

(** [class_id in self.target_classes]. *)
Definition is_target (d : YOLODetector) (class_id : Z) : bool :=
  existsb (Z.eqb class_id) (target_classes d).

(** The body of the inner loop of [detect_pets], for one box. *)
Definition scan_box (d : YOLODetector) (detections : list Detection) (box : Box)
    : list Detection :=
  let class_id := py_int (cls box) in
  let confidence := conf box in
  let '(a, b, c, e) := xyxy box in
  let '(x1, y1, x2, y2) := (py_int a, py_int b, py_int c, py_int e) in
  if is_target d class_id then
    detections
    ++ [Detection__init__ class_id (class_names_get class_id) confidence
          (x1, y1, x2, y2)]
  else detections.

(** The two nested loops. *)
Definition scan_results (d : YOLODetector) (results : list Result)
    : list Detection :=
  fold_left
    (fun detections result =>
       match result with
       | None => detections
       | Some boxes => fold_left (scan_box d) boxes detections
       end)
    results [].

(** [detect_pets]: [detection_start_time], [end_time] and [history_time]
    are the three readings of [time.time()]; a missing model makes the call
    of the model raise, like a model that raises.  The boxes hold numbers,
    on which [int] and [float] do not raise. *)
Definition detect_pets (d : YOLODetector) (outcome : ModelOutcome)
    (detection_start_time end_time history_time : Q)
    : list Detection * YOLODetector :=
  if negb (DetectorStatus_eqb (status d) READY) then ([], d)
  else
    let d1 := set_status d DETECTING in
    match model d1, outcome with
    | None, _ | Some _, ModelRaises => ([], set_status d1 ERROR)
    | Some _, ModelReturns results =>
        let detections := scan_results d1 results in
        let processing_time := end_time - detection_start_time in
        let times := evict 100 (processing_times d1 ++ [processing_time]) in
        let history :=
          evict 1000
            (detection_history d1
             ++ [{| h_timestamp := history_time;
                    h_count := List.length detections;
                    h_processing_time := processing_time |}]) in
        (detections,
         set_status
           (set_records d1
              (total_detections d1 + List.length detections) history times)
           READY)
    end.

(** [sorted(detections, key=lambda d: d.confidence, reverse=True)]: a
    stable sort, so among equal confidences the earlier element stays
    first. *)
Fixpoint insert_by_confidence (x : Detection) (l : list Detection)
    : list Detection :=
  match l with
  | [] => [x]
  | y :: rest =>
      if Qltb (confidence x) (confidence y)
      then y :: insert_by_confidence x rest
      else x :: l
  end.

Definition sorted_by_confidence (l : list Detection) : list Detection :=
  fold_right insert_by_confidence [] l.

Definition get_best_detection (detections : list Detection) : option Detection :=
  match detections with
  | [] => None
  | _ :: _ => hd_error (sorted_by_confidence detections)
  end.

Definition calculate_center (bbox : Z * Z * Z * Z) : Q * Q :=
  let '(x1, y1, x2, y2) := bbox in
  (inject_Z (x1 + x2) / 2, inject_Z (y1 + y2) / 2).

Definition calculate_tracking_error (detection : Detection)
    (image_center : Q * Q) : Q * Q :=
  let detection_center := center detection in
  (fst detection_center - fst image_center,
   snd detection_center - snd image_center).

(** The numbers of [get_detection_statistics]. *)
Definition recent_detection_rate (d : YOLODetector) : Q :=
  let recent_detections := py_last 100 (detection_history d) in
  inject_Z (Z.of_nat
              (List.length
                 (filter (fun e => Nat.ltb 0 (h_count e)) recent_detections)))
  / inject_Z (Z.of_nat (Nat.max (List.length recent_detections) 1)).

Definition average_processing_time (d : YOLODetector) : Q :=
  mean_or_zero (processing_times d).

(** [set_confidence_threshold]: a value outside [[0, 1]] is only logged. *)
Definition set_confidence_threshold (d : YOLODetector) (threshold : Q)
    : YOLODetector :=
  if Qleb 0 threshold && Qleb threshold 1 then set_confidence d threshold
  else d.

Definition cleanup (d : YOLODetector) : YOLODetector :=
  set_status (set_model d None) UNINITIALIZED.

(** The calls a client can make on a detector. *)
Inductive Op : Type :=
  | OpLoadModel (loads : bool)
  | OpDetectPets (outcome : ModelOutcome)
                 (detection_start_time end_time history_time : Q)
  | OpSetConfidenceThreshold (threshold : Q)
  | OpCleanup.

Definition step (d : YOLODetector) (op : Op) : YOLODetector :=
  match op with
  | OpLoadModel loads => snd (load_model d loads)
  | OpDetectPets o t0 t1 t2 => snd (detect_pets d o t0 t1 t2)
  | OpSetConfidenceThreshold t => set_confidence_threshold d t
  | OpCleanup => cleanup d
  end.

Definition run (d : YOLODetector) (ops : list Op) : YOLODetector :=
  fold_left step ops d.

(** All boxes of all results, in the order the loops visit them. *)
Definition all_boxes (results : list Result) : list Box :=
  flat_map (fun result => match result with
                          | None => []
                          | Some boxes => boxes
                          end) results.

(** The detection built from a box. *)
Definition detection_of_box (box : Box) : Detection :=
  let '(a, b, c, e) := xyxy box in
  Detection__init__ (py_int (cls box)) (class_names_get (py_int (cls box)))
                    (conf box) (py_int a, py_int b, py_int c, py_int e).

(** What holds of a detector between two calls. *)
Definition at_rest (d : YOLODetector) : Prop :=
  (status d = READY -> model d <> None)
  /\ status d <> LOADING /\ status d <> DETECTING
  /\ (List.length (processing_times d) <= 100)%nat
  /\ (List.length (detection_history d) <= 1000)%nat.

End Yolo.

(** ** modules/tracking_coordinator.py *)

Module Coordinator.

Inductive TrackingMode : Type := STANDBY | SCANNING | TRACKING.

Definition TrackingMode_eqb (a b : TrackingMode) : bool :=
  match a, b with
  | STANDBY, STANDBY | SCANNING, SCANNING | TRACKING, TRACKING => true
  | _, _ => false
  end.

(** [SystemStatus]; [last_detection_time] is [Optional[datetime]], here
    seconds on the [datetime.now()] clock. *)
Record SystemStatus : Type := {
  mode : TrackingMode;
  target_detected : bool;
  target_class : string;
  target_confidence : Q;
  pan_angle : Q;
  tilt_angle : Q;
  correction_applied : Q * Q;
  last_detection_time : option Q;
  total_detections : nat;
  tracking_duration : Q
}.

Definition SystemStatus_default : SystemStatus :=
  {| mode := STANDBY; target_detected := false; target_class := EmptyString;
     target_confidence := 0; pan_angle := 0; tilt_angle := 0;
     correction_applied := (0, 0); last_detection_time := None;
     total_detections := 0; tracking_duration := 0 |}.

(** The fields of a detection the coordinator reads. *)
Record Detection : Type := {
  class_name : string;
  confidence : Q;
  bbox : Q * Q * Q * Q
}.

(** An element of the list handed to [_update_tracking_control]: a dict, as
    the signature and the tests have it, or the [Detection] dataclass object
    that [YOLODetector.detect_pets] builds, on which [detection['...']]
    raises [TypeError]. *)
Inductive PyDetection : Type :=
  | DetDict (d : Detection)
  | DetObject (d : Detection).

(** [cv2.VideoCapture] and [YOLODetector], as far as the coordinator looks
    at them. *)
Record Camera : Type := { isOpened : bool }.
Record YOLODetector : Type := { model_loaded : bool }.

Record TrackingCoordinator : Type := {
  camera_id : Z;
  image_width : Z;
  image_height : Z;
  detection_interval : Q;
  lost_target_timeout : Q;
  show_display : bool;
  status : SystemStatus;
  is_running : bool;
  system_start_time : option Q;
  camera : option Camera;
  servo_controller : option ServoCtl.ServoController;
  yolo_detector : option YOLODetector;
  simple_p_controller : option SimpleP.SimpleProportionalController
}.

Definition set_sys (c : TrackingCoordinator) (s : SystemStatus)
    : TrackingCoordinator :=
  {| camera_id := camera_id c; image_width := image_width c;
     image_height := image_height c;
     detection_interval := detection_interval c;
     lost_target_timeout := lost_target_timeout c;
     show_display := show_display c;
     status := s; is_running := is_running c;
     system_start_time := system_start_time c;
     camera := camera c; servo_controller := servo_controller c;
     yolo_detector := yolo_detector c;
     simple_p_controller := simple_p_controller c |}.

Definition set_system_start_time (c : TrackingCoordinator) (t : option Q)
    : TrackingCoordinator :=
  {| camera_id := camera_id c; image_width := image_width c;
     image_height := image_height c;
     detection_interval := detection_interval c;
     lost_target_timeout := lost_target_timeout c;
     show_display := show_display c;
     status := status c; is_running := is_running c;
     system_start_time := t;
     camera := camera c; servo_controller := servo_controller c;
     yolo_detector := yolo_detector c;
     simple_p_controller := simple_p_controller c |}.

Definition set_camera (c : TrackingCoordinator) (cam : option Camera)
    : TrackingCoordinator :=
  {| camera_id := camera_id c; image_width := image_width c;
     image_height := image_height c;
     detection_interval := detection_interval c;
     lost_target_timeout := lost_target_timeout c;
     show_display := show_display c;
     status := status c; is_running := is_running c;
     system_start_time := system_start_time c;
     camera := cam; servo_controller := servo_controller c;
     yolo_detector := yolo_detector c;
     simple_p_controller := simple_p_controller c |}.

Definition set_servo_controller (c : TrackingCoordinator)
    (sc : option ServoCtl.ServoController) : TrackingCoordinator :=
  {| camera_id := camera_id c; image_width := image_width c;
     image_height := image_height c;
     detection_interval := detection_interval c;
     lost_target_timeout := lost_target_timeout c;
     show_display := show_display c;
     status := status c; is_running := is_running c;
     system_start_time := system_start_time c;
     camera := camera c; servo_controller := sc;
     yolo_detector := yolo_detector c;
     simple_p_controller := simple_p_controller c |}.

Definition set_yolo_detector (c : TrackingCoordinator) (y : option YOLODetector)
    : TrackingCoordinator :=
  {| camera_id := camera_id c; image_width := image_width c;
     image_height := image_height c;
     detection_interval := detection_interval c;
     lost_target_timeout := lost_target_timeout c;
     show_display := show_display c;
     status := status c; is_running := is_running c;
     system_start_time := system_start_time c;
     camera := camera c; servo_controller := servo_controller c;
     yolo_detector := y;
     simple_p_controller := simple_p_controller c |}.

Definition set_simple_p_controller (c : TrackingCoordinator)
    (p : option SimpleP.SimpleProportionalController) : TrackingCoordinator :=
  {| camera_id := camera_id c; image_width := image_width c;
     image_height := image_height c;
     detection_interval := detection_interval c;
     lost_target_timeout := lost_target_timeout c;
     show_display := show_display c;
     status := status c; is_running := is_running c;
     system_start_time := system_start_time c;
     camera := camera c; servo_controller := servo_controller c;
     yolo_detector := yolo_detector c;
     simple_p_controller := p |}.

(** Writes to single fields of [self.status]. *)
Definition set_mode (c : TrackingCoordinator) (m : TrackingMode)
    : TrackingCoordinator :=
  let s := status c in
  set_sys c
    {| mode := m; target_detected := target_detected s;
       target_class := target_class s;
       target_confidence := target_confidence s;
       pan_angle := pan_angle s; tilt_angle := tilt_angle s;
       correction_applied := correction_applied s;
       last_detection_time := last_detection_time s;
       total_detections := total_detections s;
       tracking_duration := tracking_duration s |}.

Definition set_target_detected (c : TrackingCoordinator) (b : bool)
    : TrackingCoordinator :=
  let s := status c in
  set_sys c
    {| mode := mode s; target_detected := b;
       target_class := target_class s;
       target_confidence := target_confidence s;
       pan_angle := pan_angle s; tilt_angle := tilt_angle s;
       correction_applied := correction_applied s;
       last_detection_time := last_detection_time s;
       total_detections := total_detections s;
       tracking_duration := tracking_duration s |}.

Definition set_cached_angles (c : TrackingCoordinator) (pan tilt : Q)
    : TrackingCoordinator :=
  let s := status c in
  set_sys c
    {| mode := mode s; target_detected := target_detected s;
       target_class := target_class s;
       target_confidence := target_confidence s;
       pan_angle := pan; tilt_angle := tilt;
       correction_applied := correction_applied s;
       last_detection_time := last_detection_time s;
       total_detections := total_detections s;
       tracking_duration := tracking_duration s |}.

Definition set_correction_applied (c : TrackingCoordinator) (corr : Q * Q)
    : TrackingCoordinator :=
  let s := status c in
  set_sys c
    {| mode := mode s; target_detected := target_detected s;
       target_class := target_class s;
       target_confidence := target_confidence s;
       pan_angle := pan_angle s; tilt_angle := tilt_angle s;
       correction_applied := corr;
       last_detection_time := last_detection_time s;
       total_detections := total_detections s;
       tracking_duration := tracking_duration s |}.

Definition set_detection_info (c : TrackingCoordinator) (d : Detection) (now : Q)
    : TrackingCoordinator :=
  let s := status c in
  set_sys c
    {| mode := mode s; target_detected := true;
       target_class := class_name d;
       target_confidence := confidence d;
       pan_angle := pan_angle s; tilt_angle := tilt_angle s;
       correction_applied := correction_applied s;
       last_detection_time := Some now;
       total_detections := total_detections s;
       tracking_duration := tracking_duration s |}.

Definition set_counters (c : TrackingCoordinator) (n : nat) (dur : Q)
    : TrackingCoordinator :=
  let s := status c in
  set_sys c
    {| mode := mode s; target_detected := target_detected s;
       target_class := target_class s;
       target_confidence := target_confidence s;
       pan_angle := pan_angle s; tilt_angle := tilt_angle s;
       correction_applied := correction_applied s;
       last_detection_time := last_detection_time s;
       total_detections := n;
       tracking_duration := dur |}.

(** [TrackingCoordinator.__init__]. *)
Definition __init__ (camera_id image_width image_height : Z)
    (detection_interval lost_target_timeout : Q) (show_display : bool)
    : TrackingCoordinator :=
  {| camera_id := camera_id; image_width := image_width;
     image_height := image_height;
     detection_interval := detection_interval;
     lost_target_timeout := lost_target_timeout;
     show_display := show_display;
     status := SystemStatus_default; is_running := false;
     system_start_time := None;
     camera := None; servo_controller := None;
     yolo_detector := None; simple_p_controller := None |}.

Definition default : TrackingCoordinator := __init__ 0 640 480 0.5 5 true.

(** What the collaborators do during [initialize_system]. *)
Inductive CameraOutcome : Type := CameraRaises | CameraOpened | CameraClosed.
Inductive YoloOutcome : Type := YoloRaises | ModelLoaded | ModelNotLoaded.

Record InitEnv : Type := {
  camera_outcome : CameraOutcome;
  bus_up : bool;
  init_write : ServoCtl.HwOutcome;
  center_write : ServoCtl.HwOutcome;
  yolo_outcome : YoloOutcome;
  p_t_start : Q;
  p_t_ready : Q;
  start_now : Q
}.

(** [initialize_system]: every early [return False] and the [except] branch
    keep what was assigned up to there. *)
Definition initialize_system (c : TrackingCoordinator) (env : InitEnv)
    : bool * TrackingCoordinator :=
  match camera_outcome env with
  | CameraRaises => (false, c)
  | CameraClosed => (false, set_camera c (Some {| isOpened := false |}))
  | CameraOpened =>
      let c1 := set_camera c (Some {| isOpened := true |}) in
      let sc0 := ServoCtl.__init__ ServoCtl.default_pan_range
                   ServoCtl.default_tilt_range in
      let (ok, sc1) := ServoCtl.initialize sc0 (bus_up env) (init_write env) in
      if negb ok then (false, set_servo_controller c1 (Some sc1))
      else
        let (_, sc2) := ServoCtl.move_to_center sc1 (center_write env) in
        let c2 := set_cached_angles (set_servo_controller c1 (Some sc2)) 0 0 in
        match yolo_outcome env with
        | YoloRaises => (false, c2)
        | ModelNotLoaded =>
            (false, set_yolo_detector c2 (Some {| model_loaded := false |}))
        | ModelLoaded =>
            let c3 := set_yolo_detector c2 (Some {| model_loaded := true |}) in
            let p := SimpleP.default (image_width c3) (image_height c3)
                       (p_t_start env) (p_t_ready env) in
            let c4 := set_simple_p_controller c3 (Some p) in
            let c5 := set_system_start_time c4 (Some (start_now env)) in
            (true, set_mode c5 SCANNING)
        end
  end.

(** What one control cycle reads from its environment: [datetime.now()],
    [time.time()] and the outcome of the driver write, if one is made. *)
Record CycleEnv : Type := {
  now : Q;
  clock : Q;
  hw : ServoCtl.HwOutcome
}.

Section Sweep.

(** [numpy.sin], which has no rational model, is a parameter. *)
Variable np_sin : Q -> Q.

(** [_execute_scan_pattern]; a missing servo controller raises, which the
    method catches.  The result of [set_angles] is not looked at. *)
Definition _execute_scan_pattern (c : TrackingCoordinator) (env : CycleEnv)
    : TrackingCoordinator :=
  let current_time := clock env in
  let angle_offset := 30 * np_sin (current_time * 0.1) in
  let new_pan := angle_offset in
  match servo_controller c with
  | None => c
  | Some sc =>
      if ServoCtl.is_angle_safe sc new_pan 0 then
        let (_, sc') := ServoCtl.set_angles sc (hw env) new_pan 0 in
        set_cached_angles (set_servo_controller c (Some sc')) new_pan 0
      else c
  end.

(** [_update_tracking_control]; every exception inside is caught at the
    end of the method, which keeps the assignments made before it. *)
Definition _update_tracking_control (c : TrackingCoordinator) (env : CycleEnv)
    (detections : list PyDetection) : TrackingCoordinator :=
  match detections with
  | detection :: _ =>
      let c1 := if negb (TrackingMode_eqb (mode (status c)) TRACKING)
                then set_mode c TRACKING else c in
      match detection with
      | DetObject _ => c1
      | DetDict d =>
          let '(x1, y1, x2, y2) := bbox d in
          let center_x := (x1 + x2) / 2 in
          let center_y := (y1 + y2) / 2 in
          match simple_p_controller c1 with
          | None => c1
          | Some p =>
              let (correction, p') :=
                SimpleP.calculate_correction p (clock env)
                  (Some (center_x, center_y)) in
              let c2 := set_simple_p_controller c1 (Some p') in
              let new_pan := pan_angle (status c2) + fst correction in
              let new_tilt := tilt_angle (status c2) + snd correction in
              match servo_controller c2 with
              | None => c2
              | Some sc =>
                  let c3 :=
                    if ServoCtl.is_angle_safe sc new_pan new_tilt then
                      let (_, sc') :=
                        ServoCtl.set_angles sc (hw env) new_pan new_tilt in
                      set_correction_applied
                        (set_cached_angles
                           (set_servo_controller c2 (Some sc')) new_pan new_tilt)
                        correction
                    else c2 in
                  set_detection_info c3 d (now env)
              end
          end
      end
  | [] =>
      let c1 := set_target_detected c false in
      match last_detection_time (status c1) with
      | Some t0 =>
          if Qltb (lost_target_timeout c1) (now env - t0) then
            let c2 := if TrackingMode_eqb (mode (status c1)) TRACKING
                      then set_mode c1 SCANNING else c1 in
            _execute_scan_pattern c2 env
          else c1
      | None => c1
      end
  end.

End Sweep.

(** [_update_system_status]: [now] is the reading of [datetime.now()]. *)
Definition _update_system_status (c : TrackingCoordinator) (now : Q)
    (detections : list PyDetection) : TrackingCoordinator :=
  let n := match detections with
           | [] => total_detections (status c)
           | _ :: _ => S (total_detections (status c))
           end in
  let dur := match system_start_time c with
             | Some t0 => now - t0
             | None => tracking_duration (status c)
             end in
  set_counters c n dur.

(** The cached angles and the servo controller are those of [c]. *)
Definition angles_held (c c' : TrackingCoordinator) : Prop :=
  pan_angle (status c') = pan_angle (status c)
  /\ tilt_angle (status c') = tilt_angle (status c)
  /\ servo_controller c' = servo_controller c.

(** An environment in which every collaborator comes up. *)
Definition all_up (t : Q) : InitEnv :=
  {| camera_outcome := CameraOpened; bus_up := true;
     init_write := ServoCtl.WriteOk; center_write := ServoCtl.WriteOk;
     yolo_outcome := ModelLoaded;
     p_t_start := t; p_t_ready := t; start_now := t |}.

(** A rational wave bounded by 1 in absolute value, for running the sweep
    on concrete inputs. *)
Definition bounded_wave (x : Q) : Q := 2 * x / (1 + x * x).

(** The default coordinator after a successful [initialize_system] at
    time 0. *)
Definition started : TrackingCoordinator :=
  snd (initialize_system default (all_up 0)).

(** A dict detection whose box is centred at (420, 240). *)
Definition dog_right : PyDetection :=
  DetDict {| class_name := "Dog"; confidence := 0.9;
             bbox := (370, 190, 470, 290) |}.

Definition at_time (t : Q) (w : ServoCtl.HwOutcome) : CycleEnv :=
  {| now := t; clock := t; hw := w |}.

(** *** The main loop *)

(** A [Detection] object of the detector, as an element of the list the
    coordinator works on. *)
Definition of_detector (d : Yolo.Detection) : PyDetection :=
  let '(x1, y1, x2, y2) := Yolo.bbox d in
  DetObject {| class_name := Yolo.class_name d;
               confidence := Yolo.confidence d;
               bbox := (inject_Z x1, inject_Z y1, inject_Z x2, inject_Z y2) |}.

(** [_process_detection]: the detector object that [self.yolo_detector]
    refers to is threaded beside the coordinator, with the outcome of the
    network and the three clock readings of [detect_pets].  Without a
    detector the attribute access raises, which the method catches.  A
    [Detection] object is always true in [if best_detection]. *)
Definition _process_detection (y : option Yolo.YOLODetector)
    (outcome : Yolo.ModelOutcome) (t0 t1 t2 : Q)
    : list PyDetection * option Yolo.YOLODetector :=
  match y with
  | None => ([], None)
  | Some d =>
      let (detections, d') := Yolo.detect_pets d outcome t0 t1 t2 in
      match detections with
      | [] => ([], Some d')
      | _ :: _ =>
          match Yolo.get_best_detection detections with
          | Some best_detection => ([of_detector best_detection], Some d')
          | None => ([], Some d')
          end
      end
  end.

(** What one pass of the main loop reads: whether the camera delivered a
    frame, what the network answers, the clock readings of the detector, of
    the control step and of the status update, and whether the key read by
    [cv2.waitKey] is [q]. *)
Record LoopEnv : Type := {
  frame_read : bool;
  model_outcome : Yolo.ModelOutcome;
  detect_clock : Q * Q * Q;
  control : CycleEnv;
  quit_key : bool;
  status_now : Q
}.

Inductive LoopControl : Type := Continue | Break.

Section MainLoop.

Variable np_sin : Q -> Q.

(** One control cycle on a given list of detections, dictionaries or
    objects: [_update_tracking_control], then [_update_system_status]. *)
Definition cycle (c : TrackingCoordinator)
    (step : CycleEnv * Q * list PyDetection) : TrackingCoordinator :=
  let '(env, status_now, detections) := step in
  _update_system_status (_update_tracking_control np_sin c env detections)
    status_now detections.

Definition cycles (c : TrackingCoordinator)
    (steps : list (CycleEnv * Q * list PyDetection)) : TrackingCoordinator :=
  fold_left cycle steps c.

(** The body of the [while] loop of [_main_loop]; drawing and showing the
    frame have no effect on the state and are taken not to raise. *)
Definition _main_loop_body (c : TrackingCoordinator)
    (y : option Yolo.YOLODetector) (env : LoopEnv)
    : LoopControl * (TrackingCoordinator * option Yolo.YOLODetector) :=
  if negb (frame_read env) then (Continue, (c, y))
  else
    let '(t0, t1, t2) := detect_clock env in
    let (detection_results, y') :=
      _process_detection y (model_outcome env) t0 t1 t2 in
    let c1 := _update_tracking_control np_sin c (control env) detection_results in
    if show_display c1 && quit_key env then (Break, (c1, y'))
    else
      (Continue,
       (_update_system_status c1 (status_now env) detection_results, y')).

(** The passes of the [while self.is_running] loop over a sequence of
    environments, up to a [break]; the [finally] clause, which calls
    [stop_tracking], is not part of it. *)
Fixpoint _main_loop (c : TrackingCoordinator) (y : option Yolo.YOLODetector)
    (envs : list LoopEnv) : TrackingCoordinator * option Yolo.YOLODetector :=
  match envs with
  | [] => (c, y)
  | env :: rest =>
      if negb (is_running c) then (c, y)
      else
        match _main_loop_body c y env with
        | (Break, s) => s
        | (Continue, (c', y')) => _main_loop c' y' rest
        end
  end.

End MainLoop.

(** *** Starting and stopping *)

Definition set_is_running (c : TrackingCoordinator) (b : bool)
    : TrackingCoordinator :=
  {| camera_id := camera_id c; image_width := image_width c;
     image_height := image_height c;
     detection_interval := detection_interval c;
     lost_target_timeout := lost_target_timeout c;
     show_display := show_display c;
     status := status c; is_running := b;
     system_start_time := system_start_time c;
     camera := camera c; servo_controller := servo_controller c;
     yolo_detector := yolo_detector c;
     simple_p_controller := simple_p_controller c |}.

(** [start_tracking]; the thread it starts runs [_main_loop]. *)
Definition start_tracking (c : TrackingCoordinator) (env : InitEnv)
    : TrackingCoordinator :=
  if is_running c then c
  else
    let (ok, c1) := initialize_system c env in
    if negb ok then c1 else set_is_running c1 true.

(** What [_cleanup_resources] meets: whether closing the windows raises,
    and the outcomes of the two writes to the servos and of the release of
    the PWM board. *)
Record CleanupEnv : Type := {
  gui_ok : bool;
  stop_center_write : ServoCtl.HwOutcome;
  stop_cleanup_write : ServoCtl.HwOutcome;
  stop_pca_ok : bool
}.

(** [_cleanup_resources]: an exception ends the clean-up where it is
    raised; releasing the camera is taken not to raise, and the clean-ups of
    the three modules catch their own exceptions. *)
Definition _cleanup_resources (c : TrackingCoordinator) (env : CleanupEnv)
    : TrackingCoordinator :=
  if show_display c && negb (gui_ok env) then c
  else
    let c1 :=
      match servo_controller c with
      | Some sc =>
          let (_, sc1) := ServoCtl.move_to_center sc (stop_center_write env) in
          set_servo_controller c
            (Some (ServoCtl.cleanup sc1 (stop_cleanup_write env)
                     (stop_pca_ok env)))
      | None => c
      end in
    let c2 :=
      match yolo_detector c1 with
      | Some _ => set_yolo_detector c1 (Some {| model_loaded := false |})
      | None => c1
      end in
    match simple_p_controller c2 with
    | Some p => set_simple_p_controller c2 (Some (SimpleP.cleanup p))
    | None => c2
    end.

(** What [stop_tracking] finds in [self.main_thread]: no thread or one that
    has ended, so that there is nothing to wait for; a live thread other
    than the caller, which is joined; or the calling thread itself, as when
    the [finally] clause of [_main_loop] calls [stop_tracking] on the thread
    [start_tracking] created: joining the current thread raises
    [RuntimeError]. *)
Inductive MainThread : Type :=
  | NoLiveThread
  | LiveThreadJoined
  | CallerIsMainThread.

(** [stop_tracking]: [is_running] is cleared first; the [join] is outside
    any [try], so when it raises the method is left before
    [_cleanup_resources]. *)
Definition stop_tracking (c : TrackingCoordinator) (th : MainThread)
    (env : CleanupEnv) : completion * TrackingCoordinator :=
  let c1 := set_is_running c false in
  match th with
  | CallerIsMainThread => (Raised, c1)
  | NoLiveThread | LiveThreadJoined => (Normal, _cleanup_resources c1 env)
  end.

(** The actuator side of a coordinator is the one of [c]: servo controller,
    cached angles, proportional controller and the record of the last
    detection. *)
Definition actuator_untouched (c c' : TrackingCoordinator) : Prop :=
  servo_controller c' = servo_controller c
  /\ simple_p_controller c' = simple_p_controller c
  /\ pan_angle (status c') = pan_angle (status c)
  /\ tilt_angle (status c') = tilt_angle (status c)
  /\ correction_applied (status c') = correction_applied (status c)
  /\ target_class (status c') = target_class (status c)
  /\ last_detection_time (status c') = None.

(** The servo controller of the coordinator has the default ranges and
    keeps its limits, and the cached angles lie within the ranges. *)
Definition cache_in_range (c : TrackingCoordinator) : Prop :=
  exists sc : ServoCtl.ServoController,
    servo_controller c = Some sc
    /\ ServoCtl.guarded sc
    /\ (ServoCtl.pan_min sc, ServoCtl.pan_max sc) = ServoCtl.default_pan_range
    /\ (ServoCtl.tilt_min sc, ServoCtl.tilt_max sc) = ServoCtl.default_tilt_range
    /\ ServoCtl.in_range sc (pan_angle (status c)) (tilt_angle (status c)).

End Coordinator.

(** ** The claims the code does not meet, as they are stated *)

Module Stated.

(** C1 as stated: out of range, [set_angles] fails and keeps the angles; in
    range on a ready controller, it succeeds and stores the pair. *)
Definition set_angles_claim : Prop :=
  forall (c : ServoCtl.ServoController) (hw : ServoCtl.HwOutcome) (pan tilt : Q),
    (~ ServoCtl.in_range c pan tilt ->
       fst (ServoCtl.set_angles c hw pan tilt) = false
       /\ ServoCtl.get_current_angles (snd (ServoCtl.set_angles c hw pan tilt))
          = ServoCtl.get_current_angles c)
    /\ (ServoCtl.in_range c pan tilt -> ServoCtl._is_ready c = true ->
       fst (ServoCtl.set_angles c hw pan tilt) = true
       /\ ServoCtl.get_current_angles (snd (ServoCtl.set_angles c hw pan tilt))
          = (pan, tilt)).

(** C2 as stated, in the words of the specification: [clip(v, lo, hi)] is
    [lo] below [lo], [hi] above [hi] and [v] in between; the correction is
    formed from the pixel errors, each zeroed inside the deadband, with the
    tilt term negated. *)
Definition clip (v lo hi : Q) : Q :=
  if Qltb v lo then lo else if Qltb hi v then hi else v.

Definition proportional_law (cx cy deadband Kp_pan Kp_tilt max_correction : Q)
    (x y : Q) : Q * Q :=
  let ex := x - cx in
  let ey := y - cy in
  let ex := if Qltb (Qabs ex) deadband then 0 else ex in
  let ey := if Qltb (Qabs ey) deadband then 0 else ey in
  (clip (ex * Kp_pan) (- max_correction) max_correction,
   clip (- ey * Kp_tilt) (- max_correction) max_correction).

(** The states of a PID controller a caller can reach: built with limits
    [min < max], then any sequence of its public methods. *)
Inductive pid_reachable : PID.PIDController -> Prop :=
  | reach_init (kP kI kD : Q) (ol il : Q * Q) (st : Q) (nm : string)
      (t0 t1 : Q) :
      fst ol < snd ol -> fst il < snd il ->
      pid_reachable (PID.__init__ kP kI kD ol il st nm t0 t1)
  | reach_update (c : PID.PIDController) (t0 t1 t2 : Q) (e : option Q) :
      pid_reachable c -> pid_reachable (snd (PID.update c t0 t1 t2 e))
  | reach_reset (c : PID.PIDController) (now : Q) :
      pid_reachable c -> pid_reachable (PID.reset c now)
  | reach_set_parameters (c : PID.PIDController) (p i d : Q) :
      pid_reachable c -> pid_reachable (PID.set_parameters c p i d)
  | reach_set_output_limits (c : PID.PIDController) (lo hi : Q) :
      pid_reachable c -> pid_reachable (snd (PID.set_output_limits c lo hi))
  | reach_set_integral_limits (c : PID.PIDController) (lo hi : Q) :
      pid_reachable c -> pid_reachable (snd (PID.set_integral_limits c lo hi))
  | reach_cleanup (c : PID.PIDController) :
      pid_reachable c -> pid_reachable (PID.cleanup c).

(** C4 as stated: both components of every proportional correction are
    bounded by [max_correction], and in every reachable state the output of
    the PID [update] lies within the configured output limits. *)
Definition bounded_output_claim : Prop :=
  (forall (c : SimpleP.SimpleProportionalController) (t x y : Q),
     0 <= SimpleP.max_correction c ->
     Qabs (fst (fst (SimpleP.calculate_correction c t (Some (x, y)))))
       <= SimpleP.max_correction c
     /\ Qabs (snd (fst (SimpleP.calculate_correction c t (Some (x, y)))))
       <= SimpleP.max_correction c)
  /\ (forall c : PID.PIDController, pid_reachable c ->
      forall t0 t1 t2 e : Q,
        fst (PID.output_limits c) <= fst (PID.update c t0 t1 t2 (Some e))
        /\ fst (PID.update c t0 t1 t2 (Some e)) <= snd (PID.output_limits c)).

(** C5 as stated: in every reachable state, after a call of [update] the
    stored integral lies within the integral limits. *)
Definition integral_claim : Prop :=
  forall c : PID.PIDController, pid_reachable c ->
  forall t0 t1 t2 e : Q,
    PID.integral_in_limits (snd (PID.update c t0 t1 t2 (Some e))).

(** A default controller with [kI = 1] that accumulated the integral 40 and
    then had its integral limits narrowed to [-5, 5]. *)
Definition squeezed : PID.PIDController :=
  snd (PID.set_integral_limits
         (snd (PID.update (PID.default 1 1 0 0 0) 1 1 1 (Some 40)))
         (-5) 5).

(** A default controller with [kP = 1] that computed the output 50 and then
    had its output limits narrowed to [-10, 10]. *)
Definition narrowed : PID.PIDController :=
  snd (PID.set_output_limits
         (snd (PID.update (PID.default 1 0 0 0 0) 1 1 1 (Some 50)))
         (-10) 10).

End Stated.

(** * Properties *)

(** ** Comparisons and clipping *)

Lemma Qleb_spec (x y : Q) : Qleb x y = true <-> x <= y.
Proof. unfold Qleb. apply Qle_bool_iff. Qed.

Lemma Qleb_false (x y : Q) : Qleb x y = false <-> y < x.
Proof.
  unfold Qleb. split; intro H.
  - apply Qnot_le_lt. intro L. apply Qle_bool_iff in L. congruence.
  - destruct (Qle_bool x y) eqn:E; [|reflexivity].
    apply Qle_bool_iff in E. lra.
Qed.

Lemma Qltb_spec (x y : Q) : Qltb x y = true <-> x < y.
Proof.
  unfold Qltb. rewrite negb_true_iff. apply (Qleb_false y x).
Qed.

Lemma Qltb_false (x y : Q) : Qltb x y = false <-> y <= x.
Proof.
  unfold Qltb. rewrite negb_false_iff. apply Qle_bool_iff.
Qed.

Lemma np_clip_bounds (x lo hi : Q) :
  lo <= hi -> lo <= np_clip x lo hi <= hi.
Proof.
  intro H. unfold np_clip, np_minimum, np_maximum.
  destruct (Qltb x lo) eqn:E1.
  - destruct (Qltb hi lo) eqn:E2.
    + apply Qltb_spec in E2. lra.
    + lra.
  - apply Qltb_false in E1.
    destruct (Qltb hi x) eqn:E2.
    + lra.
    + apply Qltb_false in E2. lra.
Qed.

Lemma np_clip_inside (x lo hi : Q) :
  lo <= x <= hi -> np_clip x lo hi = x.
Proof.
  intros [H1 H2]. unfold np_clip, np_minimum, np_maximum.
  destruct (Qltb x lo) eqn:E1.
  - apply Qltb_spec in E1. lra.
  - destruct (Qltb hi x) eqn:E2; [|reflexivity].
    apply Qltb_spec in E2. lra.
Qed.

Lemma np_clip_below (x lo hi : Q) :
  lo <= hi -> x < lo -> np_clip x lo hi = lo.
Proof.
  intros H1 H2. unfold np_clip, np_minimum, np_maximum.
  apply Qltb_spec in H2. rewrite H2.
  destruct (Qltb hi lo) eqn:E; [|reflexivity].
  apply Qltb_spec in E. lra.
Qed.

Lemma np_clip_above (x lo hi : Q) :
  lo <= hi -> hi < x -> np_clip x lo hi = hi.
Proof.
  intros H1 H2. unfold np_clip, np_minimum, np_maximum.
  destruct (Qltb x lo) eqn:E.
  - apply Qltb_spec in E. lra.
  - apply Qltb_spec in H2. rewrite H2. reflexivity.
Qed.

Lemma np_clip_abs (x m : Q) : 0 <= m -> Qabs (np_clip x (- m) m) <= m.
Proof.
  intro H. apply Qabs_Qle_condition. apply np_clip_bounds. lra.
Qed.

Lemma np_clip_zero (z m : Q) : 0 <= m -> z == 0 -> np_clip z (- m) m == 0.
Proof.
  intros H Hz. rewrite np_clip_inside; [exact Hz | lra].
Qed.

(** ** The actuator guard *)

Lemma is_angle_safe_spec (c : ServoCtl.ServoController) (pan tilt : Q) :
  ServoCtl.is_angle_safe c pan tilt = true <-> ServoCtl.in_range c pan tilt.
Proof.
  unfold ServoCtl.is_angle_safe, ServoCtl._is_pan_angle_safe,
    ServoCtl._is_tilt_angle_safe, ServoCtl.in_range.
  rewrite !andb_true_iff, !Qleb_spec. tauto.
Qed.

Lemma is_angle_safe_false (c : ServoCtl.ServoController) (pan tilt : Q) :
  ServoCtl.is_angle_safe c pan tilt = false <-> ~ ServoCtl.in_range c pan tilt.
Proof.
  rewrite <- is_angle_safe_spec.
  destruct (ServoCtl.is_angle_safe c pan tilt); split; congruence.
Qed.

Lemma _set_servo_angles_frame (c : ServoCtl.ServoController)
    (hw : ServoCtl.HwOutcome) (pan tilt : Q) :
  let c' := snd (ServoCtl._set_servo_angles c hw pan tilt) in
  ServoCtl.current_pan_angle c' = ServoCtl.current_pan_angle c
  /\ ServoCtl.current_tilt_angle c' = ServoCtl.current_tilt_angle c
  /\ ServoCtl.status c' = ServoCtl.status c
  /\ ServoCtl.pan_min c' = ServoCtl.pan_min c
  /\ ServoCtl.pan_max c' = ServoCtl.pan_max c
  /\ ServoCtl.tilt_min c' = ServoCtl.tilt_min c
  /\ ServoCtl.tilt_max c' = ServoCtl.tilt_max c.
Proof.
  unfold ServoCtl._set_servo_angles.
  destruct (ServoCtl.pan_servo c), hw; simpl;
    destruct (ServoCtl.tilt_servo c); simpl; repeat split; reflexivity.
Qed.

Lemma _set_servo_angles_status (c : ServoCtl.ServoController)
    (s : ServoCtl.ServoStatus) (hw : ServoCtl.HwOutcome) (pan tilt : Q) :
  fst (ServoCtl._set_servo_angles (ServoCtl.set_status c s) hw pan tilt)
  = fst (ServoCtl._set_servo_angles c hw pan tilt).
Proof.
  unfold ServoCtl._set_servo_angles.
  destruct (ServoCtl.pan_servo c) eqn:Ep, hw; simpl; rewrite ?Ep; simpl;
    try reflexivity;
    destruct (ServoCtl.tilt_servo c) eqn:Et; simpl; rewrite ?Et; reflexivity.
Qed.

(** A rejected pair leaves the whole controller as it was. *)
Lemma set_angles_rejects (c : ServoCtl.ServoController)
    (hw : ServoCtl.HwOutcome) (pan tilt : Q) :
  ~ ServoCtl.in_range c pan tilt ->
  ServoCtl.set_angles c hw pan tilt = (false, c).
Proof.
  intro H. apply is_angle_safe_false in H. unfold ServoCtl.set_angles.
  destruct (ServoCtl._is_ready c); simpl; [|reflexivity].
  rewrite H. reflexivity.
Qed.

(** Whatever the outcome, [set_angles] returns [false] exactly when it did
    not store the requested pair as a successful move. *)
Lemma set_angles_false_keeps (c : ServoCtl.ServoController)
    (hw : ServoCtl.HwOutcome) (pan tilt : Q) :
  fst (ServoCtl.set_angles c hw pan tilt) = false ->
  ServoCtl.get_current_angles (snd (ServoCtl.set_angles c hw pan tilt))
  = ServoCtl.get_current_angles c.
Proof.
  unfold ServoCtl.set_angles.
  destruct (ServoCtl._is_ready c); simpl; [|reflexivity].
  destruct (ServoCtl.is_angle_safe c pan tilt); simpl; [|reflexivity].
  pose proof (_set_servo_angles_frame
                (ServoCtl.set_status c ServoCtl.MOVING) hw pan tilt) as F.
  destruct (ServoCtl._set_servo_angles
              (ServoCtl.set_status c ServoCtl.MOVING) hw pan tilt) as [[|] c1];
    simpl in *; [discriminate|].
  intros _. unfold ServoCtl.get_current_angles. simpl.
  destruct F as (F1 & F2 & _). rewrite F1, F2. reflexivity.
Qed.

(** C1 (counterexample): a ready controller with the default ranges is
    asked for the in-range pair (0, 0) while the driver refuses the pan
    write; [set_angles] returns [False], so the claim as stated fails. *)
Lemma set_angles_claim_fails : ~ Stated.set_angles_claim.
Proof.
  intro H.
  destruct (H ServoCtl.ready_default ServoCtl.PanWriteRaises 0 0) as [_ H2].
  assert (R : ServoCtl.in_range ServoCtl.ready_default 0 0).
  { unfold ServoCtl.in_range; simpl; lra. }
  destruct (H2 R eq_refl) as [H3 _].
  vm_compute in H3. discriminate.
Qed.

(** C1 (amended): for every configured range and every requested pair, a
    pair outside the ranges makes [set_angles] return [False] and leaves the
    controller, hence both stored angles, unchanged; a pair inside the
    ranges on a ready controller whose driver write goes through makes it
    return [True] with the stored angles exactly the requested pair; when
    the driver write raises it returns [False], keeps the stored angles and
    sets the status to [ERROR].  With the default ranges, [set_angles(100, 0)]
    returns [False] and changes nothing. *)
Theorem set_angles_guard :
  forall (c : ServoCtl.ServoController) (hw : ServoCtl.HwOutcome) (pan tilt : Q),
    (~ ServoCtl.in_range c pan tilt ->
       ServoCtl.set_angles c hw pan tilt = (false, c))
    /\ (ServoCtl.in_range c pan tilt -> ServoCtl._is_ready c = true ->
        fst (ServoCtl._set_servo_angles c hw pan tilt) = Normal ->
        fst (ServoCtl.set_angles c hw pan tilt) = true
        /\ ServoCtl.get_current_angles (snd (ServoCtl.set_angles c hw pan tilt))
           = (pan, tilt)
        /\ ServoCtl.status (snd (ServoCtl.set_angles c hw pan tilt))
           = ServoCtl.READY)
    /\ (ServoCtl.in_range c pan tilt -> ServoCtl._is_ready c = true ->
        fst (ServoCtl._set_servo_angles c hw pan tilt) = Raised ->
        fst (ServoCtl.set_angles c hw pan tilt) = false
        /\ ServoCtl.get_current_angles (snd (ServoCtl.set_angles c hw pan tilt))
           = ServoCtl.get_current_angles c
        /\ ServoCtl.status (snd (ServoCtl.set_angles c hw pan tilt))
           = ServoCtl.ERROR)
    /\ ServoCtl.set_angles ServoCtl.ready_default hw 100 0
       = (false, ServoCtl.ready_default).
Proof.
  intros c hw pan tilt. split; [apply set_angles_rejects|].
  split; [|split].
  - intros R Hr Hw. apply is_angle_safe_spec in R.
    unfold ServoCtl.set_angles. rewrite Hr, R. simpl.
    pose proof (_set_servo_angles_status c ServoCtl.MOVING hw pan tilt) as S.
    rewrite Hw in S.
    destruct (ServoCtl._set_servo_angles
                (ServoCtl.set_status c ServoCtl.MOVING) hw pan tilt) as [r c1].
    simpl in S. subst r. simpl. repeat split; reflexivity.
  - intros R Hr Hw.
    assert (F : fst (ServoCtl.set_angles c hw pan tilt) = false
                /\ ServoCtl.status (snd (ServoCtl.set_angles c hw pan tilt))
                   = ServoCtl.ERROR).
    { apply is_angle_safe_spec in R.
      unfold ServoCtl.set_angles. rewrite Hr, R. simpl.
      pose proof (_set_servo_angles_status c ServoCtl.MOVING hw pan tilt) as S.
      rewrite Hw in S.
      destruct (ServoCtl._set_servo_angles
                  (ServoCtl.set_status c ServoCtl.MOVING) hw pan tilt) as [r c1].
      simpl in S. subst r. simpl. split; reflexivity. }
    destruct F as [F1 F2]. repeat split; try assumption.
    apply set_angles_false_keeps. exact F1.
  - apply set_angles_rejects. unfold ServoCtl.in_range. simpl. lra.
Qed.

Lemma set_angles_guard_witness :
  ServoCtl.set_angles ServoCtl.ready_default ServoCtl.WriteOk 0 50
  = (false, ServoCtl.ready_default)
  /\ (fst (ServoCtl.set_angles ServoCtl.ready_default ServoCtl.WriteOk 10 5)
      = true
      /\ ServoCtl.get_current_angles
           (snd (ServoCtl.set_angles ServoCtl.ready_default ServoCtl.WriteOk 10 5))
         = (10, 5)
      /\ ServoCtl.status
           (snd (ServoCtl.set_angles ServoCtl.ready_default ServoCtl.WriteOk 10 5))
         = ServoCtl.READY)
  /\ (fst (ServoCtl.set_angles ServoCtl.ready_default
             ServoCtl.TiltWriteRaises 10 5) = false
      /\ ServoCtl.get_current_angles
           (snd (ServoCtl.set_angles ServoCtl.ready_default
                   ServoCtl.TiltWriteRaises 10 5))
         = ServoCtl.get_current_angles ServoCtl.ready_default
      /\ ServoCtl.status
           (snd (ServoCtl.set_angles ServoCtl.ready_default
                   ServoCtl.TiltWriteRaises 10 5))
         = ServoCtl.ERROR).
Proof.
  split; [|split].
  - destruct (set_angles_guard ServoCtl.ready_default ServoCtl.WriteOk 0 50)
      as (H & _).
    apply H. unfold ServoCtl.in_range. simpl. lra.
  - destruct (set_angles_guard ServoCtl.ready_default ServoCtl.WriteOk 10 5)
      as (_ & H & _).
    apply H.
    + unfold ServoCtl.in_range. simpl. lra.
    + reflexivity.
    + reflexivity.
  - destruct (set_angles_guard ServoCtl.ready_default
                ServoCtl.TiltWriteRaises 10 5) as (_ & _ & H & _).
    apply H.
    + unfold ServoCtl.in_range. simpl. lra.
    + reflexivity.
    + reflexivity.
Defined.

(** ** The proportional law *)

Lemma SimplePStatus_eqb_spec (a b : SimpleP.SimplePStatus) :
  SimpleP.SimplePStatus_eqb a b = true <-> a = b.
Proof. destruct a, b; simpl; split; congruence. Qed.

Lemma SimplePStatus_eqb_false (a b : SimpleP.SimplePStatus) :
  SimpleP.SimplePStatus_eqb a b = false <-> a <> b.
Proof. destruct a, b; simpl; split; congruence. Qed.

(** The value [calculate_correction] returns on a controller that is not in
    [ERROR], for a well-formed centre. *)
Lemma calculate_correction_value (c : SimpleP.SimpleProportionalController)
    (t x y : Q) :
  SimpleP.status c <> SimpleP.ERROR ->
  fst (SimpleP.calculate_correction c t (Some (x, y)))
  = (np_clip
       (SimpleP.apply_deadband c (x - inject_Z (fst (SimpleP.image_center c)))
        * SimpleP.pan_gain c)
       (- SimpleP.max_correction c) (SimpleP.max_correction c),
     np_clip
       (- SimpleP.apply_deadband c (y - inject_Z (snd (SimpleP.image_center c)))
        * SimpleP.tilt_gain c)
       (- SimpleP.max_correction c) (SimpleP.max_correction c)).
Proof.
  intro H. apply SimplePStatus_eqb_false in H.
  unfold SimpleP.calculate_correction. rewrite H. reflexivity.
Qed.

Lemma apply_deadband_inside (c : SimpleP.SimpleProportionalController) (e : Q) :
  Qabs e < SimpleP.deadband c -> SimpleP.apply_deadband c e = 0.
Proof.
  intro H. unfold SimpleP.apply_deadband.
  apply Qltb_spec in H. rewrite H. reflexivity.
Qed.

Lemma apply_deadband_outside (c : SimpleP.SimpleProportionalController) (e : Q) :
  SimpleP.deadband c <= Qabs e -> SimpleP.apply_deadband c e = e.
Proof.
  intro H. unfold SimpleP.apply_deadband.
  apply Qltb_false in H. rewrite H. reflexivity.
Qed.

(** [numpy.clip] is the clip of the specification when the lower limit is
    not above the upper one. *)
Lemma np_clip_is_clip (v lo hi : Q) :
  lo <= hi -> np_clip v lo hi = Stated.clip v lo hi.
Proof.
  intro H. unfold Stated.clip.
  destruct (Qltb v lo) eqn:E1.
  - apply Qltb_spec in E1. apply np_clip_below; assumption.
  - apply Qltb_false in E1. destruct (Qltb hi v) eqn:E2.
    + apply Qltb_spec in E2. apply np_clip_above; assumption.
    + apply Qltb_false in E2. apply np_clip_inside. split; assumption.
Qed.

(** C2: on a controller that is not in [ERROR], for every detection centre
    (x, y) and image centre (cx, cy), [calculate_correction] forms
    ex = x - cx and ey = y - cy, replaces ex by 0 when |ex| < deadband and,
    independently, ey by 0 when |ey| < deadband, and returns
    (clip(ex * Kp_pan, -max, +max), clip(-ey * Kp_tilt, -max, +max)), the
    tilt term negated.  With max_correction >= 0 this is the law of the
    specification, where clip(v, lo, hi) is lo below lo, hi above hi and v
    in between: a product below -max gives -max, one above +max gives +max,
    and one in between is returned as it is.  With the defaults of a 640x480
    image (centre (320, 240), gains 0.0156 and 0.0208, deadband 5,
    max_correction 15) the centre (420, 240) gives (1.56, 0), the centre
    (320, 320) gives (0, -1.664), the centre (2000, 240) gives the clipped
    (15, 0), the centre (320, 2000) the clipped (0, -15) and the centre
    (-2000, -2000) the clipped (-15, 15).  Whenever both |ex| and |ey| are
    below the deadband, and max_correction is not negative, the result is
    (0, 0). *)
Theorem calculate_correction_law :
  forall (c : SimpleP.SimpleProportionalController) (t x y : Q),
    SimpleP.status c <> SimpleP.ERROR ->
    let cx := inject_Z (fst (SimpleP.image_center c)) in
    let cy := inject_Z (snd (SimpleP.image_center c)) in
    let ex := if Qltb (Qabs (x - cx)) (SimpleP.deadband c) then 0 else x - cx in
    let ey := if Qltb (Qabs (y - cy)) (SimpleP.deadband c) then 0 else y - cy in
    let m := SimpleP.max_correction c in
    let r := fst (SimpleP.calculate_correction c t (Some (x, y))) in
    r = (np_clip (ex * SimpleP.pan_gain c) (- m) m,
         np_clip (- ey * SimpleP.tilt_gain c) (- m) m)
    /\ (0 <= m ->
        Qabs (x - cx) < SimpleP.deadband c ->
        Qabs (y - cy) < SimpleP.deadband c ->
        Qpair_eq r (0, 0))
    /\ SimpleP.image_center (SimpleP.default 640 480 t t) = (320%Z, 240%Z)
    /\ Qpair_eq
         (fst (SimpleP.calculate_correction (SimpleP.default 640 480 t t) t
                 (Some (420, 240))))
         (1.56, 0)
    /\ Qpair_eq
         (fst (SimpleP.calculate_correction (SimpleP.default 640 480 t t) t
                 (Some (320, 320))))
         (0, -1.664)
    /\ (0 <= m ->
        r = Stated.proportional_law cx cy (SimpleP.deadband c)
              (SimpleP.pan_gain c) (SimpleP.tilt_gain c) m x y)
    /\ (0 <= m ->
        (ex * SimpleP.pan_gain c < - m -> fst r = - m)
        /\ (- m <= ex * SimpleP.pan_gain c <= m ->
            fst r = ex * SimpleP.pan_gain c)
        /\ (m < ex * SimpleP.pan_gain c -> fst r = m)
        /\ (- ey * SimpleP.tilt_gain c < - m -> snd r = - m)
        /\ (- m <= - ey * SimpleP.tilt_gain c <= m ->
            snd r = - ey * SimpleP.tilt_gain c)
        /\ (m < - ey * SimpleP.tilt_gain c -> snd r = m))
    /\ Qpair_eq
         (fst (SimpleP.calculate_correction (SimpleP.default 640 480 t t) t
                 (Some (2000, 240))))
         (15, 0)
    /\ Qpair_eq
         (fst (SimpleP.calculate_correction (SimpleP.default 640 480 t t) t
                 (Some (320, 2000))))
         (0, -15)
    /\ Qpair_eq
         (fst (SimpleP.calculate_correction (SimpleP.default 640 480 t t) t
                 (Some (-2000, -2000))))
         (-15, 15).
Proof.
  intros c t x y H cx cy ex ey m r.
  assert (V : r = (np_clip (ex * SimpleP.pan_gain c) (- m) m,
                   np_clip (- ey * SimpleP.tilt_gain c) (- m) m))
    by exact (calculate_correction_value c t x y H).
  split; [exact V|].
  split.
  { intros Hm Hx Hy. rewrite V. subst ex ey.
    apply Qltb_spec in Hx. apply Qltb_spec in Hy. rewrite Hx, Hy.
    split; simpl; apply np_clip_zero; try assumption; lra. }
  split; [reflexivity|].
  split; [split; vm_compute; reflexivity|].
  split; [split; vm_compute; reflexivity|].
  split.
  { intro Hm. rewrite V. unfold Stated.proportional_law.
    fold ex ey. rewrite !np_clip_is_clip by lra. reflexivity. }
  split.
  { intro Hm. rewrite V. cbn [fst snd].
    assert (L : - m <= m) by lra.
    repeat split; intro K;
      first [apply np_clip_below; assumption
            | apply np_clip_inside; assumption
            | apply np_clip_above; assumption]. }
  repeat split; vm_compute; reflexivity.
Qed.

Lemma calculate_correction_law_witness :
  Qpair_eq
    (fst (SimpleP.calculate_correction (SimpleP.default 640 480 0 0) 1
            (Some (322, 237))))
    (0, 0)
  /\ fst (SimpleP.calculate_correction (SimpleP.default 640 480 0 0) 1
            (Some (520, 100)))
     = (np_clip (200 * 0.0156) (- (15)) 15, np_clip (- (-140) * 0.0208) (- (15)) 15)
  /\ fst (SimpleP.calculate_correction (SimpleP.default 640 480 0 0) 1
            (Some (2000, 100)))
     = Stated.proportional_law 320 240 5 0.0156 0.0208 15 2000 100
  /\ fst (fst (SimpleP.calculate_correction (SimpleP.default 640 480 0 0) 1
                 (Some (2000, 100)))) = 15
  /\ snd (fst (SimpleP.calculate_correction (SimpleP.default 640 480 0 0) 1
                 (Some (2000, 2000)))) = - (15).
Proof.
  split; [|split; [|split; [|split]]].
  - destruct (calculate_correction_law (SimpleP.default 640 480 0 0) 1 322 237)
      as (_ & H & _).
    + simpl. discriminate.
    + apply H; simpl.
      * lra.
      * vm_compute. reflexivity.
      * vm_compute. reflexivity.
  - destruct (calculate_correction_law (SimpleP.default 640 480 0 0) 1 520 100)
      as (H & _).
    + simpl. discriminate.
    + rewrite H. vm_compute. reflexivity.
  - destruct (calculate_correction_law (SimpleP.default 640 480 0 0) 1 2000 100)
      as (_ & _ & _ & _ & _ & H & _).
    + simpl. discriminate.
    + apply H. vm_compute. discriminate.
  - destruct (calculate_correction_law (SimpleP.default 640 480 0 0) 1 2000 100)
      as (_ & _ & _ & _ & _ & _ & H & _).
    + simpl. discriminate.
    + destruct H as (_ & _ & K & _).
      * vm_compute. discriminate.
      * apply K. vm_compute. reflexivity.
  - destruct (calculate_correction_law (SimpleP.default 640 480 0 0) 1 2000 2000)
      as (_ & _ & _ & _ & _ & _ & H & _).
    + simpl. discriminate.
    + destruct H as (_ & _ & _ & K & _).
      * vm_compute. discriminate.
      * apply K. vm_compute. reflexivity.
Defined.

(** ** The PID law *)

Lemma PIDStatus_eqb_spec (a b : PID.PIDStatus) :
  PID.PIDStatus_eqb a b = true <-> a = b.
Proof. destruct a, b; simpl; split; congruence. Qed.

Lemma PIDStatus_eqb_false (a b : PID.PIDStatus) :
  PID.PIDStatus_eqb a b = false <-> a <> b.
Proof. destruct a, b; simpl; split; congruence. Qed.

Lemma recomputes_true (c : PID.PIDController) (t1 : Q) :
  PID.recomputes c t1 = true ->
  PID.PIDStatus_eqb (PID.status c) PID.ERROR = false
  /\ Qltb (t1 - PID.prev_time (PID.state c)) (PID.sample_time c)
     && Nat.ltb 0 (PID.total_updates c) = false.
Proof.
  unfold PID.recomputes. rewrite andb_true_iff, !negb_true_iff. tauto.
Qed.

(** In [ERROR], [update] returns 0 and touches nothing. *)
Lemma update_in_error (c : PID.PIDController) (t0 t1 t2 : Q) (e : option Q) :
  PID.status c = PID.ERROR -> PID.update c t0 t1 t2 e = (0, c).
Proof.
  intro H. unfold PID.update. rewrite H. reflexivity.
Qed.

(** A rate-limited call returns the stored output; only the status moves,
    to [RUNNING]. *)
Lemma update_rate_limited (c : PID.PIDController) (t0 t1 t2 : Q) (e : option Q) :
  PID.status c <> PID.ERROR ->
  PID.recomputes c t1 = false ->
  PID.update c t0 t1 t2 e
  = (PID.output (PID.state c), PID.set_status c PID.RUNNING).
Proof.
  intros H R. apply PIDStatus_eqb_false in H.
  unfold PID.recomputes in R. rewrite H in R. simpl in R.
  apply negb_false_iff in R.
  unfold PID.update. rewrite H. simpl. rewrite R. reflexivity.
Qed.

(** A call that recomputes on an error that is not a number ends in
    [ERROR] with 0. *)
Lemma update_bad_error (c : PID.PIDController) (t0 t1 t2 : Q) :
  PID.recomputes c t1 = true ->
  PID.update c t0 t1 t2 None
  = (0, PID.set_status (PID.set_status c PID.RUNNING) PID.ERROR).
Proof.
  intro R. apply recomputes_true in R. destruct R as [H R].
  unfold PID.update. rewrite H. simpl. rewrite R. reflexivity.
Qed.

(** Reduces the projections and field writes of the controller, and
    nothing else. *)
Ltac pid_fields :=
  cbn [PID.kP PID.kI PID.kD PID.output_limits PID.integral_limits
       PID.sample_time PID.name PID.state PID.status PID.update_count
       PID.saturation_count PID.performance_history PID.start_time
       PID.total_updates PID.average_update_time
       PID.proportional PID.integral PID.derivative PID.prev_error
       PID.prev_time PID.output PID.is_saturated
       PID.set_status PID.set_state PID.set_saturation_count
       PID.set_performance_history PID.set_total_updates
       PID.set_average_update_time fst snd] in *.

(** What a recomputing call stores and returns. *)
Lemma update_recomputed (c : PID.PIDController) (t0 t1 t2 e : Q) :
  PID.recomputes c t1 = true ->
  let dt := t1 - PID.prev_time (PID.state c) in
  let i := if Qltb 0 dt
           then np_clip (PID.integral (PID.state c) + e * dt)
                  (fst (PID.integral_limits c)) (snd (PID.integral_limits c))
           else PID.integral (PID.state c) in
  let d := if Qltb 0 dt && Nat.ltb 0 (PID.total_updates c)
           then PID.kD c * ((e - PID.prev_error (PID.state c)) / dt)
           else 0 in
  let raw := PID.kP c * e + PID.kI c * i + d in
  let out := np_clip raw (fst (PID.output_limits c)) (snd (PID.output_limits c)) in
  let sat := Qltb (py_max (Qabs (fst (PID.output_limits c)))
                          (Qabs (snd (PID.output_limits c))))
                  (Qabs raw) in
  let c' := snd (PID.update c t0 t1 t2 (Some e)) in
  fst (PID.update c t0 t1 t2 (Some e)) = out
  /\ PID.state c'
     = {| PID.proportional := PID.kP c * e; PID.integral := i;
          PID.derivative := d; PID.prev_error := e; PID.prev_time := t1;
          PID.output := out; PID.is_saturated := sat |}
  /\ PID.status c' = (if sat then PID.SATURATED else PID.READY)
  /\ PID.output_limits c' = PID.output_limits c
  /\ PID.integral_limits c' = PID.integral_limits c
  /\ PID.kI c' = PID.kI c
  /\ PID.total_updates c' = S (PID.total_updates c).
Proof.
  intro R. apply recomputes_true in R. destruct R as [H R].
  cbv zeta. destruct c. pid_fields.
  unfold PID.update. pid_fields. rewrite H. pid_fields. rewrite R.
  match goal with
  | |- context [if ?b then PID.set_status _ PID.SATURATED else _] => destruct b
  end; pid_fields; repeat split; reflexivity.
Qed.

(** [update] never changes the configured limits. *)
Lemma update_keeps_limits (c : PID.PIDController) (t0 t1 t2 : Q) (e : option Q) :
  PID.output_limits (snd (PID.update c t0 t1 t2 e)) = PID.output_limits c
  /\ PID.integral_limits (snd (PID.update c t0 t1 t2 e)) = PID.integral_limits c.
Proof.
  destruct (PID.PIDStatus_eqb (PID.status c) PID.ERROR) eqn:E.
  - apply PIDStatus_eqb_spec in E. rewrite update_in_error by exact E.
    split; reflexivity.
  - apply PIDStatus_eqb_false in E.
    destruct (PID.recomputes c t1) eqn:R.
    + destruct e as [e|].
      * destruct (update_recomputed c t0 t1 t2 e R) as (_ & _ & _ & A & B & _).
        split; assumption.
      * rewrite update_bad_error by exact R. split; reflexivity.
    + rewrite update_rate_limited by assumption. split; reflexivity.
Qed.

(** Both components of a proportional correction are bounded, whatever the
    status and the argument. *)
Lemma calculate_correction_bounded (c : SimpleP.SimpleProportionalController)
    (t : Q) (arg : option (Q * Q)) :
  0 <= SimpleP.max_correction c ->
  Qabs (fst (fst (SimpleP.calculate_correction c t arg)))
    <= SimpleP.max_correction c
  /\ Qabs (snd (fst (SimpleP.calculate_correction c t arg)))
    <= SimpleP.max_correction c.
Proof.
  intro H. unfold SimpleP.calculate_correction.
  destruct (SimpleP.SimplePStatus_eqb (SimpleP.status c) SimpleP.ERROR).
  - simpl. split; exact H.
  - destruct arg as [[x y]|].
    + cbn [fst snd]. split; apply np_clip_abs; exact H.
    + simpl. split; exact H.
Qed.

Lemma narrowed_reachable : Stated.pid_reachable Stated.narrowed.
Proof.
  unfold Stated.narrowed.
  apply Stated.reach_set_output_limits, Stated.reach_update.
  unfold PID.default. apply Stated.reach_init; simpl; lra.
Qed.

(** C4 (counterexample): a default PID controller with kP = 1 computes the
    output 50 at time 1; its output limits are then set to [-10, 10]; the
    next call, 0.001 s later and so rate limited, returns the stored 50,
    which is above the configured maximum 10. *)
Lemma bounded_output_claim_fails : ~ Stated.bounded_output_claim.
Proof.
  intros [_ H].
  destruct (H Stated.narrowed narrowed_reachable 1.001 1.001 1.001 50)
    as [_ H2].
  vm_compute in H2. apply H2. reflexivity.
Qed.

(** The four ways a call of [update] can go. *)
Lemma update_cases (c : PID.PIDController) (t0 t1 t2 : Q) (e : option Q) :
  (PID.status c = PID.ERROR /\ PID.update c t0 t1 t2 e = (0, c))
  \/ (PID.status c <> PID.ERROR /\ PID.recomputes c t1 = false
      /\ PID.update c t0 t1 t2 e
         = (PID.output (PID.state c), PID.set_status c PID.RUNNING))
  \/ (PID.recomputes c t1 = true /\ e = None
      /\ PID.update c t0 t1 t2 e
         = (0, PID.set_status (PID.set_status c PID.RUNNING) PID.ERROR))
  \/ (PID.recomputes c t1 = true /\ exists x, e = Some x).
Proof.
  destruct (PID.PIDStatus_eqb (PID.status c) PID.ERROR) eqn:E.
  - left. apply PIDStatus_eqb_spec in E. split; [exact E|].
    apply update_in_error. exact E.
  - apply PIDStatus_eqb_false in E. right.
    destruct (PID.recomputes c t1) eqn:R.
    + right. destruct e as [x|].
      * right. split; [reflexivity|]. exists x. reflexivity.
      * left. split; [reflexivity|]. split; [reflexivity|].
        apply update_bad_error. exact R.
    + left. split; [exact E|]. split; [reflexivity|].
      apply update_rate_limited; assumption.
Qed.

(** The stored output is the value of the last recomputation since the
    construction or the last [reset], or 0 when there is none; that value
    was within the output limits in force when it was computed. *)
Lemma last_recomputation_stored (ops : list PID.Op) :
  forall (c : PID.PIDController) (acc : option (Q * (Q * Q))),
    fst (PID.output_limits c) <= snd (PID.output_limits c) ->
    PID.output (PID.state c) = PID.recomputed_output acc ->
    (forall v lim, acc = Some (v, lim) -> fst lim <= v <= snd lim) ->
    let last := PID.last_recomputation c ops acc in
    PID.output (PID.state (PID.drive c ops)) = PID.recomputed_output last
    /\ (forall v lim, last = Some (v, lim) -> fst lim <= v <= snd lim)
    /\ fst (PID.output_limits (PID.drive c ops))
       <= snd (PID.output_limits (PID.drive c ops)).
Proof.
  induction ops as [|op ops IH]; intros c acc L O A; cbv zeta.
  - cbn [PID.last_recomputation PID.drive fold_left].
    split; [exact O|]. split; [exact A|exact L].
  - change (PID.drive c (op :: ops)) with (PID.drive (PID.step c op) ops).
    cbn [PID.last_recomputation].
    assert (Same : forall c' : PID.PIDController,
               PID.output_limits c' = PID.output_limits c ->
               PID.output (PID.state c') = PID.output (PID.state c) ->
               PID.output (PID.state (PID.drive c' ops))
               = PID.recomputed_output (PID.last_recomputation c' ops acc)
               /\ (forall v lim,
                     PID.last_recomputation c' ops acc = Some (v, lim) ->
                     fst lim <= v <= snd lim)
               /\ fst (PID.output_limits (PID.drive c' ops))
                  <= snd (PID.output_limits (PID.drive c' ops))).
    { intros c' E1 E2. apply IH; [rewrite E1; exact L | rewrite E2; exact O
                                  | exact A]. }
    destruct op as [t0 t1 t2 e|now|p i d|a b|a b|]; cbn [PID.step].
    + destruct (update_cases c t0 t1 t2 e)
        as [[S1 U] | [(_ & R & U) | [(R & -> & U) | (R & x & ->)]]].
      * assert (R : PID.recomputes c t1 = false).
        { unfold PID.recomputes. rewrite S1. reflexivity. }
        rewrite U. cbn [snd].
        destruct e as [x|]; [rewrite R|]; apply Same; reflexivity.
      * rewrite U. cbn [snd].
        destruct e as [x|]; [rewrite R|]; apply Same; reflexivity.
      * rewrite U. cbn [snd]. apply Same; reflexivity.
      * rewrite R.
        destruct (update_recomputed c t0 t1 t2 x R) as (V & B & _ & K & _).
        cbv zeta in V, B, K.
        apply IH.
        -- rewrite K. exact L.
        -- rewrite B. cbn [PID.output PID.recomputed_output]. symmetry. exact V.
        -- intros v lim E. injection E as <- <-.
           rewrite V. apply np_clip_bounds. exact L.
    + apply IH.
      * unfold PID.reset. cbv zeta. destruct (negb _); exact L.
      * unfold PID.reset. cbv zeta. destruct (negb _); reflexivity.
      * intros v lim E. discriminate E.
    + apply Same; reflexivity.
    + unfold PID.set_output_limits. destruct (Qleb b a) eqn:E; cbn [snd].
      * apply Same; reflexivity.
      * apply IH; [|exact O|exact A].
        apply Qleb_false in E. cbn. lra.
    + unfold PID.set_integral_limits. destruct (Qleb b a); cbn [snd];
        apply Same; reflexivity.
    + apply Same; reflexivity.
Qed.

(** C4 (amended): for every argument and every controller state with
    max_correction >= 0, both components of the proportional correction are
    at most max_correction in absolute value.  For the PID controller with
    output_min <= output_max: every call of [update] that recomputes the
    output from a numeric error returns a value within the
    [output_min, output_max] in force at the call and stores it as the
    output; a rate-limited call returns the stored output unchanged; a
    controller in [ERROR] returns 0, and so does a call that would recompute
    from an error that is not a number.  For a controller built with
    output_min <= output_max and driven by any sequence of its calls, the
    stored output, which a rate-limited call returns, is the value of the
    last recomputation since the construction or the last [reset], which was
    within the limits in force when it was computed, or 0 when nothing was
    recomputed since the construction or the last [reset]. *)
Theorem corrections_bounded :
  (forall (c : SimpleP.SimpleProportionalController) (t : Q)
          (arg : option (Q * Q)),
     0 <= SimpleP.max_correction c ->
     Qabs (fst (fst (SimpleP.calculate_correction c t arg)))
       <= SimpleP.max_correction c
     /\ Qabs (snd (fst (SimpleP.calculate_correction c t arg)))
       <= SimpleP.max_correction c)
  /\ (forall (c : PID.PIDController) (t0 t1 t2 e : Q),
        fst (PID.output_limits c) <= snd (PID.output_limits c) ->
        PID.recomputes c t1 = true ->
        fst (PID.output_limits c) <= fst (PID.update c t0 t1 t2 (Some e))
          <= snd (PID.output_limits c)
        /\ PID.output (PID.state (snd (PID.update c t0 t1 t2 (Some e))))
           = fst (PID.update c t0 t1 t2 (Some e)))
  /\ (forall (c : PID.PIDController) (t0 t1 t2 : Q) (e : option Q),
        PID.status c <> PID.ERROR ->
        PID.recomputes c t1 = false ->
        fst (PID.update c t0 t1 t2 e) = PID.output (PID.state c)
        /\ PID.output (PID.state (snd (PID.update c t0 t1 t2 e)))
           = PID.output (PID.state c))
  /\ (forall (c : PID.PIDController) (t0 t1 t2 : Q) (e : option Q),
        PID.status c = PID.ERROR -> fst (PID.update c t0 t1 t2 e) = 0)
  /\ (forall (c : PID.PIDController) (t0 t1 t2 : Q),
        PID.recomputes c t1 = true -> fst (PID.update c t0 t1 t2 None) = 0)
  /\ (forall (kP kI kD : Q) (output_limits integral_limits : Q * Q)
             (sample_time : Q) (name : string) (t_start t_ready : Q)
             (ops : list PID.Op) (t0 t1 t2 : Q) (e : option Q),
        fst output_limits <= snd output_limits ->
        let c0 := PID.__init__ kP kI kD output_limits integral_limits
                               sample_time name t_start t_ready in
        let c := PID.drive c0 ops in
        let last := PID.last_recomputation c0 ops None in
        PID.output (PID.state c) = PID.recomputed_output last
        /\ (forall v lim, last = Some (v, lim) -> fst lim <= v <= snd lim)
        /\ (PID.status c <> PID.ERROR -> PID.recomputes c t1 = false ->
            fst (PID.update c t0 t1 t2 e) = PID.recomputed_output last)
        /\ (PID.recomputes c t1 = true ->
            forall x : Q,
              fst (PID.output_limits c)
              <= fst (PID.update c t0 t1 t2 (Some x))
              <= snd (PID.output_limits c))).
Proof.
  split; [exact calculate_correction_bounded|].
  split; [|split; [|split; [|split]]].
  - intros c t0 t1 t2 e L R.
    destruct (update_recomputed c t0 t1 t2 e R) as (A & B & _).
    rewrite A, B. cbn [PID.output]. split; [|reflexivity].
    apply np_clip_bounds. exact L.
  - intros c t0 t1 t2 e H R.
    rewrite (update_rate_limited c t0 t1 t2 e H R). split; reflexivity.
  - intros c t0 t1 t2 e H.
    rewrite (update_in_error c t0 t1 t2 e H). reflexivity.
  - intros c t0 t1 t2 R.
    rewrite (update_bad_error c t0 t1 t2 R). reflexivity.
  - intros kP kI kD ol il st nm ts tr ops t0 t1 t2 e L c0 c last.
    destruct (last_recomputation_stored ops c0 None) as (A & B & C).
    + exact L.
    + reflexivity.
    + intros v lim E. discriminate E.
    + fold c in A, C. fold last in A, B.
      split; [exact A|]. split; [exact B|]. split.
      * intros H R. rewrite (update_rate_limited c t0 t1 t2 e H R).
        cbn [fst]. exact A.
      * intros R x.
        destruct (update_recomputed c t0 t1 t2 x R) as (V & _).
        rewrite V. apply np_clip_bounds. exact C.
Qed.

Lemma corrections_bounded_witness :
  (Qabs (fst (fst (SimpleP.calculate_correction (SimpleP.default 640 480 0 0) 1
                     (Some (2000, 240))))) <= 15
   /\ Qabs (snd (fst (SimpleP.calculate_correction (SimpleP.default 640 480 0 0) 1
                        (Some (2000, 240))))) <= 15)
  /\ (-90 <= fst (PID.update (PID.default 1 0 0 0 0) 1 1 1 (Some 500)) <= 90
      /\ PID.output
           (PID.state (snd (PID.update (PID.default 1 0 0 0 0) 1 1 1 (Some 500))))
         = fst (PID.update (PID.default 1 0 0 0 0) 1 1 1 (Some 500)))
  /\ (fst (PID.update Stated.narrowed 1.001 1.001 1.001 (Some 50))
      = PID.output (PID.state Stated.narrowed)
      /\ PID.output
           (PID.state (snd (PID.update Stated.narrowed 1.001 1.001 1.001 (Some 50))))
         = PID.output (PID.state Stated.narrowed))
  /\ fst (PID.update (PID.set_status (PID.default 1 0 0 0 0) PID.ERROR)
            1 1 1 (Some 500)) = 0
  /\ fst (PID.update (PID.default 1 0 0 0 0) 1 1 1 None) = 0
  /\ fst (PID.update
            (PID.drive (PID.__init__ 1 0 0 (5, 10) (-50, 50) 0.01 "PID" 0 0)
               [PID.OpUpdate 1 1 1 (Some 7); PID.OpReset 2])
            2.001 2.001 2.001 (Some 7))
     = PID.recomputed_output
         (PID.last_recomputation
            (PID.__init__ 1 0 0 (5, 10) (-50, 50) 0.01 "PID" 0 0)
            [PID.OpUpdate 1 1 1 (Some 7); PID.OpReset 2] None)
  /\ fst (PID.update
            (PID.drive (PID.__init__ 1 0 0 (5, 10) (-50, 50) 0.01 "PID" 0 0)
               [PID.OpUpdate 1 1 1 (Some 7); PID.OpSetOutputLimits 8 10])
            1.001 1.001 1.001 (Some 9))
     = PID.recomputed_output
         (PID.last_recomputation
            (PID.__init__ 1 0 0 (5, 10) (-50, 50) 0.01 "PID" 0 0)
            [PID.OpUpdate 1 1 1 (Some 7); PID.OpSetOutputLimits 8 10] None).
Proof.
  destruct corrections_bounded as (A & B & C & D & N & E).
  split; [|split; [|split; [|split; [|split; [|split]]]]].
  - apply (A (SimpleP.default 640 480 0 0) 1 (Some (2000, 240))).
    simpl. lra.
  - apply (B (PID.default 1 0 0 0 0) 1 1 1 500).
    + simpl. lra.
    + reflexivity.
  - apply (C Stated.narrowed 1.001 1.001 1.001 (Some 50)).
    + vm_compute. discriminate.
    + reflexivity.
  - apply (D (PID.set_status (PID.default 1 0 0 0 0) PID.ERROR) 1 1 1 (Some 500)).
    reflexivity.
  - apply (N (PID.default 1 0 0 0 0) 1 1 1). reflexivity.
  - destruct (E 1 0 0 (5, 10) (-50, 50) 0.01 "PID"%string 0 0
                [PID.OpUpdate 1 1 1 (Some 7); PID.OpReset 2]
                2.001 2.001 2.001 (Some 7)) as (_ & _ & F & _).
    + vm_compute. discriminate.
    + apply F.
      * vm_compute. discriminate.
      * vm_compute. reflexivity.
  - destruct (E 1 0 0 (5, 10) (-50, 50) 0.01 "PID"%string 0 0
                [PID.OpUpdate 1 1 1 (Some 7); PID.OpSetOutputLimits 8 10]
                1.001 1.001 1.001 (Some 9)) as (_ & _ & F & _).
    + vm_compute. discriminate.
    + apply F.
      * vm_compute. discriminate.
      * vm_compute. reflexivity.
Defined.

(** ** Anti-windup *)

Lemma update_preserves_integral (c : PID.PIDController) (t0 t1 t2 : Q)
    (e : option Q) :
  fst (PID.integral_limits c) <= snd (PID.integral_limits c) ->
  PID.integral_in_limits c ->
  PID.integral_in_limits (snd (PID.update c t0 t1 t2 e)).
Proof.
  intros L I. unfold PID.integral_in_limits.
  destruct (update_keeps_limits c t0 t1 t2 e) as [_ K]. rewrite K. clear K.
  destruct (PID.PIDStatus_eqb (PID.status c) PID.ERROR) eqn:E.
  - apply PIDStatus_eqb_spec in E. rewrite update_in_error by exact E. exact I.
  - apply PIDStatus_eqb_false in E.
    destruct (PID.recomputes c t1) eqn:R.
    + destruct e as [e|].
      * destruct (update_recomputed c t0 t1 t2 e R) as (_ & B & _).
        rewrite B. cbn [PID.integral].
        destruct (Qltb 0 (t1 - PID.prev_time (PID.state c))).
        -- apply np_clip_bounds. exact L.
        -- exact I.
      * rewrite update_bad_error by exact R. exact I.
    + rewrite update_rate_limited by assumption. exact I.
Qed.

Lemma run_keeps_integral_limits (calls : list (Q * Q * Q * option Q)) :
  forall c : PID.PIDController,
    PID.integral_limits (PID.run c calls) = PID.integral_limits c.
Proof.
  induction calls as [|[[[t0 t1] t2] e] rest IH]; intro c; simpl.
  - reflexivity.
  - rewrite IH. apply update_keeps_limits.
Qed.

Lemma run_preserves_integral (calls : list (Q * Q * Q * option Q)) :
  forall c : PID.PIDController,
    fst (PID.integral_limits c) <= snd (PID.integral_limits c) ->
    PID.integral_in_limits c ->
    PID.integral_in_limits (PID.run c calls).
Proof.
  induction calls as [|[[[t0 t1] t2] e] rest IH]; intros c L I; simpl.
  - exact I.
  - apply IH.
    + destruct (update_keeps_limits c t0 t1 t2 e) as [_ K]. rewrite K. exact L.
    + apply update_preserves_integral; assumption.
Qed.

(** C5 (counterexample): a default PID controller with kI = 1 accumulates
    the integral 40 at time 1; its integral limits are then set to
    [-5, 5]; the next call, 0.001 s later and so rate limited, leaves the
    stored integral at 40, above the configured maximum 5. *)
Lemma integral_claim_fails : ~ Stated.integral_claim.
Proof.
  intro H.
  assert (R : Stated.pid_reachable Stated.squeezed).
  { unfold Stated.squeezed.
    apply Stated.reach_set_integral_limits, Stated.reach_update.
    unfold PID.default. apply Stated.reach_init; simpl; lra. }
  destruct (H Stated.squeezed R 1.001 1.001 1.001 40) as [_ H2].
  vm_compute in H2. apply H2. reflexivity.
Qed.

(** Calls other than [set_integral_limits] keep the integral within limits
    that contain 0. *)
Lemma step_preserves_integral (c : PID.PIDController) (op : PID.Op) :
  PID.changes_integral_limits op = false ->
  fst (PID.integral_limits c) <= 0 <= snd (PID.integral_limits c) ->
  PID.integral_in_limits c ->
  PID.integral_limits (PID.step c op) = PID.integral_limits c
  /\ PID.integral_in_limits (PID.step c op).
Proof.
  intros N Z I.
  destruct op as [t0 t1 t2 e|now|p i d|a b|a b|]; cbn [PID.step];
    try discriminate N.
  - split; [apply update_keeps_limits|].
    apply update_preserves_integral; [lra|exact I].
  - unfold PID.reset. cbv zeta.
    destruct (negb _); (split; [reflexivity|exact Z]).
  - split; [reflexivity|exact I].
  - unfold PID.set_output_limits.
    destruct (Qleb b a); (split; [reflexivity|exact I]).
  - split; [reflexivity|exact I].
Qed.

Lemma drive_preserves_integral (ops : list PID.Op) :
  forall c : PID.PIDController,
    forallb (fun op => negb (PID.changes_integral_limits op)) ops = true ->
    fst (PID.integral_limits c) <= 0 <= snd (PID.integral_limits c) ->
    PID.integral_in_limits c ->
    PID.integral_in_limits (PID.drive c ops).
Proof.
  induction ops as [|op ops IH]; intros c N Z I; [exact I|].
  change (PID.drive c (op :: ops)) with (PID.drive (PID.step c op) ops).
  cbn [forallb] in N. apply andb_true_iff in N. destruct N as [N1 N2].
  apply negb_true_iff in N1.
  destruct (step_preserves_integral c op N1 Z I) as [K I'].
  apply IH; [exact N2 | rewrite K; exact Z | exact I'].
Qed.

(** C5 (amended): with integral_min <= integral_max, a call of [update]
    that recomputes from a numeric error with dt > 0 stores
    clip(integral + error * dt, integral_min, integral_max): the sum itself
    when it lies within the limits, integral_min when it is below and
    integral_max when it is above; this is within the limits whatever was
    stored before, and the output the call returns is clipped from
    kP * error + kI * (that clamped integral) + D.  Every other call (rate
    limited, in [ERROR], with an error that is not a number, or with
    dt <= 0) leaves the stored integral as it is.  So the bound is an
    invariant of [update]: if the stored integral lies within the limits
    before a call it does after it, and after every run of calls; it holds
    after a run of any length with one constant nonzero error on a freshly
    built controller whose limits contain the initial 0, after every
    non-empty run on a freshly built controller whose first call carries a
    numeric error and comes after the construction on the clock, and after
    every sequence of calls other than [set_integral_limits] on a freshly
    built controller whose limits contain 0. *)
Theorem integral_anti_windup :
  (forall (c : PID.PIDController) (t0 t1 t2 : Q) (e : option Q),
     fst (PID.integral_limits c) <= snd (PID.integral_limits c) ->
     PID.integral_in_limits c ->
     PID.integral_in_limits (snd (PID.update c t0 t1 t2 e)))
  /\ (forall (c : PID.PIDController) (calls : list (Q * Q * Q * option Q)),
        fst (PID.integral_limits c) <= snd (PID.integral_limits c) ->
        PID.integral_in_limits c ->
        PID.integral_in_limits (PID.run c calls))
  /\ (forall (kP kI kD : Q) (ol il : Q * Q) (st : Q) (nm : string)
             (t_start t_ready e : Q) (times : list Q),
        fst il <= 0 <= snd il -> ~ e == 0 ->
        PID.integral_in_limits
          (PID.run (PID.__init__ kP kI kD ol il st nm t_start t_ready)
             (map (fun t => (t, t, t, Some e)) times)))
  /\ (forall (kP kI kD : Q) (ol il : Q * Q) (st : Q) (nm : string)
             (t_start t_ready t0 t1 t2 e : Q)
             (rest : list (Q * Q * Q * option Q)),
        fst il <= snd il -> t_ready < t1 ->
        PID.integral_in_limits
          (PID.run (PID.__init__ kP kI kD ol il st nm t_start t_ready)
             ((t0, t1, t2, Some e) :: rest)))
  /\ (forall (c : PID.PIDController) (t0 t1 t2 e : Q),
        PID.recomputes c t1 = true ->
        0 < t1 - PID.prev_time (PID.state c) ->
        let c' := snd (PID.update c t0 t1 t2 (Some e)) in
        PID.integral (PID.state c')
        = np_clip (PID.integral (PID.state c)
                   + e * (t1 - PID.prev_time (PID.state c)))
            (fst (PID.integral_limits c)) (snd (PID.integral_limits c))
        /\ fst (PID.update c t0 t1 t2 (Some e))
           = np_clip (PID.kP c * e + PID.kI c * PID.integral (PID.state c')
                      + PID.derivative (PID.state c'))
               (fst (PID.output_limits c)) (snd (PID.output_limits c))
        /\ (fst (PID.integral_limits c) <= snd (PID.integral_limits c) ->
            PID.integral_in_limits c'))
  /\ (forall (c : PID.PIDController) (t0 t1 t2 e : Q),
        PID.recomputes c t1 = true ->
        0 < t1 - PID.prev_time (PID.state c) ->
        fst (PID.integral_limits c) <= snd (PID.integral_limits c) ->
        let sum := PID.integral (PID.state c)
                   + e * (t1 - PID.prev_time (PID.state c)) in
        let stored :=
          PID.integral (PID.state (snd (PID.update c t0 t1 t2 (Some e)))) in
        (fst (PID.integral_limits c) <= sum <= snd (PID.integral_limits c) ->
         stored = sum)
        /\ (sum < fst (PID.integral_limits c) ->
            stored = fst (PID.integral_limits c))
        /\ (snd (PID.integral_limits c) < sum ->
            stored = snd (PID.integral_limits c))
        /\ stored = Stated.clip sum (fst (PID.integral_limits c))
                      (snd (PID.integral_limits c)))
  /\ (forall (c : PID.PIDController) (t0 t1 t2 : Q) (e : option Q),
        (PID.recomputes c t1 = false \/ e = None
         \/ t1 - PID.prev_time (PID.state c) <= 0) ->
        PID.integral (PID.state (snd (PID.update c t0 t1 t2 e)))
        = PID.integral (PID.state c))
  /\ (forall (kP kI kD : Q) (ol il : Q * Q) (st : Q) (nm : string)
             (t_start t_ready : Q) (ops : list PID.Op),
        fst il <= 0 <= snd il ->
        forallb (fun op => negb (PID.changes_integral_limits op)) ops = true ->
        PID.integral_in_limits
          (PID.drive (PID.__init__ kP kI kD ol il st nm t_start t_ready) ops)).
Proof.
  assert (Step : forall (c : PID.PIDController) (t0 t1 t2 e : Q),
             PID.recomputes c t1 = true ->
             0 < t1 - PID.prev_time (PID.state c) ->
             fst (PID.integral_limits c) <= snd (PID.integral_limits c) ->
             PID.integral_in_limits (snd (PID.update c t0 t1 t2 (Some e)))).
  { intros c t0 t1 t2 e R D L.
    destruct (update_recomputed c t0 t1 t2 e R) as (_ & B & _ & _ & K & _).
    apply Qltb_spec in D.
    unfold PID.integral_in_limits. rewrite B, K. cbn [PID.integral].
    rewrite D. apply np_clip_bounds. exact L. }
  split; [exact update_preserves_integral|].
  split; [intros c calls; apply run_preserves_integral|].
  split; [|split; [|split; [|split; [|split]]]].
  - intros kP kI kD ol il st nm t_start t_ready e times L _.
    apply run_preserves_integral.
    + simpl. lra.
    + unfold PID.integral_in_limits. simpl. exact L.
  - intros kP kI kD ol il st nm t_start t_ready t0 t1 t2 e rest L T.
    cbn [PID.run]. apply run_preserves_integral.
    + destruct (update_keeps_limits
                  (PID.__init__ kP kI kD ol il st nm t_start t_ready)
                  t0 t1 t2 (Some e)) as [_ K].
      rewrite K. exact L.
    + apply Step.
      * unfold PID.recomputes. cbn [PID.__init__ PID.status PID.total_updates].
        cbn [PID.PIDStatus_eqb Nat.ltb Nat.leb negb]. rewrite andb_false_r.
        reflexivity.
      * cbn [PID.__init__ PID.state PID.prev_time]. lra.
      * exact L.
  - intros c t0 t1 t2 e R D c'.
    destruct (update_recomputed c t0 t1 t2 e R) as (A & B & _ & _ & K & _).
    fold c' in B, K. apply Qltb_spec in D.
    unfold PID.integral_in_limits. rewrite A, B, K. cbn [PID.integral PID.derivative].
    rewrite D. split; [reflexivity|]. split; [reflexivity|].
    intro L. apply np_clip_bounds. exact L.
  - intros c t0 t1 t2 e R D L sum stored.
    assert (V : stored = np_clip sum (fst (PID.integral_limits c))
                           (snd (PID.integral_limits c))).
    { subst stored sum.
      destruct (update_recomputed c t0 t1 t2 e R) as (_ & B & _).
      cbv zeta in B. rewrite B. cbn [PID.integral].
      apply Qltb_spec in D. rewrite D. reflexivity. }
    rewrite V. split; [|split; [|split]].
    + intro K. apply np_clip_inside. exact K.
    + intro K. apply np_clip_below; assumption.
    + intro K. apply np_clip_above; assumption.
    + apply np_clip_is_clip. exact L.
  - intros c t0 t1 t2 e H.
    destruct (update_cases c t0 t1 t2 e)
      as [[_ U] | [(_ & _ & U) | [(_ & _ & U) | (R & x & ->)]]];
      try (rewrite U; reflexivity).
    destruct H as [H | [H | H]]; [congruence | discriminate H |].
    destruct (update_recomputed c t0 t1 t2 x R) as (_ & B & _).
    cbv zeta in B. rewrite B. cbn [PID.integral].
    apply Qltb_false in H. rewrite H. reflexivity.
  - intros kP kI kD ol il st nm t_start t_ready ops Z N.
    apply drive_preserves_integral; [exact N | exact Z | exact Z].
Qed.

Lemma integral_anti_windup_witness :
  PID.integral_in_limits
    (snd (PID.update (PID.default 1 1 0 0 0) 100 100 100 (Some 10)))
  /\ PID.integral_in_limits
       (PID.run (PID.default 1 1 0 0 0)
          [(1, 1, 1, Some 40); (2, 2, 2, Some 40); (3, 3, 3, Some 40)])
  /\ PID.integral_in_limits
       (PID.run (PID.__init__ 1 1 0 (-90, 90) (-5, 5) 0.01 "WindupTest" 0 0)
          (map (fun t => (t, t, t, Some 10)) [1; 2; 3; 4; 5]))
  /\ PID.integral_in_limits
       (PID.run (PID.__init__ 1 1 0 (-90, 90) (5, 10) 0.01 "Offset" 0 0)
          [(1, 1, 1, Some 1); (1.001, 1.001, 1.001, Some 1)])
  /\ PID.integral
       (PID.state (snd (PID.update (PID.default 1 1 0 0 0) 100 100 100 (Some 10))))
     = np_clip (0 + 10 * (100 - 0)) (-50) 50
  /\ PID.integral
       (PID.state (snd (PID.update (PID.default 1 1 0 0 0) 2 2 2 (Some 10))))
     = 0 + 10 * (2 - 0)
  /\ PID.integral
       (PID.state (snd (PID.update (PID.default 1 1 0 0 0) 100 100 100 (Some 10))))
     = 50
  /\ PID.integral
       (PID.state (snd (PID.update Stated.squeezed 1.001 1.001 1.001 (Some 40))))
     = PID.integral (PID.state Stated.squeezed)
  /\ PID.integral_in_limits
       (PID.drive (PID.__init__ 1 1 0 (-90, 90) (-5, 5) 0.01 "WindupTest" 0 0)
          [PID.OpUpdate 1 1 1 (Some 40); PID.OpSetOutputLimits (-(10)) 10;
           PID.OpReset 2; PID.OpUpdate 3 3 3 (Some (-(40))); PID.OpCleanup]).
Proof.
  destruct integral_anti_windup as (A & B & C & F & D & G & U & R).
  split; [|split; [|split; [|split; [|split; [|split; [|split; [|split]]]]]]].
  - apply A.
    + simpl. lra.
    + unfold PID.integral_in_limits. simpl. lra.
  - apply B.
    + simpl. lra.
    + unfold PID.integral_in_limits. simpl. lra.
  - apply C.
    + simpl. lra.
    + intro H. vm_compute in H. discriminate.
  - apply F.
    + simpl. lra.
    + lra.
  - destruct (D (PID.default 1 1 0 0 0) 100 100 100 10) as (H & _).
    + reflexivity.
    + vm_compute. reflexivity.
    + exact H.
  - destruct (G (PID.default 1 1 0 0 0) 2 2 2 10) as (H & _).
    + reflexivity.
    + vm_compute. reflexivity.
    + vm_compute. discriminate.
    + apply H. split; vm_compute; discriminate.
  - destruct (G (PID.default 1 1 0 0 0) 100 100 100 10) as (_ & _ & H & _).
    + reflexivity.
    + vm_compute. reflexivity.
    + vm_compute. discriminate.
    + apply H. vm_compute. reflexivity.
  - apply U. left. reflexivity.
  - apply R.
    + split; vm_compute; discriminate.
    + reflexivity.
Defined.

(** ** Saturation flag *)

(** After a recomputing call the flag compares |raw| with the larger of
    |output_min| and |output_max|. *)
Lemma saturation_flag_value (c : PID.PIDController) (t0 t1 t2 e : Q) :
  PID.recomputes c t1 = true ->
  let c' := snd (PID.update c t0 t1 t2 (Some e)) in
  let raw := PID.kP c * e + PID.kI c * PID.integral (PID.state c')
             + PID.derivative (PID.state c') in
  (PID.is_saturated (PID.state c') = true <->
   py_max (Qabs (fst (PID.output_limits c))) (Qabs (snd (PID.output_limits c)))
     < Qabs raw)
  /\ fst (PID.update c t0 t1 t2 (Some e))
     = np_clip raw (fst (PID.output_limits c)) (snd (PID.output_limits c)).
Proof.
  intros R c' raw.
  destruct (update_recomputed c t0 t1 t2 e R) as (A & B & _).
  fold c' in B. subst raw. rewrite A, B. cbn [PID.is_saturated PID.integral PID.derivative].
  split; [apply Qltb_spec | reflexivity].
Qed.

(** With limits [-m, m] the flag says that the raw sum is outside them. *)
Lemma saturation_flag_symmetric (c : PID.PIDController) (t0 t1 t2 e m : Q) :
  PID.recomputes c t1 = true ->
  0 <= m -> PID.output_limits c = (- m, m) ->
  let c' := snd (PID.update c t0 t1 t2 (Some e)) in
  let raw := PID.kP c * e + PID.kI c * PID.integral (PID.state c')
             + PID.derivative (PID.state c') in
  PID.is_saturated (PID.state c') = true <-> (raw < - m \/ m < raw).
Proof.
  intros R M L c' raw.
  destruct (saturation_flag_value c t0 t1 t2 e R) as [F _].
  fold c' in F. fold raw in F. rewrite F, L. cbn [fst snd].
  assert (P : py_max (Qabs (- m)) (Qabs m) == m).
  { unfold py_max.
    destruct (Qltb (Qabs (- m)) (Qabs m)).
    - apply Qabs_pos; exact M.
    - rewrite Qabs_opp. apply Qabs_pos; exact M. }
  rewrite P. clear F P.
  split.
  - intro H. destruct (Qlt_le_dec raw 0) as [N|N].
    + left. rewrite (Qabs_neg raw) in H by lra. lra.
    + right. rewrite (Qabs_pos raw) in H by lra. lra.
  - intros [H|H].
    + rewrite (Qabs_neg raw) by lra. lra.
    + rewrite (Qabs_pos raw) by lra. lra.
Qed.

(** C7 (the code at the failing input): a controller with kP = 1, kI = kD = 0
    and output limits [-5, 10] is updated with the error -7.  The raw sum is
    -7, below output_min; the returned output is the clamped -5; yet the
    flag is not set and the status is [READY], because |-7| does not exceed
    max(|-5|, |10|) = 10. *)
Theorem saturation_flag_asymmetric_limits :
  let c := PID.__init__ 1 0 0 (-5, 10) (-50, 50) 0.01 "PID" 0 0 in
  let r := PID.update c 1 1 1 (Some (-7)) in
  PID.proportional (PID.state (snd r))
    + PID.kI c * PID.integral (PID.state (snd r))
    + PID.derivative (PID.state (snd r)) == -7
  /\ -7 < fst (PID.output_limits c)
  /\ fst r = -5
  /\ PID.is_saturated (PID.state (snd r)) = false
  /\ PID.status (snd r) = PID.READY
  /\ PID.saturation_count (snd r) = 0%nat.
Proof.
  vm_compute. repeat split; reflexivity.
Qed.

(** ** Limit setters *)

(** C9: for every pair with min >= max, [set_output_limits(min, max)] and
    [set_integral_limits(min, max)] raise and leave the controller, and so
    the limits configured before, exactly as it was: no field is modified
    on the error path.  For every pair with min < max the call returns
    normally, the stored limits are exactly (min, max) and every other
    field keeps its value. *)
Theorem limit_setters_validate :
  forall (c : PID.PIDController) (lo hi : Q),
    (hi <= lo ->
       PID.set_output_limits c lo hi = (Raised, c)
       /\ PID.set_integral_limits c lo hi = (Raised, c))
    /\ (lo < hi ->
        (fst (PID.set_output_limits c lo hi) = Normal
         /\ PID.output_limits (snd (PID.set_output_limits c lo hi)) = (lo, hi)
         /\ snd (PID.set_output_limits c lo hi)
            = PID.with_output_limits c (lo, hi)
         /\ PID.integral_limits (snd (PID.set_output_limits c lo hi))
            = PID.integral_limits c)
        /\ (fst (PID.set_integral_limits c lo hi) = Normal
            /\ PID.integral_limits (snd (PID.set_integral_limits c lo hi))
               = (lo, hi)
            /\ snd (PID.set_integral_limits c lo hi)
               = PID.with_integral_limits c (lo, hi)
            /\ PID.output_limits (snd (PID.set_integral_limits c lo hi))
               = PID.output_limits c)).
Proof.
  intros c lo hi. unfold PID.set_output_limits, PID.set_integral_limits.
  split.
  - intro H. apply Qleb_spec in H. rewrite H. split; reflexivity.
  - intro H. apply Qleb_false in H. rewrite H. simpl.
    repeat split; reflexivity.
Qed.

Lemma limit_setters_validate_witness :
  (PID.set_output_limits (PID.default 1 0 0 0 0) 10 5
   = (Raised, PID.default 1 0 0 0 0)
   /\ PID.set_integral_limits (PID.default 1 0 0 0 0) 10 5
      = (Raised, PID.default 1 0 0 0 0))
  /\ PID.set_output_limits (PID.default 1 0 0 0 0) 7 7
     = (Raised, PID.default 1 0 0 0 0)
  /\ PID.output_limits (snd (PID.set_output_limits (PID.default 1 0 0 0 0) (-10) 10))
     = (-10, 10)
  /\ PID.integral_limits
       (snd (PID.set_integral_limits (PID.default 1 0 0 0 0) (-5) 5))
     = (-5, 5).
Proof.
  split; [|split; [|split]].
  - destruct (limit_setters_validate (PID.default 1 0 0 0 0) 10 5) as [H _].
    apply H. lra.
  - destruct (limit_setters_validate (PID.default 1 0 0 0 0) 7 7) as [H _].
    apply H. lra.
  - destruct (limit_setters_validate (PID.default 1 0 0 0 0) (-10) 10) as [_ H].
    apply H. lra.
  - destruct (limit_setters_validate (PID.default 1 0 0 0 0) (-5) 5) as [_ H].
    apply H. lra.
Defined.

(** ** The [ERROR] status *)

(** C10: once the status of a controller is [ERROR], every call of
    [SimpleProportionalController.calculate_correction] returns (0, 0) and
    every call of [PIDController.update] returns 0, and the controller,
    accumulators and history included, is exactly as before; [reset] zeroes
    the accumulators and clears the history but leaves the status [ERROR];
    [reset] sets the status to [READY] only on a controller whose status is
    not [ERROR]. *)
Theorem error_status_absorbing :
  (forall (c : SimpleP.SimpleProportionalController) (t : Q)
          (arg : option (Q * Q)),
     SimpleP.status c = SimpleP.ERROR ->
     SimpleP.calculate_correction c t arg = ((0, 0), c))
  /\ (forall (c : SimpleP.SimpleProportionalController) (now : Q),
        SimpleP.status c = SimpleP.ERROR ->
        SimpleP.status (SimpleP.reset c now) = SimpleP.ERROR
        /\ SimpleP.state (SimpleP.reset c now)
           = {| SimpleP.last_error := (0, 0); SimpleP.last_output := (0, 0);
                SimpleP.last_update_time := now;
                SimpleP.total_corrections := 0 |}
        /\ SimpleP.performance_history (SimpleP.reset c now) = [])
  /\ (forall (c : SimpleP.SimpleProportionalController) (now : Q),
        SimpleP.status (SimpleP.reset c now) = SimpleP.READY <->
        SimpleP.status c <> SimpleP.ERROR)
  /\ (forall (c : PID.PIDController) (t0 t1 t2 : Q) (e : option Q),
        PID.status c = PID.ERROR -> PID.update c t0 t1 t2 e = (0, c))
  /\ (forall (c : PID.PIDController) (now : Q),
        PID.status c = PID.ERROR ->
        PID.status (PID.reset c now) = PID.ERROR
        /\ PID.state (PID.reset c now)
           = {| PID.proportional := 0; PID.integral := 0; PID.derivative := 0;
                PID.prev_error := 0; PID.prev_time := now; PID.output := 0;
                PID.is_saturated := false |}
        /\ PID.saturation_count (PID.reset c now) = 0%nat
        /\ PID.performance_history (PID.reset c now) = [])
  /\ (forall (c : PID.PIDController) (now : Q),
        PID.status (PID.reset c now) = PID.READY <->
        PID.status c <> PID.ERROR).
Proof.
  split; [|split; [|split; [|split; [|split]]]].
  - intros c t arg H. unfold SimpleP.calculate_correction. rewrite H.
    reflexivity.
  - intros c now H. unfold SimpleP.reset. simpl. rewrite H. simpl.
    repeat split; trivial.
  - intros c now. unfold SimpleP.reset. simpl.
    destruct (SimpleP.status c) eqn:E; simpl; rewrite ?E; split; congruence.
  - intros c t0 t1 t2 e H. apply update_in_error. exact H.
  - intros c now H. unfold PID.reset. simpl. rewrite H. simpl.
    repeat split; trivial.
  - intros c now. unfold PID.reset. simpl.
    destruct (PID.status c) eqn:E; simpl; rewrite ?E; split; congruence.
Qed.

Lemma error_status_absorbing_witness :
  SimpleP.calculate_correction
    (snd (SimpleP.calculate_correction (SimpleP.default 640 480 0 0) 1 None))
    2 (Some (420, 240))
  = ((0, 0),
     snd (SimpleP.calculate_correction (SimpleP.default 640 480 0 0) 1 None))
  /\ SimpleP.status
       (SimpleP.reset
          (snd (SimpleP.calculate_correction (SimpleP.default 640 480 0 0) 1 None))
          3)
     = SimpleP.ERROR
  /\ PID.update (snd (PID.update (PID.default 1 0 0 0 0) 1 1 1 None)) 2 2 2 (Some 5)
     = (0, snd (PID.update (PID.default 1 0 0 0 0) 1 1 1 None))
  /\ PID.status
       (PID.reset (snd (PID.update (PID.default 1 0 0 0 0) 1 1 1 None)) 3)
     = PID.ERROR.
Proof.
  destruct error_status_absorbing as (A & B & _ & D & E & _).
  split; [|split; [|split]].
  - apply A. reflexivity.
  - apply (B (snd (SimpleP.calculate_correction
                     (SimpleP.default 640 480 0 0) 1 None)) 3).
    reflexivity.
  - apply D. reflexivity.
  - apply (E (snd (PID.update (PID.default 1 0 0 0 0) 1 1 1 None)) 3).
    reflexivity.
Defined.

(** ** The mode state machine *)

Lemma TrackingMode_eqb_spec (a b : Coordinator.TrackingMode) :
  Coordinator.TrackingMode_eqb a b = true <-> a = b.
Proof. destruct a, b; simpl; split; congruence. Qed.

Lemma _execute_scan_pattern_mode (np_sin : Q -> Q)
    (c : Coordinator.TrackingCoordinator) (env : Coordinator.CycleEnv) :
  Coordinator.mode
    (Coordinator.status (Coordinator._execute_scan_pattern np_sin c env))
  = Coordinator.mode (Coordinator.status c).
Proof.
  unfold Coordinator._execute_scan_pattern.
  destruct (Coordinator.servo_controller c) as [sc|]; [|reflexivity].
  destruct (ServoCtl.is_angle_safe sc _ 0); [|reflexivity].
  destruct (ServoCtl.set_angles sc _ _ 0). reflexivity.
Qed.

(** [initialize_system] sets the mode, to [SCANNING], exactly on the path
    that returns [True]. *)
Lemma initialize_system_mode (c : Coordinator.TrackingCoordinator)
    (env : Coordinator.InitEnv) :
  (fst (Coordinator.initialize_system c env) = true ->
   Coordinator.mode (Coordinator.status (snd (Coordinator.initialize_system c env)))
   = Coordinator.SCANNING)
  /\ (fst (Coordinator.initialize_system c env) = false ->
      Coordinator.mode
        (Coordinator.status (snd (Coordinator.initialize_system c env)))
      = Coordinator.mode (Coordinator.status c)).
Proof.
  unfold Coordinator.initialize_system.
  destruct (Coordinator.camera_outcome env); simpl;
    try (split; [discriminate | reflexivity]).
  destruct (ServoCtl.initialize _ (Coordinator.bus_up env)
              (Coordinator.init_write env)) as [ok sc1].
  destruct ok; simpl; [|split; [discriminate | reflexivity]].
  destruct (ServoCtl.move_to_center sc1 (Coordinator.center_write env))
    as [r sc2].
  destruct (Coordinator.yolo_outcome env); simpl;
    split; try discriminate; reflexivity.
Qed.

(** A cycle with a detection leaves the mode [TRACKING]. *)
Lemma detection_sets_tracking (np_sin : Q -> Q)
    (c : Coordinator.TrackingCoordinator) (env : Coordinator.CycleEnv)
    (d : Coordinator.PyDetection) (rest : list Coordinator.PyDetection) :
  Coordinator.mode
    (Coordinator.status
       (Coordinator._update_tracking_control np_sin c env (d :: rest)))
  = Coordinator.TRACKING.
Proof.
  unfold Coordinator._update_tracking_control.
  set (c1 := if negb (Coordinator.TrackingMode_eqb
                        (Coordinator.mode (Coordinator.status c))
                        Coordinator.TRACKING)
             then Coordinator.set_mode c Coordinator.TRACKING else c).
  assert (M : Coordinator.mode (Coordinator.status c1) = Coordinator.TRACKING).
  { subst c1.
    destruct (Coordinator.TrackingMode_eqb
                (Coordinator.mode (Coordinator.status c)) Coordinator.TRACKING)
      eqn:E; simpl.
    - apply TrackingMode_eqb_spec. exact E.
    - reflexivity. }
  assert (S : Coordinator.simple_p_controller c1
              = Coordinator.simple_p_controller c
              /\ Coordinator.servo_controller c1
                 = Coordinator.servo_controller c).
  { subst c1.
    destruct (negb _); split; reflexivity. }
  clearbody c1. destruct d as [d|d]; [|exact M].
  destruct (Coordinator.bbox d) as [[[x1 y1] x2] y2].
  destruct (Coordinator.simple_p_controller c1) as [p|]; [|exact M].
  destruct (SimpleP.calculate_correction p _ _) as [corr p'].
  cbn [Coordinator.servo_controller Coordinator.set_simple_p_controller].
  destruct (Coordinator.servo_controller c1) as [sc|]; [|exact M].
  destruct (ServoCtl.is_angle_safe sc _ _).
  - destruct (ServoCtl.set_angles sc _ _ _) as [r sc']. simpl. exact M.
  - simpl. exact M.
Qed.

(** A cycle without detection whose timeout has not run out only clears
    [target_detected]. *)
Lemma no_detection_within_timeout (np_sin : Q -> Q)
    (c : Coordinator.TrackingCoordinator) (env : Coordinator.CycleEnv) :
  (forall t0 : Q,
     Coordinator.last_detection_time (Coordinator.status c) = Some t0 ->
     Coordinator.now env - t0 <= Coordinator.lost_target_timeout c) ->
  Coordinator._update_tracking_control np_sin c env []
  = Coordinator.set_target_detected c false.
Proof.
  intro H. unfold Coordinator._update_tracking_control.
  cbn [Coordinator.status Coordinator.set_target_detected Coordinator.set_sys
       Coordinator.last_detection_time Coordinator.lost_target_timeout].
  destruct (Coordinator.last_detection_time (Coordinator.status c)) as [t0|];
    [|reflexivity].
  specialize (H t0 eq_refl). apply Qltb_false in H. rewrite H. reflexivity.
Qed.




(** ** One tracking cycle *)

(** A correction whose target is outside the safety ranges is dropped: the
    cached angles, the recorded correction and the servo controller stay as
    they were, and the detection is still recorded. *)
Lemma rejected_correction_keeps_cache (np_sin : Q -> Q)
    (c : Coordinator.TrackingCoordinator) (env : Coordinator.CycleEnv)
    (d : Coordinator.Detection) (rest : list Coordinator.PyDetection)
    (p : SimpleP.SimpleProportionalController) (sc : ServoCtl.ServoController) :
  Coordinator.simple_p_controller c = Some p ->
  Coordinator.servo_controller c = Some sc ->
  let '(x1, y1, x2, y2) := Coordinator.bbox d in
  let corr := fst (SimpleP.calculate_correction p (Coordinator.clock env)
                     (Some ((x1 + x2) / 2, (y1 + y2) / 2))) in
  let c' := Coordinator._update_tracking_control np_sin c env
              (Coordinator.DetDict d :: rest) in
  ServoCtl.is_angle_safe sc
    (Coordinator.pan_angle (Coordinator.status c) + fst corr)
    (Coordinator.tilt_angle (Coordinator.status c) + snd corr) = false ->
  Coordinator.angles_held c c'
  /\ Coordinator.correction_applied (Coordinator.status c')
     = Coordinator.correction_applied (Coordinator.status c)
  /\ Coordinator.target_detected (Coordinator.status c') = true
  /\ Coordinator.last_detection_time (Coordinator.status c')
     = Some (Coordinator.now env).
Proof.
  intros P S. destruct (Coordinator.bbox d) as [[[x1 y1] x2] y2] eqn:B.
  intros corr c' U. subst c'. unfold Coordinator._update_tracking_control.
  rewrite B.
  set (c1 := if negb (Coordinator.TrackingMode_eqb
                        (Coordinator.mode (Coordinator.status c))
                        Coordinator.TRACKING)
             then Coordinator.set_mode c Coordinator.TRACKING else c).
  assert (E : Coordinator.simple_p_controller c1 = Some p
              /\ Coordinator.servo_controller c1 = Some sc
              /\ Coordinator.pan_angle (Coordinator.status c1)
                 = Coordinator.pan_angle (Coordinator.status c)
              /\ Coordinator.tilt_angle (Coordinator.status c1)
                 = Coordinator.tilt_angle (Coordinator.status c)
              /\ Coordinator.correction_applied (Coordinator.status c1)
                 = Coordinator.correction_applied (Coordinator.status c)).
  { subst c1. destruct (negb _); simpl; repeat split; assumption || reflexivity. }
  clearbody c1. destruct E as (E1 & E2 & E3 & E4 & E5).
  rewrite E1. subst corr.
  destruct (SimpleP.calculate_correction p (Coordinator.clock env)
              (Some ((x1 + x2) / 2, (y1 + y2) / 2))) as [corr p'].
  cbn [fst snd] in U.
  cbn [Coordinator.servo_controller Coordinator.set_simple_p_controller
       Coordinator.status Coordinator.pan_angle Coordinator.tilt_angle].
  rewrite E2, E3, E4, U. unfold Coordinator.angles_held. simpl.
  repeat split; try assumption; try reflexivity. congruence.
Qed.

(** A correction whose target is within the safety ranges is stored in the
    cache and recorded as applied whatever [set_angles] returns. *)
Lemma safe_correction_updates_cache (np_sin : Q -> Q)
    (c : Coordinator.TrackingCoordinator) (env : Coordinator.CycleEnv)
    (d : Coordinator.Detection) (rest : list Coordinator.PyDetection)
    (p : SimpleP.SimpleProportionalController) (sc : ServoCtl.ServoController) :
  Coordinator.simple_p_controller c = Some p ->
  Coordinator.servo_controller c = Some sc ->
  let '(x1, y1, x2, y2) := Coordinator.bbox d in
  let corr := fst (SimpleP.calculate_correction p (Coordinator.clock env)
                     (Some ((x1 + x2) / 2, (y1 + y2) / 2))) in
  let new_pan := Coordinator.pan_angle (Coordinator.status c) + fst corr in
  let new_tilt := Coordinator.tilt_angle (Coordinator.status c) + snd corr in
  let c' := Coordinator._update_tracking_control np_sin c env
              (Coordinator.DetDict d :: rest) in
  ServoCtl.is_angle_safe sc new_pan new_tilt = true ->
  Coordinator.pan_angle (Coordinator.status c') = new_pan
  /\ Coordinator.tilt_angle (Coordinator.status c') = new_tilt
  /\ Coordinator.correction_applied (Coordinator.status c') = corr
  /\ Coordinator.servo_controller c'
     = Some (snd (ServoCtl.set_angles sc (Coordinator.hw env) new_pan new_tilt)).
Proof.
  intros P S. destruct (Coordinator.bbox d) as [[[x1 y1] x2] y2] eqn:B.
  intros corr new_pan new_tilt c' U. subst c'.
  unfold Coordinator._update_tracking_control. rewrite B.
  set (c1 := if negb (Coordinator.TrackingMode_eqb
                        (Coordinator.mode (Coordinator.status c))
                        Coordinator.TRACKING)
             then Coordinator.set_mode c Coordinator.TRACKING else c).
  assert (E : Coordinator.simple_p_controller c1 = Some p
              /\ Coordinator.servo_controller c1 = Some sc
              /\ Coordinator.pan_angle (Coordinator.status c1)
                 = Coordinator.pan_angle (Coordinator.status c)
              /\ Coordinator.tilt_angle (Coordinator.status c1)
                 = Coordinator.tilt_angle (Coordinator.status c)).
  { subst c1. destruct (negb _); simpl; repeat split; assumption || reflexivity. }
  clearbody c1. destruct E as (E1 & E2 & E3 & E4).
  rewrite E1. subst new_pan new_tilt corr.
  destruct (SimpleP.calculate_correction p (Coordinator.clock env)
              (Some ((x1 + x2) / 2, (y1 + y2) / 2))) as [corr p'].
  cbn [fst snd] in U |- *.
  cbn [Coordinator.servo_controller Coordinator.set_simple_p_controller
       Coordinator.status Coordinator.pan_angle Coordinator.tilt_angle].
  rewrite E2, E3, E4, U.
  destruct (ServoCtl.set_angles sc (Coordinator.hw env)
              (Coordinator.pan_angle (Coordinator.status c) + fst corr)
              (Coordinator.tilt_angle (Coordinator.status c) + snd corr))
    as [r sc'].
  simpl. repeat split; reflexivity.
Qed.

(** C6 (the code at the failing input): the started default coordinator
    sees a dog centred at (420, 240) while the driver refuses the pan
    write.  The target (1.56, 0) is within the safety ranges, [set_angles]
    returns [False], the servo controller keeps its angles (0, 0) and goes
    to [ERROR]; the coordinator nevertheless stores 1.56 as its cached pan
    angle and the correction as applied.  On the next cycle, with a working
    driver, [set_angles] fails again because the servo is not ready, and the
    cached pan angle moves on to 3.12. *)
Theorem cache_updated_after_failed_apply :
  forall np_sin : Q -> Q,
    let c := Coordinator.started in
    let c1 := Coordinator._update_tracking_control np_sin c
                (Coordinator.at_time 1 ServoCtl.PanWriteRaises)
                [Coordinator.dog_right] in
    let c2 := Coordinator._update_tracking_control np_sin c1
                (Coordinator.at_time 2 ServoCtl.WriteOk)
                [Coordinator.dog_right] in
    exists sc sc1 sc2 : ServoCtl.ServoController,
      Coordinator.servo_controller c = Some sc
      /\ Coordinator.servo_controller c1 = Some sc1
      /\ Coordinator.servo_controller c2 = Some sc2
      /\ ServoCtl.in_range sc 1.56 0
      /\ ServoCtl.set_angles sc ServoCtl.PanWriteRaises (0 + 100 * 0.0156)
           (0 + - 0 * 0.0208) = (false, sc1)
      /\ ServoCtl.get_current_angles sc1 = (0, 0)
      /\ ServoCtl.status sc1 = ServoCtl.ERROR
      /\ Coordinator.pan_angle (Coordinator.status c) == 0
      /\ Coordinator.pan_angle (Coordinator.status c1) == 1.56
      /\ Qpair_eq (Coordinator.correction_applied (Coordinator.status c))
           (0, 0)
      /\ Qpair_eq (Coordinator.correction_applied (Coordinator.status c1))
           (1.56, 0)
      /\ ServoCtl.get_current_angles sc2 = (0, 0)
      /\ Coordinator.pan_angle (Coordinator.status c2) == 3.12.
Proof.
  intro np_sin. vm_compute.
  eexists. eexists. eexists.
  repeat split; try reflexivity; discriminate.
Qed.

(** ** The sweep *)

(** When the sweep step runs, the pan target is 30 * sin(0.1 * t), the tilt
    target 0, and the pair goes through [is_angle_safe] and [set_angles]. *)
Lemma sweep_step (np_sin : Q -> Q) (c : Coordinator.TrackingCoordinator)
    (env : Coordinator.CycleEnv) (sc : ServoCtl.ServoController) :
  Coordinator.servo_controller c = Some sc ->
  let pan := 30 * np_sin (Coordinator.clock env * 0.1) in
  let c' := Coordinator._execute_scan_pattern np_sin c env in
  (ServoCtl.is_angle_safe sc pan 0 = true ->
   Coordinator.servo_controller c'
   = Some (snd (ServoCtl.set_angles sc (Coordinator.hw env) pan 0))
   /\ Coordinator.pan_angle (Coordinator.status c') = pan
   /\ Coordinator.tilt_angle (Coordinator.status c') = 0)
  /\ (ServoCtl.is_angle_safe sc pan 0 = false -> c' = c)
  /\ ((forall x : Q, -1 <= np_sin x <= 1) -> -30 <= pan <= 30).
Proof.
  intros S pan c'. subst c'. unfold Coordinator._execute_scan_pattern.
  rewrite S. fold pan. split; [|split].
  - intro H. rewrite H.
    destruct (ServoCtl.set_angles sc (Coordinator.hw env) pan 0) as [r sc'].
    simpl. repeat split; reflexivity.
  - intro H. rewrite H. reflexivity.
  - intro B. subst pan. specialize (B (Coordinator.clock env * 0.1)). lra.
Qed.

(** Without a recorded detection time no cycle sweeps, whatever the mode. *)
Lemma no_sweep_without_detection_time (np_sin : Q -> Q)
    (c : Coordinator.TrackingCoordinator) (env : Coordinator.CycleEnv) :
  Coordinator.last_detection_time (Coordinator.status c) = None ->
  Coordinator._update_tracking_control np_sin c env []
  = Coordinator.set_target_detected c false.
Proof.
  intro H. apply no_detection_within_timeout.
  intros t0 E. rewrite H in E. discriminate.
Qed.

(** A state that every step maps to itself is where every run ends. *)
Lemma fold_left_fixed {S E : Type} (f : S -> E -> S) (c : S) :
  (forall e : E, f c e = c) -> forall l : list E, fold_left f l c = c.
Proof.
  intros H l. induction l as [|e rest IH]; cbn [fold_left].
  - reflexivity.
  - rewrite H. exact IH.
Qed.

(** C8 (the code at the failing input): the started default coordinator is
    in [SCANNING] and has no detection time yet; a cycle without detection,
    at any time and whatever the driver would do, changes nothing: no sweep
    step runs, the servo controller is not called and the cached angles
    stay (0, 0).  The same holds after any number of such cycles. *)
Theorem no_sweep_before_first_detection :
  forall (np_sin : Q -> Q) (env : Coordinator.CycleEnv)
         (envs : list Coordinator.CycleEnv),
    let c := Coordinator.started in
    Coordinator.mode (Coordinator.status c) = Coordinator.SCANNING
    /\ Coordinator.last_detection_time (Coordinator.status c) = None
    /\ Coordinator._update_tracking_control np_sin c env [] = c
    /\ Coordinator.angles_held c
         (Coordinator._update_tracking_control np_sin c env [])
    /\ fold_left
         (fun s e => Coordinator._update_tracking_control np_sin s e [])
         envs c = c.
Proof.
  intros np_sin env envs c.
  assert (E : forall e : Coordinator.CycleEnv,
             Coordinator._update_tracking_control np_sin c e [] = c).
  { intro e. rewrite no_sweep_without_detection_time.
    - subst c. vm_compute. reflexivity.
    - subst c. vm_compute. reflexivity. }
  rewrite (E env). split; [subst c; vm_compute; reflexivity|].
  split; [subst c; vm_compute; reflexivity|].
  split; [reflexivity|].
  split; [repeat split; reflexivity|].
  apply (fold_left_fixed
           (fun s e => Coordinator._update_tracking_control np_sin s e []) c E).
Qed.

(** * Further properties of the code *)

(** ** The servo controller: single axes, whole runs, emergency stop *)

Lemma ServoStatus_eqb_spec (a b : ServoCtl.ServoStatus) :
  ServoCtl.ServoStatus_eqb a b = true <-> a = b.
Proof. destruct a, b; simpl; split; congruence. Qed.

Lemma _is_pan_angle_safe_spec (c : ServoCtl.ServoController) (a : Q) :
  ServoCtl._is_pan_angle_safe c a = true
  <-> ServoCtl.pan_min c <= a <= ServoCtl.pan_max c.
Proof.
  unfold ServoCtl._is_pan_angle_safe. rewrite andb_true_iff, !Qleb_spec. tauto.
Qed.

Lemma _is_tilt_angle_safe_spec (c : ServoCtl.ServoController) (a : Q) :
  ServoCtl._is_tilt_angle_safe c a = true
  <-> ServoCtl.tilt_min c <= a <= ServoCtl.tilt_max c.
Proof.
  unfold ServoCtl._is_tilt_angle_safe. rewrite andb_true_iff, !Qleb_spec. tauto.
Qed.

(** X1: the single-axis setters check and move their own axis only: the other
    axis keeps its stored angle and its servo; a call that returns [False]
    leaves both stored angles and its servo as they were; a call that
    returns [True] was given an angle within the range of its axis, stores
    it, has written angle + 90 to its servo and leaves the status [READY];
    an angle outside the range changes nothing at all. *)
Theorem single_axis_setters :
  forall (c : ServoCtl.ServoController) (hw : ServoCtl.HwOutcome) (a : Q),
    (let r := ServoCtl.set_pan_angle c hw a in
     ServoCtl.current_tilt_angle (snd r) = ServoCtl.current_tilt_angle c
     /\ ServoCtl.tilt_servo (snd r) = ServoCtl.tilt_servo c
     /\ (fst r = false ->
         ServoCtl.get_current_angles (snd r) = ServoCtl.get_current_angles c
         /\ ServoCtl.pan_servo (snd r) = ServoCtl.pan_servo c)
     /\ (fst r = true ->
         ServoCtl.pan_min c <= a <= ServoCtl.pan_max c
         /\ ServoCtl.current_pan_angle (snd r) = a
         /\ ServoCtl.commanded (ServoCtl.pan_servo (snd r)) = Some (a + 90)
         /\ ServoCtl.status (snd r) = ServoCtl.READY)
     /\ (~ ServoCtl.pan_min c <= a <= ServoCtl.pan_max c -> r = (false, c)))
    /\ (let r := ServoCtl.set_tilt_angle c hw a in
        ServoCtl.current_pan_angle (snd r) = ServoCtl.current_pan_angle c
        /\ ServoCtl.pan_servo (snd r) = ServoCtl.pan_servo c
        /\ (fst r = false ->
            ServoCtl.get_current_angles (snd r) = ServoCtl.get_current_angles c
            /\ ServoCtl.tilt_servo (snd r) = ServoCtl.tilt_servo c)
        /\ (fst r = true ->
            ServoCtl.tilt_min c <= a <= ServoCtl.tilt_max c
            /\ ServoCtl.current_tilt_angle (snd r) = a
            /\ ServoCtl.commanded (ServoCtl.tilt_servo (snd r)) = Some (a + 90)
            /\ ServoCtl.status (snd r) = ServoCtl.READY)
        /\ (~ ServoCtl.tilt_min c <= a <= ServoCtl.tilt_max c -> r = (false, c))).
Proof.
  intros c hw a. split.
  - unfold ServoCtl.set_pan_angle.
    destruct (ServoCtl._is_ready c); cbn [negb];
      [|cbn; repeat split; trivial; discriminate].
    destruct (ServoCtl._is_pan_angle_safe c a) eqn:S; cbn [negb].
    + apply _is_pan_angle_safe_spec in S.
      destruct c as [pmin pmax tmin tmax ps ts cp ct st ms stl].
      cbn in S |- *.
      destruct ps as [sv|], hw; cbn; repeat split; trivial;
        try discriminate; try tauto.
    + cbn. repeat split; trivial; try discriminate.
  - unfold ServoCtl.set_tilt_angle.
    destruct (ServoCtl._is_ready c); cbn [negb];
      [|cbn; repeat split; trivial; discriminate].
    destruct (ServoCtl._is_tilt_angle_safe c a) eqn:S; cbn [negb].
    + apply _is_tilt_angle_safe_spec in S.
      destruct c as [pmin pmax tmin tmax ps ts cp ct st ms stl].
      cbn in S |- *.
      destruct ts as [sv|], hw; cbn; repeat split; trivial;
        try discriminate; try tauto.
    + cbn. repeat split; trivial; try discriminate.
Qed.

Lemma single_axis_setters_witness :
  (ServoCtl.current_pan_angle
     (snd (ServoCtl.set_pan_angle ServoCtl.ready_default ServoCtl.WriteOk 30))
   = 30
   /\ ServoCtl.commanded
        (ServoCtl.pan_servo
           (snd (ServoCtl.set_pan_angle ServoCtl.ready_default ServoCtl.WriteOk 30)))
      = Some (30 + 90))
  /\ ServoCtl.set_tilt_angle ServoCtl.ready_default ServoCtl.WriteOk 60
     = (false, ServoCtl.ready_default)
  /\ ServoCtl.get_current_angles
       (snd (ServoCtl.set_pan_angle ServoCtl.ready_default
               ServoCtl.PanWriteRaises 30))
     = ServoCtl.get_current_angles ServoCtl.ready_default.
Proof.
  split; [|split].
  - destruct (single_axis_setters ServoCtl.ready_default ServoCtl.WriteOk 30)
      as [(_ & _ & _ & H & _) _].
    destruct (H eq_refl) as (_ & A & B & _). split; assumption.
  - destruct (single_axis_setters ServoCtl.ready_default ServoCtl.WriteOk 60)
      as [_ (_ & _ & _ & _ & H)].
    apply H. simpl. lra.
  - destruct (single_axis_setters ServoCtl.ready_default
                ServoCtl.PanWriteRaises 30) as [(_ & _ & H & _) _].
    apply H. reflexivity.
Defined.

(** Reduces the field reads and writes of the servo controller. *)
Ltac servo_fields :=
  cbn [ServoCtl.pan_min ServoCtl.pan_max ServoCtl.tilt_min ServoCtl.tilt_max
       ServoCtl.pan_servo ServoCtl.tilt_servo ServoCtl.current_pan_angle
       ServoCtl.current_tilt_angle ServoCtl.status ServoCtl.move_speed
       ServoCtl.settle_time ServoCtl.set_status ServoCtl.set_current_angles
       ServoCtl.set_pan_servo ServoCtl.set_tilt_servo ServoCtl.with_move_speed
       ServoCtl.commanded ServoCtl.angle
       ServoCtl._pan_angle_to_servo ServoCtl._tilt_angle_to_servo
       fst snd] in *.

(** Unfolds the invariant and what it is made of. *)
Ltac servo_inv :=
  unfold ServoCtl.within_limits, ServoCtl.same_ranges, ServoCtl.in_range in *;
  servo_fields.

(** Closes the goals of the invariant after a case analysis. *)
Ltac servo_close :=
  servo_inv;
  unfold ServoCtl._pan_angle_to_servo, ServoCtl._tilt_angle_to_servo in *;
  repeat match goal with
         | H : _ /\ _ |- _ => destruct H
         end;
  repeat split; intros; try reflexivity; try assumption;
  repeat match goal with
         | E : None = Some _ |- _ => discriminate E
         | E : Some _ = Some _ |- _ => injection E as E; subst
         | H : forall a : Q, ?s = Some a -> _, E : ?s = Some ?x |- _ =>
             specialize (H x E)
         end;
  try lra.

Lemma _set_servo_angles_within (c : ServoCtl.ServoController)
    (hw : ServoCtl.HwOutcome) (p t : Q) :
  ServoCtl.in_range c p t ->
  ServoCtl.within_limits c ->
  ServoCtl.within_limits (snd (ServoCtl._set_servo_angles c hw p t))
  /\ ServoCtl.same_ranges c (snd (ServoCtl._set_servo_angles c hw p t))
  /\ ServoCtl.get_current_angles (snd (ServoCtl._set_servo_angles c hw p t))
     = ServoCtl.get_current_angles c.
Proof.
  intros R W. unfold ServoCtl._set_servo_angles, ServoCtl.get_current_angles.
  destruct c as [pmin pmax tmin tmax ps ts cp ct st ms stl].
  destruct ps as [sp|], ts as [stv|], hw; servo_fields; servo_close.
Qed.

Lemma same_ranges_refl (c : ServoCtl.ServoController) : ServoCtl.same_ranges c c.
Proof. repeat split. Qed.

Lemma same_ranges_trans (a b c : ServoCtl.ServoController) :
  ServoCtl.same_ranges a b -> ServoCtl.same_ranges b c -> ServoCtl.same_ranges a c.
Proof.
  unfold ServoCtl.same_ranges. intros (A1 & A2 & A3 & A4) (B1 & B2 & B3 & B4).
  repeat split; congruence.
Qed.

Lemma in_range_same_ranges (c c' : ServoCtl.ServoController) (p t : Q) :
  ServoCtl.same_ranges c c' -> ServoCtl.in_range c p t -> ServoCtl.in_range c' p t.
Proof.
  unfold ServoCtl.same_ranges, ServoCtl.in_range.
  intros (A1 & A2 & A3 & A4). rewrite A1, A2, A3, A4. tauto.
Qed.

Lemma set_status_within (c : ServoCtl.ServoController) (s : ServoCtl.ServoStatus) :
  ServoCtl.within_limits c -> ServoCtl.within_limits (ServoCtl.set_status c s).
Proof. intro W. destruct c. servo_close. Qed.

Lemma set_current_angles_within (c : ServoCtl.ServoController) (p t : Q) :
  ServoCtl.within_limits c -> ServoCtl.in_range c p t ->
  ServoCtl.within_limits (ServoCtl.set_current_angles c p t).
Proof. intros W R. destruct c. servo_close. Qed.

Lemma keeps_refl (c : ServoCtl.ServoController) : ServoCtl.keeps c c.
Proof. intro G. split; [exact G | apply same_ranges_refl]. Qed.

Lemma keeps_trans (a b c : ServoCtl.ServoController) :
  ServoCtl.keeps a b -> ServoCtl.keeps b c -> ServoCtl.keeps a c.
Proof.
  intros A B G. destruct (A G) as [Gb Rb]. destruct (B Gb) as [Gc Rc].
  split; [exact Gc | exact (same_ranges_trans a b c Rb Rc)].
Qed.

Lemma keeps_set_status (c : ServoCtl.ServoController) (s : ServoCtl.ServoStatus) :
  ServoCtl.keeps c (ServoCtl.set_status c s).
Proof.
  intros [W Z]. split; [split|].
  - apply set_status_within. exact W.
  - exact Z.
  - repeat split.
Qed.

(** A move to a pair within the ranges: the write, then the bookkeeping of
    a success or of a failure. *)
Lemma keeps_guarded_move (c : ServoCtl.ServoController)
    (hw : ServoCtl.HwOutcome) (p t : Q) (s s' : ServoCtl.ServoStatus) :
  ServoCtl.in_range c p t ->
  ServoCtl.keeps c
    (match ServoCtl._set_servo_angles c hw p t with
     | (Normal, c1) =>
         ServoCtl.set_status (ServoCtl.set_current_angles c1 p t) s
     | (Raised, c1) => ServoCtl.set_status c1 s'
     end).
Proof.
  intros R [W Z].
  destruct (_set_servo_angles_within c hw p t R W) as (W1 & S1 & _).
  destruct (ServoCtl._set_servo_angles c hw p t) as [[|] c1]; cbn [snd] in *.
  - split; [split|].
    + apply set_status_within, set_current_angles_within; [exact W1|].
      exact (in_range_same_ranges c c1 p t S1 R).
    + apply (in_range_same_ranges c). 2: exact Z.
      destruct S1 as (A & B & C & D). repeat split; assumption.
    + destruct S1 as (A & B & C & D). repeat split; assumption.
  - split; [split|].
    + apply set_status_within. exact W1.
    + apply (in_range_same_ranges c). 2: exact Z.
      destruct S1 as (A & B & C & D). repeat split; assumption.
    + destruct S1 as (A & B & C & D). repeat split; assumption.
Qed.

Lemma keeps_set_angles (c : ServoCtl.ServoController)
    (hw : ServoCtl.HwOutcome) (p t : Q) :
  ServoCtl.keeps c (snd (ServoCtl.set_angles c hw p t)).
Proof.
  unfold ServoCtl.set_angles.
  destruct (ServoCtl._is_ready c); cbn [negb snd]; [|apply keeps_refl].
  destruct (ServoCtl.is_angle_safe c p t) eqn:S; cbn [negb snd];
    [|apply keeps_refl].
  apply is_angle_safe_spec in S.
  apply (keeps_trans _ (ServoCtl.set_status c ServoCtl.MOVING));
    [apply keeps_set_status|].
  pose proof (keeps_guarded_move (ServoCtl.set_status c ServoCtl.MOVING)
                hw p t ServoCtl.READY ServoCtl.ERROR) as K.
  destruct (ServoCtl._set_servo_angles (ServoCtl.set_status c ServoCtl.MOVING)
              hw p t) as [[|] c1]; cbn [snd]; apply K; exact S.
Qed.

Lemma keeps_initialize (c : ServoCtl.ServoController) (bus_up : bool)
    (hw : ServoCtl.HwOutcome) :
  ServoCtl.keeps c (snd (ServoCtl.initialize c bus_up hw)).
Proof.
  unfold ServoCtl.initialize. destruct bus_up; cbn [negb snd].
  - set (c2 := ServoCtl.set_tilt_servo _ _).
    assert (K2 : ServoCtl.keeps c c2).
    { intros [W Z]. subst c2. destruct c. split; [split|]; servo_close. }
    apply (keeps_trans _ c2 _ K2).
    intro G. assert (R : ServoCtl.in_range c2 0 0) by apply G.
    pose proof (keeps_guarded_move c2 hw 0 0 ServoCtl.READY ServoCtl.ERROR R) as K.
    destruct (ServoCtl._set_servo_angles c2 hw 0 0) as [[|] c3]; cbn [snd];
      apply K; exact G.
  - apply (keeps_trans _ (ServoCtl.set_status c ServoCtl.INITIALIZING));
      apply keeps_set_status.
Qed.

Lemma keeps_set_pan_angle (c : ServoCtl.ServoController)
    (hw : ServoCtl.HwOutcome) (a : Q) :
  ServoCtl.keeps c (snd (ServoCtl.set_pan_angle c hw a)).
Proof.
  unfold ServoCtl.set_pan_angle.
  destruct (ServoCtl._is_ready c); cbn [negb snd]; [|apply keeps_refl].
  destruct (ServoCtl._is_pan_angle_safe c a) eqn:S; cbn [negb snd];
    [|apply keeps_refl].
  apply _is_pan_angle_safe_spec in S. intros [W Z].
  destruct c as [pmin pmax tmin tmax ps ts cp ct st ms stl].
  destruct ps as [sp|], hw; cbn [snd]; (split; [split|]); servo_close.
Qed.

Lemma keeps_set_tilt_angle (c : ServoCtl.ServoController)
    (hw : ServoCtl.HwOutcome) (a : Q) :
  ServoCtl.keeps c (snd (ServoCtl.set_tilt_angle c hw a)).
Proof.
  unfold ServoCtl.set_tilt_angle.
  destruct (ServoCtl._is_ready c); cbn [negb snd]; [|apply keeps_refl].
  destruct (ServoCtl._is_tilt_angle_safe c a) eqn:S; cbn [negb snd];
    [|apply keeps_refl].
  apply _is_tilt_angle_safe_spec in S. intros [W Z].
  destruct c as [pmin pmax tmin tmax ps ts cp ct st ms stl].
  destruct ts as [sp|], hw; cbn [snd]; (split; [split|]); servo_close.
Qed.

(** A bare write of the centre position, as [emergency_stop] and [cleanup]
    make it. *)
Lemma keeps_centre_write (c : ServoCtl.ServoController) (hw : ServoCtl.HwOutcome) :
  ServoCtl.keeps c (snd (ServoCtl._set_servo_angles c hw 0 0)).
Proof.
  intros [W Z]. destruct (_set_servo_angles_within c hw 0 0 Z W) as (W1 & S1 & _).
  split; [split|]; [exact W1 | exact (in_range_same_ranges _ _ 0 0 S1 Z) | exact S1].
Qed.

Lemma keeps_emergency_stop (c : ServoCtl.ServoController) (hw : ServoCtl.HwOutcome) :
  ServoCtl.keeps c (ServoCtl.emergency_stop c hw).
Proof.
  unfold ServoCtl.emergency_stop. cbv zeta.
  apply (keeps_trans _ (ServoCtl.set_status c ServoCtl.ERROR));
    [apply keeps_set_status|].
  destruct (ServoCtl.pan_servo (ServoCtl.set_status c ServoCtl.ERROR)),
    (ServoCtl.tilt_servo (ServoCtl.set_status c ServoCtl.ERROR));
    try apply keeps_refl.
  apply keeps_centre_write.
Qed.

Lemma keeps_cleanup (c : ServoCtl.ServoController) (hw : ServoCtl.HwOutcome)
    (pca_ok : bool) :
  ServoCtl.keeps c (ServoCtl.cleanup c hw pca_ok).
Proof.
  unfold ServoCtl.cleanup.
  destruct (ServoCtl.ServoStatus_eqb _ _); [apply keeps_refl|].
  assert (K : ServoCtl.keeps c
                (snd (match ServoCtl.pan_servo c, ServoCtl.tilt_servo c with
                      | Some _, Some _ => ServoCtl._set_servo_angles c hw 0 0
                      | _, _ => (Normal, c)
                      end))).
  { destruct (ServoCtl.pan_servo c), (ServoCtl.tilt_servo c);
      try apply keeps_refl.
    apply keeps_centre_write. }
  destruct (match ServoCtl.pan_servo c, ServoCtl.tilt_servo c with
            | Some _, Some _ => ServoCtl._set_servo_angles c hw 0 0
            | _, _ => (Normal, c)
            end) as [[|] c1]; cbn [snd] in K.
  - destruct pca_ok; [|exact K].
    apply (keeps_trans _ c1 _ K). apply keeps_set_status.
  - exact K.
Qed.

Lemma keeps_set_move_speed (c : ServoCtl.ServoController) (s : Q) :
  ServoCtl.keeps c (ServoCtl.set_move_speed c s).
Proof.
  unfold ServoCtl.set_move_speed.
  destruct (_ && _); [|apply keeps_refl].
  intros [W Z]. destruct c. split; [split|]; servo_close.
Qed.

Lemma keeps_test_leg
    (setter : ServoCtl.ServoController -> ServoCtl.HwOutcome -> Q
              -> bool * ServoCtl.ServoController)
    (hw : nat -> ServoCtl.HwOutcome) (angles : list Q) :
  (forall c w a, ServoCtl.keeps c (snd (setter c w a))) ->
  forall (c : ServoCtl.ServoController) (k : nat),
    ServoCtl.keeps c (fst (snd (ServoCtl.test_leg setter c hw k angles))).
Proof.
  intro K. induction angles as [|a rest IH]; intros c k; cbn [ServoCtl.test_leg].
  - apply keeps_refl.
  - pose proof (K c (hw k) a) as K1.
    destruct (setter c (hw k) a) as [ok c1]. cbn [snd] in K1.
    destruct ok.
    + exact (keeps_trans _ _ _ K1 (IH c1 (S k))).
    + exact K1.
Qed.

Lemma keeps_test_cycles (hw : nat -> ServoCtl.HwOutcome) (cycles : nat) :
  forall (c : ServoCtl.ServoController) (k : nat),
    ServoCtl.keeps c (fst (snd (ServoCtl.test_cycles cycles c hw k))).
Proof.
  induction cycles as [|n IH]; intros c k; cbn [ServoCtl.test_cycles].
  - apply keeps_refl.
  - pose proof (keeps_test_leg ServoCtl.set_pan_angle hw
                  ServoCtl.pan_test_angles keeps_set_pan_angle c k) as K1.
    destruct (ServoCtl.test_leg ServoCtl.set_pan_angle c hw k
                ServoCtl.pan_test_angles) as [ok [c1 k1]].
    cbn [fst snd] in K1. destruct ok; [|exact K1].
    pose proof (keeps_test_leg ServoCtl.set_tilt_angle hw
                  ServoCtl.tilt_test_angles keeps_set_tilt_angle c1 k1) as K2.
    destruct (ServoCtl.test_leg ServoCtl.set_tilt_angle c1 hw k1
                ServoCtl.tilt_test_angles) as [ok2 [c2 k2]].
    cbn [fst snd] in K2. destruct ok2.
    + exact (keeps_trans _ _ _ K1 (keeps_trans _ _ _ K2 (IH c2 k2))).
    + exact (keeps_trans _ _ _ K1 K2).
Qed.

Lemma keeps_test_movement (c : ServoCtl.ServoController)
    (hw : nat -> ServoCtl.HwOutcome) (cycles : nat) :
  ServoCtl.keeps c (snd (ServoCtl.test_movement c hw cycles)).
Proof.
  unfold ServoCtl.test_movement.
  destruct (ServoCtl._is_ready c); cbn [negb snd]; [|apply keeps_refl].
  pose proof (keeps_test_cycles hw cycles c 0%nat) as K.
  destruct (ServoCtl.test_cycles cycles c hw 0) as [ok [c1 k]].
  cbn [fst snd] in K. destruct ok; cbn [snd]; [|exact K].
  apply (keeps_trans _ c1 _ K). apply keeps_set_angles.
Qed.

Lemma keeps_step (c : ServoCtl.ServoController) (op : ServoCtl.Op) :
  ServoCtl.keeps c (ServoCtl.step c op).
Proof.
  destruct op; cbn [ServoCtl.step].
  - apply keeps_initialize.
  - apply keeps_set_pan_angle.
  - apply keeps_set_tilt_angle.
  - apply keeps_set_angles.
  - apply keeps_set_angles.
  - apply keeps_test_movement.
  - apply keeps_emergency_stop.
  - apply keeps_cleanup.
  - apply keeps_set_move_speed.
Qed.

Lemma keeps_run (ops : list ServoCtl.Op) :
  forall c : ServoCtl.ServoController, ServoCtl.keeps c (ServoCtl.run c ops).
Proof.
  unfold ServoCtl.run.
  induction ops as [|op rest IH]; intro c; cbn [fold_left].
  - apply keeps_refl.
  - exact (keeps_trans _ _ _ (keeps_step c op) (IH (ServoCtl.step c op))).
Qed.

(** X2: for a controller built with ranges that contain the centre 0, through
    every sequence of calls of its interface (initialize, the three
    setters, move_to_center, test_movement, emergency_stop, cleanup,
    set_move_speed), with the driver failing wherever it likes: the stored
    angles stay within the configured ranges, every angle a servo was last
    told to go to is a range-checked angle plus 90, and the ranges are the
    ones given to the constructor. *)
Theorem servo_never_leaves_limits :
  forall (pan_range tilt_range : Q * Q) (ops : list ServoCtl.Op),
    fst pan_range <= 0 <= snd pan_range ->
    fst tilt_range <= 0 <= snd tilt_range ->
    let c := ServoCtl.run (ServoCtl.__init__ pan_range tilt_range) ops in
    ServoCtl.within_limits c
    /\ (ServoCtl.pan_min c, ServoCtl.pan_max c) = pan_range
    /\ (ServoCtl.tilt_min c, ServoCtl.tilt_max c) = tilt_range.
Proof.
  intros [pl ph] [tl th] ops P T c. cbn [fst snd] in P, T.
  assert (G : ServoCtl.guarded (ServoCtl.__init__ (pl, ph) (tl, th))).
  { split; servo_inv; cbn [ServoCtl.__init__ fst snd];
      repeat split; intros; try tauto; discriminate. }
  destruct (keeps_run ops _ G) as [[W _] (A & B & C & D)].
  fold c in W, A, B, C, D. split; [exact W|].
  rewrite A, B, C, D. split; reflexivity.
Qed.

Lemma servo_never_leaves_limits_witness :
  ServoCtl.within_limits
    (ServoCtl.run (ServoCtl.__init__ (-90, 90) (-45, 45))
       [ServoCtl.OpInitialize true ServoCtl.WriteOk;
        ServoCtl.OpSetAngles ServoCtl.TiltWriteRaises 40 10;
        ServoCtl.OpEmergencyStop ServoCtl.WriteOk;
        ServoCtl.OpSetPanAngle ServoCtl.WriteOk 120]).
Proof.
  apply (servo_never_leaves_limits (-90, 90) (-45, 45)); simpl; lra.
Defined.

Lemma not_ready_blocks (c : ServoCtl.ServoController) :
  ServoCtl.status c <> ServoCtl.READY ->
  (forall hw p t, ServoCtl.set_angles c hw p t = (false, c))
  /\ (forall hw a, ServoCtl.set_pan_angle c hw a = (false, c))
  /\ (forall hw a, ServoCtl.set_tilt_angle c hw a = (false, c))
  /\ (forall hw, ServoCtl.move_to_center c hw = (false, c))
  /\ (forall hw n, ServoCtl.test_movement c hw n = (false, c)).
Proof.
  intro N.
  assert (R : ServoCtl._is_ready c = false).
  { unfold ServoCtl._is_ready.
    destruct (ServoCtl.ServoStatus_eqb (ServoCtl.status c) ServoCtl.READY) eqn:E;
      [|reflexivity].
    apply ServoStatus_eqb_spec in E. contradiction. }
  unfold ServoCtl.move_to_center, ServoCtl.set_angles, ServoCtl.set_pan_angle,
    ServoCtl.set_tilt_angle, ServoCtl.test_movement.
  rewrite R. repeat split.
Qed.

(** X3: [emergency_stop] leaves the controller in [ERROR] whatever the driver
    does, and from then on every setter, [move_to_center] and
    [test_movement] return [False] and change nothing (only [initialize]
    brings the controller back).  It does not touch the stored angles: when
    both servos exist and the write goes through they have been sent to the
    centre, while [get_current_angles] still reports the angles from before
    the stop. *)
Theorem emergency_stop_blocks_motion :
  forall (c : ServoCtl.ServoController) (hw : ServoCtl.HwOutcome),
    let c' := ServoCtl.emergency_stop c hw in
    ServoCtl.status c' = ServoCtl.ERROR
    /\ ServoCtl.get_current_angles c' = ServoCtl.get_current_angles c
    /\ (forall hw' p t, ServoCtl.set_angles c' hw' p t = (false, c'))
    /\ (forall hw' a, ServoCtl.set_pan_angle c' hw' a = (false, c'))
    /\ (forall hw' a, ServoCtl.set_tilt_angle c' hw' a = (false, c'))
    /\ (forall hw', ServoCtl.move_to_center c' hw' = (false, c'))
    /\ (forall hw' n, ServoCtl.test_movement c' hw' n = (false, c'))
    /\ (ServoCtl.pan_servo c <> None -> ServoCtl.tilt_servo c <> None ->
        hw = ServoCtl.WriteOk ->
        ServoCtl.commanded (ServoCtl.pan_servo c') = Some (0 + 90)
        /\ ServoCtl.commanded (ServoCtl.tilt_servo c') = Some (0 + 90)).
Proof.
  intros c hw c'.
  assert (S : ServoCtl.status c' = ServoCtl.ERROR
              /\ ServoCtl.get_current_angles c' = ServoCtl.get_current_angles c).
  { subst c'. unfold ServoCtl.emergency_stop, ServoCtl.get_current_angles.
    cbv zeta.
    pose proof (_set_servo_angles_frame
                  (ServoCtl.set_status c ServoCtl.ERROR) hw 0 0) as F.
    cbv zeta in F. destruct F as (F1 & F2 & F3 & _).
    destruct (ServoCtl.pan_servo (ServoCtl.set_status c ServoCtl.ERROR)),
      (ServoCtl.tilt_servo (ServoCtl.set_status c ServoCtl.ERROR));
      try (split; reflexivity).
    rewrite F1, F2, F3. split; reflexivity. }
  destruct S as [S1 S2].
  assert (N : ServoCtl.status c' <> ServoCtl.READY) by (rewrite S1; discriminate).
  destruct (not_ready_blocks c' N) as (B1 & B2 & B3 & B4 & B5).
  repeat split; try assumption; auto.
  - subst c'. destruct c as [pmin pmax tmin tmax ps ts cp ct st ms stl].
    cbn in H, H0. destruct ps, ts; try contradiction. subst hw. reflexivity.
  - subst c'. destruct c as [pmin pmax tmin tmax ps ts cp ct st ms stl].
    cbn in H, H0. destruct ps, ts; try contradiction. subst hw. reflexivity.
Qed.

Lemma emergency_stop_blocks_motion_witness :
  ServoCtl.commanded
    (ServoCtl.pan_servo
       (ServoCtl.emergency_stop
          (snd (ServoCtl.set_angles ServoCtl.ready_default ServoCtl.WriteOk 40 10))
          ServoCtl.WriteOk))
  = Some (0 + 90)
  /\ ServoCtl.get_current_angles
       (ServoCtl.emergency_stop
          (snd (ServoCtl.set_angles ServoCtl.ready_default ServoCtl.WriteOk 40 10))
          ServoCtl.WriteOk)
     = (40, 10).
Proof.
  destruct (emergency_stop_blocks_motion
              (snd (ServoCtl.set_angles ServoCtl.ready_default ServoCtl.WriteOk 40 10))
              ServoCtl.WriteOk) as (_ & A & _ & _ & _ & _ & _ & H).
  split.
  - apply H; [discriminate | discriminate | reflexivity].
  - rewrite A. reflexivity.
Defined.

Lemma set_pan_angle_goes (c : ServoCtl.ServoController) (a : Q) :
  ServoCtl.operational c ->
  ServoCtl.pan_min c <= a <= ServoCtl.pan_max c ->
  exists c' : ServoCtl.ServoController,
    ServoCtl.set_pan_angle c ServoCtl.WriteOk a = (true, c')
    /\ ServoCtl.operational c' /\ ServoCtl.same_ranges c c'.
Proof.
  intros (S & P & T) R. apply _is_pan_angle_safe_spec in R.
  unfold ServoCtl.set_pan_angle, ServoCtl._is_ready. rewrite S, R.
  destruct c as [pmin pmax tmin tmax ps ts cp ct st ms stl].
  cbn in P, T |- *. destruct ps as [sp|]; [|contradiction].
  eexists. split; [reflexivity|]. cbn.
  repeat split; trivial; discriminate.
Qed.

Lemma set_tilt_angle_goes (c : ServoCtl.ServoController) (a : Q) :
  ServoCtl.operational c ->
  ServoCtl.tilt_min c <= a <= ServoCtl.tilt_max c ->
  exists c' : ServoCtl.ServoController,
    ServoCtl.set_tilt_angle c ServoCtl.WriteOk a = (true, c')
    /\ ServoCtl.operational c' /\ ServoCtl.same_ranges c c'.
Proof.
  intros (S & P & T) R. apply _is_tilt_angle_safe_spec in R.
  unfold ServoCtl.set_tilt_angle, ServoCtl._is_ready. rewrite S, R.
  destruct c as [pmin pmax tmin tmax ps ts cp ct st ms stl].
  cbn in P, T |- *. destruct ts as [sp|]; [|contradiction].
  eexists. split; [reflexivity|]. cbn.
  repeat split; trivial; discriminate.
Qed.

Lemma test_leg_goes
    (setter : ServoCtl.ServoController -> ServoCtl.HwOutcome -> Q
              -> bool * ServoCtl.ServoController)
    (ok_angle : ServoCtl.ServoController -> Q -> Prop)
    (hw : nat -> ServoCtl.HwOutcome) (angles : list Q) :
  (forall k, hw k = ServoCtl.WriteOk) ->
  (forall c c' a, ServoCtl.same_ranges c c' -> ok_angle c a -> ok_angle c' a) ->
  (forall c a, ServoCtl.operational c -> ok_angle c a ->
     exists c', setter c ServoCtl.WriteOk a = (true, c')
                /\ ServoCtl.operational c' /\ ServoCtl.same_ranges c c') ->
  forall (c : ServoCtl.ServoController) (k : nat),
    ServoCtl.operational c ->
    (forall a, In a angles -> ok_angle c a) ->
    exists c' k',
      ServoCtl.test_leg setter c hw k angles = (true, (c', k'))
      /\ ServoCtl.operational c' /\ ServoCtl.same_ranges c c'.
Proof.
  intros W M G. induction angles as [|a rest IH]; intros c k O A;
    cbn [ServoCtl.test_leg].
  - exists c, k. split; [reflexivity|].
    split; [exact O | apply same_ranges_refl].
  - rewrite W. destruct (G c a O (A a (or_introl eq_refl))) as (c1 & E & O1 & R1).
    rewrite E.
    destruct (IH c1 (S k) O1) as (c2 & k2 & E2 & O2 & R2).
    { intros b Hb. apply (M c c1 b R1). apply A. right. exact Hb. }
    exists c2, k2. split; [exact E2|]. split; [exact O2|].
    exact (same_ranges_trans _ _ _ R1 R2).
Qed.

Lemma test_cycles_goes (hw : nat -> ServoCtl.HwOutcome) (cycles : nat) :
  (forall k, hw k = ServoCtl.WriteOk) ->
  forall (c : ServoCtl.ServoController) (k : nat),
    ServoCtl.operational c ->
    ServoCtl.pan_min c <= -45 -> 45 <= ServoCtl.pan_max c ->
    ServoCtl.tilt_min c <= -30 -> 30 <= ServoCtl.tilt_max c ->
    exists c' k',
      ServoCtl.test_cycles cycles c hw k = (true, (c', k'))
      /\ ServoCtl.operational c' /\ ServoCtl.same_ranges c c'.
Proof.
  intro W. induction cycles as [|n IH]; intros c k O P1 P2 T1 T2;
    cbn [ServoCtl.test_cycles].
  - exists c, k. split; [reflexivity|]. split; [exact O | apply same_ranges_refl].
  - destruct (test_leg_goes ServoCtl.set_pan_angle
                (fun c a => ServoCtl.pan_min c <= a <= ServoCtl.pan_max c)
                hw ServoCtl.pan_test_angles W) with (c := c) (k := k)
      as (c1 & k1 & E1 & O1 & R1).
    + intros x y a (A1 & A2 & _). rewrite A1, A2. tauto.
    + exact set_pan_angle_goes.
    + exact O.
    + intros a Ha. cbn in Ha.
      destruct Ha as [<-|[<-|[<-|[<-|[]]]]]; lra.
    + rewrite E1.
      destruct (test_leg_goes ServoCtl.set_tilt_angle
                  (fun c a => ServoCtl.tilt_min c <= a <= ServoCtl.tilt_max c)
                  hw ServoCtl.tilt_test_angles W) with (c := c1) (k := k1)
        as (c2 & k2 & E2 & O2 & R2).
      * intros x y a (_ & _ & A3 & A4). rewrite A3, A4. tauto.
      * exact set_tilt_angle_goes.
      * exact O1.
      * destruct R1 as (_ & _ & A3 & A4). rewrite A3, A4.
        intros a Ha. cbn in Ha.
        destruct Ha as [<-|[<-|[<-|[<-|[]]]]]; lra.
      * rewrite E2.
        pose proof (same_ranges_trans _ _ _ R1 R2) as R.
        destruct R as (A1 & A2 & A3 & A4).
        destruct (IH c2 k2 O2) as (c3 & k3 & E3 & O3 & R3);
          try (rewrite ?A1, ?A2, ?A3, ?A4; assumption).
        exists c3, k3. split; [exact E3|]. split; [exact O3|].
        apply (same_ranges_trans _ c2); [|exact R3].
        repeat split; assumption.
Qed.

(** X4: on a ready controller with both servos, ranges that contain the test
    angles (pan -45..45, tilt -30..30) and a driver that accepts every
    write, [test_movement] returns [True] for any number of cycles and
    leaves the controller [READY] at the centre, stored angles (0, 0) and
    both servos at 90, with the ranges untouched.  With a pan range that
    does not contain 45 it fails at its first step, for one cycle or more,
    without having changed anything. *)
Theorem test_movement_returns_to_centre :
  forall (c : ServoCtl.ServoController) (hw : nat -> ServoCtl.HwOutcome)
         (cycles : nat),
    ServoCtl.operational c ->
    (ServoCtl.pan_min c <= -45 -> 45 <= ServoCtl.pan_max c ->
     ServoCtl.tilt_min c <= -30 -> 30 <= ServoCtl.tilt_max c ->
     (forall k, hw k = ServoCtl.WriteOk) ->
     let r := ServoCtl.test_movement c hw cycles in
     fst r = true
     /\ ServoCtl.get_current_angles (snd r) = (0, 0)
     /\ ServoCtl.status (snd r) = ServoCtl.READY
     /\ ServoCtl.commanded (ServoCtl.pan_servo (snd r)) = Some (0 + 90)
     /\ ServoCtl.commanded (ServoCtl.tilt_servo (snd r)) = Some (0 + 90)
     /\ ServoCtl.same_ranges c (snd r))
    /\ (~ ServoCtl.pan_min c <= 45 <= ServoCtl.pan_max c ->
        ServoCtl.test_movement c hw (S cycles) = (false, c)).
Proof.
  intros c hw cycles O. split.
  - intros P1 P2 T1 T2 W r. subst r. unfold ServoCtl.test_movement.
    assert (Rd : ServoCtl._is_ready c = true).
    { unfold ServoCtl._is_ready. destruct O as [S _]. rewrite S. reflexivity. }
    rewrite Rd. cbn [negb].
    destruct (test_cycles_goes hw cycles W c 0%nat O P1 P2 T1 T2)
      as (c1 & k & E & (S1 & Pn & Tn) & R1).
    rewrite E. cbn [fst snd]. rewrite W.
    destruct R1 as (A1 & A2 & A3 & A4).
    unfold ServoCtl.move_to_center, ServoCtl.set_angles, ServoCtl._is_ready.
    rewrite S1. cbn [ServoCtl.ServoStatus_eqb negb].
    assert (Sf : ServoCtl.is_angle_safe c1 0 0 = true).
    { apply is_angle_safe_spec. unfold ServoCtl.in_range.
      rewrite A1, A2, A3, A4. lra. }
    rewrite Sf. cbn [negb].
    destruct c1 as [pmin pmax tmin tmax ps ts cp ct st ms stl].
    cbn in Pn, Tn, A1, A2, A3, A4 |- *.
    destruct ps; [|contradiction]. destruct ts; [|contradiction].
    cbn. repeat split; trivial.
  - intro N. unfold ServoCtl.test_movement.
    assert (Rd : ServoCtl._is_ready c = true).
    { unfold ServoCtl._is_ready. destruct O as [S _]. rewrite S. reflexivity. }
    rewrite Rd. cbn [negb ServoCtl.test_cycles ServoCtl.test_leg
                     ServoCtl.pan_test_angles].
    unfold ServoCtl.set_pan_angle at 1. rewrite Rd. cbn [negb].
    destruct (ServoCtl._is_pan_angle_safe c 45) eqn:S.
    + apply _is_pan_angle_safe_spec in S. contradiction.
    + reflexivity.
Qed.

Lemma test_movement_returns_to_centre_witness :
  fst (ServoCtl.test_movement ServoCtl.ready_default
         (fun _ => ServoCtl.WriteOk) 3) = true
  /\ ServoCtl.get_current_angles
       (snd (ServoCtl.test_movement ServoCtl.ready_default
               (fun _ => ServoCtl.WriteOk) 3)) = (0, 0)
  /\ ServoCtl.test_movement
       (snd (ServoCtl.initialize (ServoCtl.__init__ (-30, 30) (-45, 45))
               true ServoCtl.WriteOk))
       (fun _ => ServoCtl.WriteOk) 1
     = (false,
        snd (ServoCtl.initialize (ServoCtl.__init__ (-30, 30) (-45, 45))
               true ServoCtl.WriteOk)).
Proof.
  split; [|split].
  - destruct (test_movement_returns_to_centre ServoCtl.ready_default
                (fun _ => ServoCtl.WriteOk) 3) as [H _].
    + repeat split; discriminate.
    + apply H; simpl; try lra. reflexivity.
  - destruct (test_movement_returns_to_centre ServoCtl.ready_default
                (fun _ => ServoCtl.WriteOk) 3) as [H _].
    + repeat split; discriminate.
    + apply H; simpl; try lra. reflexivity.
  - destruct (test_movement_returns_to_centre
                (snd (ServoCtl.initialize (ServoCtl.__init__ (-30, 30) (-45, 45))
                        true ServoCtl.WriteOk))
                (fun _ => ServoCtl.WriteOk) 0) as [_ H].
    + repeat split; discriminate.
    + apply H. simpl. lra.
Defined.

(** X5: with a range that does not contain 0 the centre position is outside
    the limits, and the calls that go there without asking the guard still
    go there: a successful [initialize] stores (0, 0) and sends both servos
    to 90, so the controller starts outside its own safety range, and
    [move_to_center], which does ask the guard, then fails for ever. *)
Theorem centre_outside_the_ranges :
  forall pan_range tilt_range : Q * Q,
    ~ (fst pan_range <= 0 <= snd pan_range
       /\ fst tilt_range <= 0 <= snd tilt_range) ->
    let r := ServoCtl.initialize (ServoCtl.__init__ pan_range tilt_range)
               true ServoCtl.WriteOk in
    fst r = true
    /\ ServoCtl.status (snd r) = ServoCtl.READY
    /\ ServoCtl.get_current_angles (snd r) = (0, 0)
    /\ ServoCtl.commanded (ServoCtl.pan_servo (snd r)) = Some (0 + 90)
    /\ ServoCtl.commanded (ServoCtl.tilt_servo (snd r)) = Some (0 + 90)
    /\ ~ ServoCtl.within_limits (snd r)
    /\ (forall hw, ServoCtl.move_to_center (snd r) hw = (false, snd r)).
Proof.
  intros [pl ph] [tl th] N r. cbn [fst snd] in N.
  assert (F : fst r = true
              /\ ServoCtl.status (snd r) = ServoCtl.READY
              /\ ServoCtl.get_current_angles (snd r) = (0, 0)
              /\ ServoCtl.commanded (ServoCtl.pan_servo (snd r)) = Some (0 + 90)
              /\ ServoCtl.commanded (ServoCtl.tilt_servo (snd r)) = Some (0 + 90)
              /\ ServoCtl.pan_min (snd r) = pl /\ ServoCtl.pan_max (snd r) = ph
              /\ ServoCtl.tilt_min (snd r) = tl /\ ServoCtl.tilt_max (snd r) = th).
  { subst r. cbn. repeat split. }
  clearbody r. destruct F as (F1 & F2 & F3 & F4 & F5 & A & B & C & D).
  assert (O : ~ ServoCtl.in_range (snd r) 0 0).
  { unfold ServoCtl.in_range. rewrite A, B, C, D. exact N. }
  repeat split; try assumption.
  - intros [R _]. apply O. unfold ServoCtl.get_current_angles in F3.
    injection F3 as P T. rewrite P, T in R. exact R.
  - intro hw. unfold ServoCtl.move_to_center.
    apply set_angles_rejects. exact O.
Qed.

Lemma centre_outside_the_ranges_witness :
  ~ ServoCtl.within_limits
      (snd (ServoCtl.initialize (ServoCtl.__init__ (-90, 90) (10, 45))
              true ServoCtl.WriteOk)).
Proof.
  apply (centre_outside_the_ranges (-90, 90) (10, 45)).
  simpl. lra.
Defined.

(** ** The proportional law: direction, monotonicity, memory *)

Lemma np_clip_mono (z z' lo hi : Q) :
  z <= z' -> np_clip z lo hi <= np_clip z' lo hi.
Proof.
  intro H. unfold np_clip, np_minimum, np_maximum.
  destruct (Qltb z lo) eqn:A; destruct (Qltb z' lo) eqn:B;
    try apply Qltb_spec in A; try apply Qltb_false in A;
    try apply Qltb_spec in B; try apply Qltb_false in B;
    repeat match goal with
           | |- context [Qltb ?a ?b] =>
               let E := fresh "E" in
               destruct (Qltb a b) eqn:E;
               [apply Qltb_spec in E | apply Qltb_false in E]
           end; lra.
Qed.

Lemma np_clip_positive (z m : Q) : 0 < m -> 0 < z -> 0 < np_clip z (- m) m.
Proof.
  intros M Z. unfold np_clip, np_minimum, np_maximum.
  destruct (Qltb z (- m)) eqn:A;
    [apply Qltb_spec in A | apply Qltb_false in A];
  repeat match goal with
         | |- context [Qltb ?a ?b] =>
             let E := fresh "E" in
             destruct (Qltb a b) eqn:E;
             [apply Qltb_spec in E | apply Qltb_false in E]
         end; lra.
Qed.

Lemma np_clip_negative (z m : Q) : 0 < m -> z < 0 -> np_clip z (- m) m < 0.
Proof.
  intros M Z. unfold np_clip, np_minimum, np_maximum.
  destruct (Qltb z (- m)) eqn:A;
    [apply Qltb_spec in A | apply Qltb_false in A];
  repeat match goal with
         | |- context [Qltb ?a ?b] =>
             let E := fresh "E" in
             destruct (Qltb a b) eqn:E;
             [apply Qltb_spec in E | apply Qltb_false in E]
         end; lra.
Qed.

Lemma apply_deadband_mono (c : SimpleP.SimpleProportionalController) (e e' : Q) :
  e <= e' -> SimpleP.apply_deadband c e <= SimpleP.apply_deadband c e'.
Proof.
  intro H. unfold SimpleP.apply_deadband.
  destruct (Qltb (Qabs e) (SimpleP.deadband c)) eqn:A;
    destruct (Qltb (Qabs e') (SimpleP.deadband c)) eqn:B;
    try apply Qltb_spec in A; try apply Qltb_false in A;
    try apply Qltb_spec in B; try apply Qltb_false in B.
  - lra.
  - destruct (Qlt_le_dec e' 0) as [N|N].
    + rewrite (Qabs_neg e') in B by lra.
      destruct (Qlt_le_dec e 0) as [M|M].
      * rewrite (Qabs_neg e) in A by lra. lra.
      * rewrite (Qabs_pos e) in A by lra. lra.
    + exact N.
  - destruct (Qlt_le_dec e 0) as [N|N].
    + lra.
    + rewrite (Qabs_pos e) in A by lra.
      destruct (Qlt_le_dec e' 0) as [M|M].
      * lra.
      * rewrite (Qabs_pos e') in B by lra. lra.
  - exact H.
Qed.

(** X6: the direction of a correction, on a controller that is not in [ERROR]
    and has a positive max_correction: with a positive pan gain a target
    right of the image centre by at least the deadband gets a positive pan
    correction and one left of it a negative one; with a positive tilt
    gain a target below the centre (larger y) by at least the deadband gets
    a negative tilt correction and one above it a positive one. *)
Theorem correction_direction :
  forall (c : SimpleP.SimpleProportionalController) (t x y : Q),
    SimpleP.status c <> SimpleP.ERROR ->
    0 < SimpleP.max_correction c ->
    let cx := inject_Z (fst (SimpleP.image_center c)) in
    let cy := inject_Z (snd (SimpleP.image_center c)) in
    let r := fst (SimpleP.calculate_correction c t (Some (x, y))) in
    (0 < SimpleP.pan_gain c ->
     (cx < x -> SimpleP.deadband c <= x - cx -> 0 < fst r)
     /\ (x < cx -> SimpleP.deadband c <= cx - x -> fst r < 0))
    /\ (0 < SimpleP.tilt_gain c ->
        (cy < y -> SimpleP.deadband c <= y - cy -> snd r < 0)
        /\ (y < cy -> SimpleP.deadband c <= cy - y -> 0 < snd r)).
Proof.
  intros c t x y S M cx cy r. subst r.
  rewrite (calculate_correction_value c t x y S). fold cx cy. cbn [fst snd].
  split; intro G; split; intros L D.
  - rewrite apply_deadband_outside by (rewrite Qabs_pos; lra).
    apply np_clip_positive; [exact M | nra].
  - rewrite apply_deadband_outside by (rewrite Qabs_neg; lra).
    apply np_clip_negative; [exact M | nra].
  - rewrite apply_deadband_outside by (rewrite Qabs_pos; lra).
    apply np_clip_negative; [exact M | nra].
  - rewrite apply_deadband_outside by (rewrite Qabs_neg; lra).
    apply np_clip_positive; [exact M | nra].
Qed.

Lemma correction_direction_witness :
  0 < fst (fst (SimpleP.calculate_correction (SimpleP.default 640 480 0 0) 1
                  (Some (420, 240))))
  /\ snd (fst (SimpleP.calculate_correction (SimpleP.default 640 480 0 0) 1
                 (Some (320, 320)))) < 0.
Proof.
  split.
  - destruct (correction_direction (SimpleP.default 640 480 0 0) 1 420 240)
      as [H _].
    + simpl. discriminate.
    + vm_compute. reflexivity.
    + assert (G : 0 < SimpleP.pan_gain (SimpleP.default 640 480 0 0))
        by (vm_compute; reflexivity).
      destruct (H G) as [H1 _]. apply H1.
      * vm_compute. reflexivity.
      * vm_compute. discriminate.
  - destruct (correction_direction (SimpleP.default 640 480 0 0) 1 320 320)
      as [_ H].
    + simpl. discriminate.
    + vm_compute. reflexivity.
    + assert (G : 0 < SimpleP.tilt_gain (SimpleP.default 640 480 0 0))
        by (vm_compute; reflexivity).
      destruct (H G) as [H1 _]. apply H1.
      * vm_compute. reflexivity.
      * vm_compute. discriminate.
Defined.

(** X7: the response is monotone: on a controller that is not in [ERROR], with
    a pan gain that is not negative, a target further to the right never
    gets a smaller pan correction; with a tilt gain that is not negative,
    a target further down never gets a larger tilt correction.  Deadband
    and limit may be anything. *)
Theorem correction_monotone :
  forall (c : SimpleP.SimpleProportionalController) (t t' x x' y y' : Q),
    SimpleP.status c <> SimpleP.ERROR ->
    (0 <= SimpleP.pan_gain c -> x <= x' ->
     fst (fst (SimpleP.calculate_correction c t (Some (x, y))))
     <= fst (fst (SimpleP.calculate_correction c t' (Some (x', y')))))
    /\ (0 <= SimpleP.tilt_gain c -> y <= y' ->
        snd (fst (SimpleP.calculate_correction c t' (Some (x', y'))))
        <= snd (fst (SimpleP.calculate_correction c t (Some (x, y))))).
Proof.
  intros c t t' x x' y y' S.
  rewrite (calculate_correction_value c t x y S).
  rewrite (calculate_correction_value c t' x' y' S). cbn [fst snd].
  split; intros G L; apply np_clip_mono.
  - pose proof (apply_deadband_mono c
                  (x - inject_Z (fst (SimpleP.image_center c)))
                  (x' - inject_Z (fst (SimpleP.image_center c)))) as D.
    assert (D' := D ltac:(lra)). nra.
  - pose proof (apply_deadband_mono c
                  (y - inject_Z (snd (SimpleP.image_center c)))
                  (y' - inject_Z (snd (SimpleP.image_center c)))) as D.
    assert (D' := D ltac:(lra)). nra.
Qed.

Lemma correction_monotone_witness :
  fst (fst (SimpleP.calculate_correction (SimpleP.default 640 480 0 0) 1
              (Some (100, 240))))
  <= fst (fst (SimpleP.calculate_correction (SimpleP.default 640 480 0 0) 1
                 (Some (323, 240)))).
Proof.
  destruct (correction_monotone (SimpleP.default 640 480 0 0) 1 1 100 323 240 240)
    as [H _].
  - simpl. discriminate.
  - apply H.
    + vm_compute. discriminate.
    + vm_compute. discriminate.
Defined.

(** Reduces the field reads and writes of the proportional controller. *)
Ltac simplep_fields :=
  cbn [SimpleP.image_width SimpleP.image_height SimpleP.image_center
       SimpleP.pan_gain SimpleP.tilt_gain SimpleP.max_correction
       SimpleP.deadband SimpleP.name SimpleP.state SimpleP.status
       SimpleP.performance_history SimpleP.start_time
       SimpleP.set_status SimpleP.set_state SimpleP.set_performance_history
       SimpleP.last_error SimpleP.last_output SimpleP.last_update_time
       SimpleP.total_corrections fst snd] in *.

Lemma calculate_correction_no_memory
    (c c' : SimpleP.SimpleProportionalController) (t t' : Q)
    (arg : option (Q * Q)) :
  SimpleP.same_law c c' ->
  SimpleP.status c <> SimpleP.ERROR -> SimpleP.status c' <> SimpleP.ERROR ->
  fst (SimpleP.calculate_correction c t arg)
  = fst (SimpleP.calculate_correction c' t' arg).
Proof.
  intros (A & B & C & D & E) S S'. destruct arg as [[x y]|].
  - rewrite (calculate_correction_value c t x y S).
    rewrite (calculate_correction_value c' t' x y S').
    unfold SimpleP.apply_deadband. rewrite A, B, C, D, E. reflexivity.
  - apply SimplePStatus_eqb_false in S, S'.
    unfold SimpleP.calculate_correction. rewrite S, S'. reflexivity.
Qed.

Lemma keeps_law_step (c : SimpleP.SimpleProportionalController) (op : SimpleP.Op) :
  SimpleP.keeps_law op = true ->
  SimpleP.status c <> SimpleP.ERROR ->
  SimpleP.same_law c (SimpleP.step c op)
  /\ SimpleP.status (SimpleP.step c op) <> SimpleP.ERROR.
Proof.
  intros K S. destruct op as [t [[x y]|]|now|pg tg|m|d|]; try discriminate K;
    cbn [SimpleP.step].
  - pose proof S as S0. apply SimplePStatus_eqb_false in S.
    unfold SimpleP.calculate_correction. rewrite S. cbn.
    split; [repeat split | discriminate].
  - unfold SimpleP.reset. simplep_fields.
    pose proof S as S0. apply SimplePStatus_eqb_false in S. rewrite S.
    cbn. split; [repeat split | discriminate].
  - unfold SimpleP.cleanup. cbn. split; [repeat split | discriminate].
Qed.

Lemma same_law_trans (a b c : SimpleP.SimpleProportionalController) :
  SimpleP.same_law a b -> SimpleP.same_law b c -> SimpleP.same_law a c.
Proof.
  unfold SimpleP.same_law.
  intros (A1 & A2 & A3 & A4 & A5) (B1 & B2 & B3 & B4 & B5).
  repeat split; congruence.
Qed.

Lemma keeps_law_run (ops : list SimpleP.Op) :
  forall c : SimpleP.SimpleProportionalController,
    forallb SimpleP.keeps_law ops = true ->
    SimpleP.status c <> SimpleP.ERROR ->
    SimpleP.same_law c (SimpleP.run c ops)
    /\ SimpleP.status (SimpleP.run c ops) <> SimpleP.ERROR.
Proof.
  unfold SimpleP.run.
  induction ops as [|op rest IH]; intros c K S; cbn [fold_left].
  - split; [repeat split | exact S].
  - cbn [forallb] in K. apply andb_true_iff in K. destruct K as [K1 K2].
    destruct (keeps_law_step c op K1 S) as [L1 S1].
    destruct (IH (SimpleP.step c op) K2 S1) as [L2 S2].
    split; [exact (same_law_trans _ _ _ L1 L2) | exact S2].
Qed.

(** X8: the proportional law has no memory: two controllers that are not in
    [ERROR] and agree on image centre, gains, max_correction and deadband
    return the same correction for the same argument, whatever their
    histories and the times of the calls.  So on a controller that is not
    in [ERROR], any sequence of corrections on well-formed centres, resets
    and cleanups leaves the answer to the next call what it would have been
    without them; in particular [cleanup] does not put the controller out
    of use. *)
Theorem correction_has_no_memory :
  (forall (c c' : SimpleP.SimpleProportionalController) (t t' : Q)
          (arg : option (Q * Q)),
     SimpleP.same_law c c' ->
     SimpleP.status c <> SimpleP.ERROR -> SimpleP.status c' <> SimpleP.ERROR ->
     fst (SimpleP.calculate_correction c t arg)
     = fst (SimpleP.calculate_correction c' t' arg))
  /\ (forall (c : SimpleP.SimpleProportionalController) (ops : list SimpleP.Op)
             (t t' : Q) (arg : option (Q * Q)),
        SimpleP.status c <> SimpleP.ERROR ->
        forallb SimpleP.keeps_law ops = true ->
        fst (SimpleP.calculate_correction (SimpleP.run c ops) t arg)
        = fst (SimpleP.calculate_correction c t' arg)).
Proof.
  split; [exact calculate_correction_no_memory|].
  intros c ops t t' arg S K.
  destruct (keeps_law_run ops c K S) as [L S'].
  symmetry. apply calculate_correction_no_memory; assumption.
Qed.

Lemma correction_has_no_memory_witness :
  fst (SimpleP.calculate_correction
         (SimpleP.run (SimpleP.default 640 480 0 0)
            [SimpleP.OpCorrect 1 (Some (100, 100)); SimpleP.OpCleanup;
             SimpleP.OpCorrect 2 (Some (600, 20)); SimpleP.OpReset 3])
         4 (Some (420, 240)))
  = fst (SimpleP.calculate_correction (SimpleP.default 640 480 0 0) 1
           (Some (420, 240))).
Proof.
  destruct correction_has_no_memory as [_ H].
  apply H.
  - simpl. discriminate.
  - reflexivity.
Defined.

(** ** Histories and statistics of the proportional controller *)

Lemma simplep_evict_append {A : Type} (n : nat) (h : list A) (e : A) :
  (List.length h <= S n)%nat ->
  (List.length (SimpleP.evict (S n) (h ++ [e])) <= S n)%nat
  /\ ((List.length h < S n)%nat -> SimpleP.evict (S n) (h ++ [e]) = h ++ [e])
  /\ (List.length h = S n -> SimpleP.evict (S n) (h ++ [e]) = List.tl h ++ [e]).
Proof.
  intro L. unfold SimpleP.evict. rewrite length_app. cbn [List.length].
  destruct (Nat.ltb (S n) (List.length h + 1)) eqn:E.
  - apply Nat.ltb_lt in E. split; [|split].
    + destruct h; cbn in *; [lia|]. rewrite length_app. cbn. lia.
    + intro. lia.
    + intros _. destruct h; cbn in *; [lia | reflexivity].
  - apply Nat.ltb_ge in E. split; [|split].
    + rewrite length_app. cbn. lia.
    + reflexivity.
    + intro. lia.
Qed.

Lemma simplep_step_history (c : SimpleP.SimpleProportionalController)
    (op : SimpleP.Op) :
  (List.length (SimpleP.performance_history c) <= 50)%nat ->
  (List.length (SimpleP.performance_history (SimpleP.step c op)) <= 50)%nat.
Proof.
  intro L. destruct op as [t arg|now|pg tg|m|d|]; cbn [SimpleP.step].
  - unfold SimpleP.calculate_correction.
    destruct (SimpleP.SimplePStatus_eqb _ _); [exact L|].
    destruct arg as [[x y]|]; [|exact L].
    cbn [snd]. simplep_fields.
    apply (simplep_evict_append 49). exact L.
  - unfold SimpleP.reset. simplep_fields.
    destruct (negb _); cbn; lia.
  - exact L.
  - exact L.
  - exact L.
  - cbn. lia.
Qed.

(** X9: the performance history is a queue of at most 50 entries: no sequence
    of calls makes it longer.  A correction on a controller that is not in
    [ERROR], for a well-formed centre, appends one entry, which carries the
    time of the call, the centre and the correction returned, drops the
    oldest entry when 50 were stored, and counts one more correction. *)
Theorem history_is_a_bounded_queue :
  (forall (w h : Z) (pg tg m d : Q) (nm : string) (t0 t1 : Q)
          (ops : list SimpleP.Op),
     (List.length
        (SimpleP.performance_history
           (SimpleP.run (SimpleP.__init__ w h pg tg m d nm t0 t1) ops))
      <= 50)%nat)
  /\ (forall (c : SimpleP.SimpleProportionalController) (t x y : Q),
        SimpleP.status c <> SimpleP.ERROR ->
        (List.length (SimpleP.performance_history c) <= 50)%nat ->
        let r := SimpleP.calculate_correction c t (Some (x, y)) in
        exists e : SimpleP.HistoryEntry,
          SimpleP.timestamp e = t
          /\ SimpleP.detection_center e = (x, y)
          /\ SimpleP.correction e = fst r
          /\ ((List.length (SimpleP.performance_history c) < 50)%nat ->
              SimpleP.performance_history (snd r)
              = SimpleP.performance_history c ++ [e])
          /\ (List.length (SimpleP.performance_history c) = 50%nat ->
              SimpleP.performance_history (snd r)
              = List.tl (SimpleP.performance_history c) ++ [e])
          /\ SimpleP.total_corrections (SimpleP.state (snd r))
             = S (SimpleP.total_corrections (SimpleP.state c))).
Proof.
  split.
  - intros w h pg tg m d nm t0 t1 ops. unfold SimpleP.run.
    assert (G : forall (l : list SimpleP.Op) c,
               (List.length (SimpleP.performance_history c) <= 50)%nat ->
               (List.length
                  (SimpleP.performance_history (fold_left SimpleP.step l c))
                <= 50)%nat).
    { induction l as [|op rest IH]; intros c L; cbn [fold_left].
      - exact L.
      - apply IH. apply simplep_step_history. exact L. }
    apply G. cbn. lia.
  - intros c t x y S L r. subst r.
    apply SimplePStatus_eqb_false in S.
    unfold SimpleP.calculate_correction. rewrite S. cbn [fst snd].
    simplep_fields.
    match goal with
    | |- context [SimpleP.evict 50 (_ ++ [?e])] => exists e
    end.
    repeat split.
    + intro H. apply (simplep_evict_append 49); [exact L | exact H].
    + intro H. apply (simplep_evict_append 49); [exact L | exact H].
Qed.

Lemma history_is_a_bounded_queue_witness :
  exists e : SimpleP.HistoryEntry,
    SimpleP.timestamp e = 1
    /\ SimpleP.detection_center e = (420, 240)
    /\ SimpleP.performance_history
         (snd (SimpleP.calculate_correction (SimpleP.default 640 480 0 0) 1
                 (Some (420, 240))))
       = [e].
Proof.
  destruct history_is_a_bounded_queue as [_ H].
  destruct (H (SimpleP.default 640 480 0 0) 1 420 240)
    as (e & A & B & _ & C & _).
  - simpl. discriminate.
  - simpl. lia.
  - exists e. split; [exact A|]. split; [exact B|].
    apply C. simpl. lia.
Defined.

Lemma unit_ratio (k m : nat) :
  (k <= m)%nat -> (0 < m)%nat ->
  0 <= inject_Z (Z.of_nat k) / inject_Z (Z.of_nat m) <= 1.
Proof.
  intros K M.
  assert (P : 0 < inject_Z (Z.of_nat m)).
  { change 0 with (inject_Z 0). rewrite <- Zlt_Qlt. lia. }
  assert (N : 0 <= inject_Z (Z.of_nat k)).
  { change 0 with (inject_Z 0). rewrite <- Zle_Qle. lia. }
  assert (L : inject_Z (Z.of_nat k) <= inject_Z (Z.of_nat m)).
  { rewrite <- Zle_Qle. lia. }
  split.
  - apply Qle_shift_div_l; [exact P | lra].
  - apply Qle_shift_div_r; [exact P | lra].
Qed.

Lemma length_py_last {A : Type} (n : nat) (l : list A) :
  List.length (py_last (S n) l) = Nat.min (List.length l) (S n).
Proof.
  unfold py_last. rewrite length_skipn. lia.
Qed.

Lemma Qsum_nonneg (l : list Q) :
  (forall x, In x l -> 0 <= x) -> 0 <= Qsum l.
Proof.
  induction l as [|a rest IH]; intro H; cbn.
  - lra.
  - assert (0 <= a) by (apply H; left; reflexivity).
    assert (0 <= Qsum rest) by (apply IH; intros; apply H; right; assumption).
    unfold Qsum in *. lra.
Qed.

Lemma mean_or_zero_nonneg (l : list Q) :
  (forall x, In x l -> 0 <= x) -> 0 <= mean_or_zero l.
Proof.
  intro H. unfold mean_or_zero, np_mean.
  destruct l as [|a rest]; [lra|].
  apply Qle_shift_div_l.
  - change 0 with (inject_Z 0). rewrite <- Zlt_Qlt. cbn [List.length]. lia.
  - rewrite Qmult_0_l. apply Qsum_nonneg. exact H.
Qed.

Lemma mean_or_zero_abs_nonneg (l : list Q) : 0 <= mean_or_zero (map Qabs l).
Proof.
  apply mean_or_zero_nonneg. intros x H. apply in_map_iff in H.
  destruct H as (y & <- & _). apply Qabs_nonneg.
Qed.

Lemma Qsquare_nonneg (z : Q) : 0 <= z * z.
Proof.
  destruct (Qlt_le_dec z 0) as [N|N].
  - setoid_replace (z * z) with ((- z) * (- z)) by ring.
    apply Qmult_le_0_compat; lra.
  - apply Qmult_le_0_compat; lra.
Qed.

Lemma var_or_zero_nonneg (l : list Q) : 0 <= var_or_zero l.
Proof.
  unfold var_or_zero, np_var.
  destruct (np_mean l) as [m|]; [|lra].
  change (0 <= mean_or_zero (map (fun x => (x - m) * (x - m)) l)).
  apply mean_or_zero_nonneg. intros x H. apply in_map_iff in H.
  destruct H as (y & <- & _). apply Qsquare_nonneg.
Qed.

Lemma deadband_rate_unit (h : list SimpleP.HistoryEntry) :
  h <> [] ->
  0 <= inject_Z
         (Z.of_nat
            (List.length
               (filter (fun p => SimpleP.is_in_deadband p) (py_last 20 h))))
       / inject_Z (Z.of_nat (Nat.min (List.length h) 20)) <= 1.
Proof.
  intro N. apply unit_ratio.
  - etransitivity; [apply filter_length_le|].
    rewrite length_py_last. reflexivity.
  - destruct h; [contradiction|]. cbn [List.length]. lia.
Qed.

(** X10: [get_performance_statistics] has a [recent_performance] entry exactly
    when the history is not empty, and then its numbers are in their
    ranges: the deadband rate lies between 0 and 1, and the mean absolute
    errors, the mean absolute corrections and the two variances are not
    negative. *)
Theorem recent_performance_ranges :
  forall c : SimpleP.SimpleProportionalController,
    (SimpleP.recent_performance c = None
     <-> SimpleP.performance_history c = [])
    /\ (forall rp : SimpleP.RecentPerformance,
          SimpleP.recent_performance c = Some rp ->
          0 <= SimpleP.deadband_rate rp <= 1
          /\ 0 <= SimpleP.mean_error_x rp /\ 0 <= SimpleP.mean_error_y rp
          /\ 0 <= SimpleP.mean_correction_pan rp
          /\ 0 <= SimpleP.mean_correction_tilt rp
          /\ 0 <= SimpleP.x_variance rp /\ 0 <= SimpleP.y_variance rp).
Proof.
  intro c. unfold SimpleP.recent_performance.
  destruct (SimpleP.performance_history c) as [|e rest] eqn:H.
  - split; [tauto|]. intros rp E. discriminate E.
  - split; [split; discriminate|].
    intros rp E. injection E as <-.
    cbn [SimpleP.deadband_rate SimpleP.mean_error_x SimpleP.mean_error_y
         SimpleP.mean_correction_pan SimpleP.mean_correction_tilt
         SimpleP.x_variance SimpleP.y_variance].
    split; [|repeat split;
             first [apply mean_or_zero_abs_nonneg | apply var_or_zero_nonneg]].
    exact (deadband_rate_unit (e :: rest) ltac:(discriminate)).
Qed.

Lemma recent_performance_ranges_witness :
  exists rp : SimpleP.RecentPerformance,
    SimpleP.recent_performance
      (SimpleP.run (SimpleP.default 640 480 0 0)
         [SimpleP.OpCorrect 1 (Some (322, 241));
          SimpleP.OpCorrect 2 (Some (500, 100))]) = Some rp
    /\ 0 <= SimpleP.deadband_rate rp <= 1.
Proof.
  destruct (recent_performance_ranges
              (SimpleP.run (SimpleP.default 640 480 0 0)
                 [SimpleP.OpCorrect 1 (Some (322, 241));
                  SimpleP.OpCorrect 2 (Some (500, 100))])) as [_ H].
  eexists. split.
  - vm_compute. reflexivity.
  - eapply H. vm_compute. reflexivity.
Defined.

(** ** The PID controller over whole runs *)

(** The bookkeeping of a recomputing call. *)
Lemma update_books (c : PID.PIDController) (t0 t1 t2 e : Q) :
  PID.recomputes c t1 = true ->
  let c' := snd (PID.update c t0 t1 t2 (Some e)) in
  let n := inject_Z (Z.of_nat (S (PID.total_updates c))) in
  PID.saturation_count c'
  = (if PID.is_saturated (PID.state c')
     then S (PID.saturation_count c) else PID.saturation_count c)
  /\ (exists entry,
        PID.performance_history c'
        = PID.evict 100 (PID.performance_history c ++ [entry])
        /\ PID.h_output entry = fst (PID.update c t0 t1 t2 (Some e))
        /\ PID.h_error entry = e)
  /\ PID.average_update_time c'
     = (PID.average_update_time c * (n - 1) + (t2 - t0)) / n
  /\ PID.kP c' = PID.kP c /\ PID.kD c' = PID.kD c
  /\ PID.sample_time c' = PID.sample_time c.
Proof.
  intro R. apply recomputes_true in R. destruct R as [H R].
  cbv zeta. destruct c. pid_fields.
  unfold PID.update. pid_fields. rewrite H. pid_fields. rewrite R.
  match goal with
  | |- context [if ?b then PID.set_status _ PID.SATURATED else _] => destruct b
  end; pid_fields;
    (split; [reflexivity|]; split; [eexists; repeat split; reflexivity|];
     repeat split; reflexivity).
Qed.

(** The stored output lies within the output limits [(lo, hi)]. *)
Lemma update_output_within (c : PID.PIDController) (lo hi : Q)
    (t0 t1 t2 : Q) (e : option Q) :
  lo <= 0 <= hi ->
  PID.output_limits c = (lo, hi) ->
  lo <= PID.output (PID.state c) <= hi ->
  lo <= fst (PID.update c t0 t1 t2 e) <= hi
  /\ PID.output_limits (snd (PID.update c t0 t1 t2 e)) = (lo, hi)
  /\ lo <= PID.output (PID.state (snd (PID.update c t0 t1 t2 e))) <= hi.
Proof.
  intros Z L O.
  destruct (update_cases c t0 t1 t2 e)
    as [[_ U] | [(_ & _ & U) | [(_ & _ & U) | (R & x & ->)]]].
  - rewrite U. cbn [fst snd]. repeat split; tauto.
  - rewrite U. cbn [fst snd]. pid_fields. repeat split; tauto.
  - rewrite U. cbn [fst snd]. pid_fields. repeat split; tauto.
  - destruct (update_recomputed c t0 t1 t2 x R) as (A & B & _ & C & _).
    cbv zeta in A, B. rewrite A, B, C, L. cbn [PID.output fst snd].
    assert (W : lo <= hi) by lra.
    pose proof (np_clip_bounds
                  (PID.kP c * x
                   + PID.kI c
                     * (if Qltb 0 (t1 - PID.prev_time (PID.state c))
                        then np_clip
                               (PID.integral (PID.state c)
                                + x * (t1 - PID.prev_time (PID.state c)))
                               (fst (PID.integral_limits c))
                               (snd (PID.integral_limits c))
                        else PID.integral (PID.state c))
                   + (if Qltb 0 (t1 - PID.prev_time (PID.state c))
                         && Nat.ltb 0 (PID.total_updates c)
                      then PID.kD c
                           * ((x - PID.prev_error (PID.state c))
                              / (t1 - PID.prev_time (PID.state c)))
                      else 0)) lo hi W) as B'.
    repeat split; tauto.
Qed.

Lemma reset_output_within (c : PID.PIDController) (lo hi now : Q) :
  lo <= 0 <= hi ->
  PID.output_limits c = (lo, hi) ->
  PID.output_limits (PID.reset c now) = (lo, hi)
  /\ lo <= PID.output (PID.state (PID.reset c now)) <= hi.
Proof.
  intros Z L. unfold PID.reset. cbv zeta. pid_fields.
  destruct (negb (PID.PIDStatus_eqb (PID.status c) PID.ERROR));
    pid_fields; split; try exact L; exact Z.
Qed.

Lemma step_output_within (c : PID.PIDController) (lo hi : Q) (op : PID.Op) :
  lo <= 0 <= hi ->
  PID.changes_output_limits op = false ->
  PID.output_limits c = (lo, hi) ->
  lo <= PID.output (PID.state c) <= hi ->
  PID.output_limits (PID.step c op) = (lo, hi)
  /\ lo <= PID.output (PID.state (PID.step c op)) <= hi.
Proof.
  intros Z N L O. destruct op as [t0 t1 t2 e|now|p i d|a b|a b|];
    cbn [PID.step]; try discriminate N.
  - destruct (update_output_within c lo hi t0 t1 t2 e Z L O) as (_ & A & B).
    split; assumption.
  - apply reset_output_within; assumption.
  - split; assumption.
  - unfold PID.set_integral_limits. destruct (Qleb b a); split; assumption.
  - split; assumption.
Qed.

Lemma returned_within (ops : list PID.Op) :
  forall (c : PID.PIDController) (lo hi : Q),
    lo <= 0 <= hi ->
    forallb (fun op => negb (PID.changes_output_limits op)) ops = true ->
    PID.output_limits c = (lo, hi) ->
    lo <= PID.output (PID.state c) <= hi ->
    Forall (fun o => lo <= o <= hi) (PID.returned c ops).
Proof.
  induction ops as [|op ops IH]; intros c lo hi Z N L O.
  - constructor.
  - cbn [forallb] in N. apply andb_true_iff in N. destruct N as [N1 N2].
    apply negb_true_iff in N1.
    pose proof (step_output_within c lo hi op Z N1 L O) as [L' O'].
    destruct op as [t0 t1 t2 e|now|p i d|a b|a b|]; cbn [PID.returned];
      try (apply (IH _ lo hi Z N2 L' O')).
    constructor.
    + apply (update_output_within c lo hi t0 t1 t2 e Z L O).
    + apply (IH _ lo hi Z N2 L' O').
Qed.

(** X11: [PIDController.update] over whole runs.  A controller is built with
    output limits [(lo, hi)] that contain 0 and is then driven by any
    sequence of [update] (numeric or not, at any times), [reset],
    [set_parameters], [set_integral_limits] and [cleanup] calls.  Every
    value that an [update] call of the sequence returns lies within
    [[lo, hi]]: the recomputed ones are clipped, the rate-limited ones
    repeat a clipped one or the 0 of the constructor or of [reset], and the
    ones in [ERROR] are 0. *)
Theorem output_within_limits_along_runs :
  forall (kP kI kD lo hi : Q) (integral_limits : Q * Q) (sample_time : Q)
         (name : string) (t_start t_ready : Q) (ops : list PID.Op),
    lo <= 0 <= hi ->
    forallb (fun op => negb (PID.changes_output_limits op)) ops = true ->
    Forall (fun o => lo <= o <= hi)
           (PID.returned
              (PID.__init__ kP kI kD (lo, hi) integral_limits sample_time
                            name t_start t_ready)
              ops).
Proof.
  intros kP kI kD lo hi il st name ts tr ops Z N.
  apply returned_within; try assumption; try reflexivity.
Qed.

Lemma output_within_limits_along_runs_witness :
  Forall (fun o => -(90) <= o <= 90)
         (PID.returned
            (PID.__init__ 2 0.5 0.1 (-(90), 90) (-(50), 50) 0.01 "PID" 0 0)
            [PID.OpUpdate 1 1 1 (Some 200);
             PID.OpUpdate 1 1.001 1 (Some (-(300)));
             PID.OpSetParameters 50 50 50;
             PID.OpUpdate 2 2 2 (Some (-(300)));
             PID.OpReset 3;
             PID.OpSetIntegralLimits (-(1000)) 1000;
             PID.OpUpdate 4 4 4 (Some 1000);
             PID.OpUpdate 5 5 5 None;
             PID.OpUpdate 6 6 6 (Some 1);
             PID.OpCleanup;
             PID.OpUpdate 7 7 7 (Some 1)]).
Proof.
  apply output_within_limits_along_runs.
  - split; vm_compute; discriminate.
  - reflexivity.
Defined.

Lemma dual_returned_within (ops : list PID.DualOp) :
  forall (d : PID.DualPIDController) (plo phi tlo thi : Q),
    plo <= 0 <= phi ->
    tlo <= 0 <= thi ->
    PID.output_limits (PID.pan_pid d) = (plo, phi) ->
    plo <= PID.output (PID.state (PID.pan_pid d)) <= phi ->
    PID.output_limits (PID.tilt_pid d) = (tlo, thi) ->
    tlo <= PID.output (PID.state (PID.tilt_pid d)) <= thi ->
    Forall (fun o => (plo <= fst o <= phi) /\ (tlo <= snd o <= thi))
           (PID.dual_returned d ops).
Proof.
  induction ops as [|op ops IH]; intros d plo phi tlo thi ZP ZT LP OP LT OT.
  - constructor.
  - destruct op as [[[p0 p1] p2] pe [[t0 t1] t2] te|pn tn|];
      cbn [PID.dual_returned PID.dual_step PID.dual_update PID.dual_reset
           PID.dual_cleanup fst snd].
    + destruct (update_output_within (PID.pan_pid d) plo phi p0 p1 p2 pe
                  ZP LP OP) as (A & B & C).
      destruct (update_output_within (PID.tilt_pid d) tlo thi t0 t1 t2 te
                  ZT LT OT) as (A' & B' & C').
      constructor.
      * cbn [fst snd]. split; assumption.
      * apply IH; cbn [PID.pan_pid PID.tilt_pid]; assumption.
    + destruct (reset_output_within (PID.pan_pid d) plo phi pn ZP LP).
      destruct (reset_output_within (PID.tilt_pid d) tlo thi tn ZT LT).
      apply IH; cbn [PID.pan_pid PID.tilt_pid]; assumption.
    + apply IH; cbn [PID.pan_pid PID.tilt_pid]; assumption.
Qed.

(** X12: [DualPIDController].  Built without parameter dictionaries, the
    pair of controllers returns pan outputs within [[-90, 90]] and tilt
    outputs within [[-45, 45]] on every [update], through any sequence of
    [update], [reset] and [cleanup] calls.  With dictionaries, the same
    holds for the output limits they leave in force on each axis (the
    dictionary's own, else the default of the axis), provided these contain
    0. *)
Theorem dual_outputs_within_axis_limits :
  forall (pan_start pan_ready tilt_start tilt_ready : Q)
         (ops : list PID.DualOp),
    Forall (fun o => (-(90) <= fst o <= 90) /\ (-(45) <= snd o <= 45))
           (PID.dual_returned
              (PID.create_dual_pid_controller
                 pan_start pan_ready tilt_start tilt_ready) ops)
    /\ forall (pan_params tilt_params : PID.Params) (plo phi tlo thi : Q),
         PID.or_default (PID.p_output_limits pan_params) (-(90), 90)
         = (plo, phi) ->
         PID.or_default (PID.p_output_limits tilt_params) (-(45), 45)
         = (tlo, thi) ->
         plo <= 0 <= phi ->
         tlo <= 0 <= thi ->
         Forall (fun o => (plo <= fst o <= phi) /\ (tlo <= snd o <= thi))
                (PID.dual_returned
                   (PID.dual__init__ (Some pan_params) (Some tilt_params)
                      pan_start pan_ready tilt_start tilt_ready) ops).
Proof.
  intros ps pr ts tr ops. split.
  - apply dual_returned_within; try reflexivity; split; vm_compute; discriminate.
  - intros pp tp plo phi tlo thi LP LT ZP ZT.
    apply dual_returned_within; try assumption.
Qed.

Lemma dual_outputs_within_axis_limits_witness :
  Forall (fun o => (-(10) <= fst o <= 10) /\ (-(45) <= snd o <= 45))
         (PID.dual_returned
            (PID.dual__init__
               (Some {| PID.p_kP := Some 5; PID.p_kI := None; PID.p_kD := None;
                        PID.p_output_limits := Some (-(10), 10);
                        PID.p_integral_limits := None;
                        PID.p_sample_time := None; PID.p_name := None |})
               (Some PID.no_params) 0 0 0 0)
            [PID.DualUpdate (1, 1, 1) (Some 100) (1, 1, 1) (Some (-(100)));
             PID.DualReset 2 2;
             PID.DualUpdate (2, 2, 2) None (2, 2, 2) (Some 7)]).
Proof.
  apply (proj2 (dual_outputs_within_axis_limits 0 0 0 0 _)).
  - reflexivity.
  - reflexivity.
  - split; vm_compute; discriminate.
  - split; vm_compute; discriminate.
Defined.

(** ** The statistics of the PID controller *)

Lemma pid_evict_append {A : Type} (h : list A) (e : A) :
  (List.length (PID.evict 100 (h ++ [e])) <= S (List.length h))%nat
  /\ ((List.length h <= 100)%nat ->
      (List.length (PID.evict 100 (h ++ [e])) <= 100)%nat)
  /\ (forall x, In x (PID.evict 100 (h ++ [e])) -> In x h \/ x = e).
Proof.
  unfold PID.evict. rewrite length_app. cbn [List.length].
  destruct (Nat.ltb 100 (List.length h + 1)) eqn:E.
  - apply Nat.ltb_lt in E. destruct h as [|a h]; [cbn in E; lia|].
    cbn [app List.tl List.length]. rewrite length_app. cbn [List.length].
    repeat split; try lia.
    intros x I. apply in_app_or in I. destruct I as [I|[I|[]]].
    + left. right. exact I.
    + right. symmetry. exact I.
  - apply Nat.ltb_ge in E. rewrite length_app. cbn [List.length].
    repeat split; try lia.
    intros x I. apply in_app_or in I. destruct I as [I|[I|[]]].
    + left. exact I.
    + right. symmetry. exact I.
Qed.

Lemma counters_ok_update (c : PID.PIDController) (t0 t1 t2 : Q) (e : option Q) :
  PID.counters_ok c -> PID.counters_ok (snd (PID.update c t0 t1 t2 e)).
Proof.
  intros (A & B & C).
  destruct (update_cases c t0 t1 t2 e)
    as [[_ U] | [(_ & _ & U) | [(_ & _ & U) | (R & x & ->)]]];
    try (rewrite U; cbn [snd]; unfold PID.counters_ok; pid_fields;
         repeat split; assumption).
  destruct (update_recomputed c t0 t1 t2 x R) as (_ & _ & _ & _ & _ & _ & T).
  destruct (update_books c t0 t1 t2 x R) as (S1 & (entry & H & _) & _).
  cbv zeta in T, S1, H. unfold PID.counters_ok. rewrite T, S1, H.
  destruct (pid_evict_append (PID.performance_history c) entry) as (L1 & L2 & _).
  specialize (L2 C).
  destruct (PID.is_saturated _); repeat split; lia.
Qed.

Lemma counters_ok_step (c : PID.PIDController) (op : PID.Op) :
  PID.counters_ok c -> PID.counters_ok (PID.step c op).
Proof.
  intro K. destruct op as [t0 t1 t2 e|now|p i d|a b|a b|]; cbn [PID.step].
  - apply counters_ok_update. exact K.
  - destruct K as (A & B & C). unfold PID.reset. cbv zeta.
    destruct (negb _); unfold PID.counters_ok; pid_fields;
      cbn [List.length]; repeat split; lia.
  - exact K.
  - unfold PID.set_output_limits. destruct (Qleb b a); exact K.
  - unfold PID.set_integral_limits. destruct (Qleb b a); exact K.
  - destruct K as (A & B & C). unfold PID.cleanup, PID.counters_ok.
    pid_fields. cbn [List.length]. repeat split; lia.
Qed.

Lemma counters_ok_drive (ops : list PID.Op) :
  forall c : PID.PIDController,
    PID.counters_ok c -> PID.counters_ok (PID.drive c ops).
Proof.
  induction ops as [|op ops IH]; intros c K; [exact K|].
  apply (IH (PID.step c op)). apply counters_ok_step. exact K.
Qed.

(** X13: [get_performance_statistics] of the PID controller.  For a
    controller built by the constructor and driven by any sequence of its
    calls, whenever the statistics are not the empty dictionary at least one
    update was counted, the saturation rate lies in [[0, 1]], the history
    holds at most 100 entries and no more than were counted, and the mean
    absolute error and the output variance are not negative. *)
Theorem statistics_are_rates :
  forall (kP kI kD : Q) (output_limits integral_limits : Q * Q)
         (sample_time : Q) (name : string) (t_start t_ready : Q)
         (ops : list PID.Op) (s : PID.Statistics),
    let c := PID.drive
               (PID.__init__ kP kI kD output_limits integral_limits
                             sample_time name t_start t_ready) ops in
    PID.get_performance_statistics c = Some s ->
    (1 <= PID.s_total_updates s)%nat
    /\ 0 <= PID.saturation_rate s <= 1
    /\ (List.length (PID.performance_history c)
        <= Nat.min 100 (PID.s_total_updates s))%nat
    /\ 0 <= PID.mean_error (PID.recent_performance s)
    /\ 0 <= PID.output_variance (PID.recent_performance s).
Proof.
  intros kP kI kD ol il st name ts tr ops s c E.
  assert (K : PID.counters_ok c).
  { apply counters_ok_drive. unfold PID.counters_ok. cbn. repeat split; lia. }
  destruct K as (A & B & C).
  unfold PID.get_performance_statistics in E.
  destruct (PID.performance_history c) as [|e rest] eqn:H; [discriminate E|].
  injection E as <-.
  cbn [PID.s_total_updates PID.saturation_rate PID.recent_performance
       PID.mean_error PID.output_variance].
  cbn [List.length] in B, C.
  split; [lia|]. split; [|split; [cbn [List.length]; lia|split]].
  - apply unit_ratio; lia.
  - apply mean_or_zero_abs_nonneg.
  - apply var_or_zero_nonneg.
Qed.

Lemma statistics_are_rates_witness :
  exists s : PID.Statistics,
    PID.get_performance_statistics
      (PID.drive (PID.default 1 0 0 0 0)
         [PID.OpUpdate 1 1 1 (Some 200); PID.OpUpdate 2 2 2 (Some 10)])
    = Some s
    /\ 0 <= PID.saturation_rate s <= 1.
Proof.
  eexists. split.
  - vm_compute. reflexivity.
  - eapply (statistics_are_rates 1 0 0 (-(90), 90) (-(50), 50) 0.01 "PID" 0 0
              [PID.OpUpdate 1 1 1 (Some 200); PID.OpUpdate 2 2 2 (Some 10)]).
    vm_compute. reflexivity.
Defined.

Lemma inject_nat_succ (n : nat) :
  inject_Z (Z.of_nat (S n)) == inject_Z (Z.of_nat n) + 1.
Proof.
  rewrite Nat2Z.inj_succ. unfold Z.succ. rewrite inject_Z_plus. reflexivity.
Qed.

Lemma inject_nat_pos (n : nat) : 0 < inject_Z (Z.of_nat (S n)).
Proof.
  change 0 with (inject_Z 0). rewrite <- Zlt_Qlt. lia.
Qed.

Lemma Qsum_within (l : list Q) (lo hi : Q) :
  Forall (fun x => lo <= x <= hi) l ->
  inject_Z (Z.of_nat (List.length l)) * lo <= Qsum l
  /\ Qsum l <= inject_Z (Z.of_nat (List.length l)) * hi.
Proof.
  induction 1 as [|x l [X1 X2] _ [I1 I2]].
  - change (Qsum []) with 0. change (inject_Z (Z.of_nat (List.length (@nil Q)))) with 0.
    split; lra.
  - cbn [List.length]. change (Qsum (x :: l)) with (x + Qsum l).
    rewrite inject_nat_succ. split; lra.
Qed.

(** The mean of numbers between [lo] and [hi] lies between [lo] and
    [hi]. *)
Lemma mean_or_zero_within (l : list Q) (lo hi : Q) :
  l <> [] ->
  Forall (fun x => lo <= x <= hi) l ->
  lo <= mean_or_zero l <= hi.
Proof.
  intros N F. destruct (Qsum_within l lo hi F) as [A B].
  destruct l as [|a rest]; [contradiction|].
  unfold mean_or_zero, np_mean.
  pose proof (inject_nat_pos (List.length rest)) as P.
  change (S (List.length rest)) with (List.length (a :: rest)) in P.
  split.
  - apply Qle_shift_div_l; [exact P|]. lra.
  - apply Qle_shift_div_r; [exact P|]. lra.
Qed.

Lemma In_py_last {A : Type} (n : nat) (l : list A) (x : A) :
  In x (py_last n l) -> In x l.
Proof.
  destruct n as [|n]; cbn [py_last]; [tauto|].
  intro I. rewrite <- (firstn_skipn (List.length l - S n) l).
  apply in_or_app. right. exact I.
Qed.

Lemma py_last_nonempty {A : Type} (n : nat) (l : list A) :
  l <> [] -> (n <= List.length l)%nat -> (n = 0%nat \/ py_last n l <> []).
Proof.
  intros N L. destruct n as [|n]; [left; reflexivity|right].
  cbn [py_last]. intro E.
  apply (f_equal (@List.length A)) in E. rewrite length_skipn in E.
  cbn [List.length] in E. lia.
Qed.

(** The history holds outputs within [(lo, hi)]. *)
Lemma recorded_step (c : PID.PIDController) (lo hi : Q) (op : PID.Op) :
  lo <= hi ->
  PID.changes_output_limits op = false ->
  PID.output_limits c = (lo, hi) ->
  (forall e, In e (PID.performance_history c) -> lo <= PID.h_output e <= hi) ->
  PID.output_limits (PID.step c op) = (lo, hi)
  /\ (forall e, In e (PID.performance_history (PID.step c op)) ->
                lo <= PID.h_output e <= hi).
Proof.
  intros W N L H. destruct op as [t0 t1 t2 e|now|p i d|a b|a b|];
    cbn [PID.step]; try discriminate N.
  - destruct (update_cases c t0 t1 t2 e)
      as [[_ U] | [(_ & _ & U) | [(_ & _ & U) | (R & x & ->)]]];
      try (rewrite U; cbn [snd]; pid_fields; split; assumption).
    destruct (update_recomputed c t0 t1 t2 x R) as (A & _ & _ & B & _).
    destruct (update_books c t0 t1 t2 x R) as (_ & (entry & E1 & E2 & _) & _).
    cbv zeta in A, B, E1. split; [rewrite B; exact L|].
    rewrite E1. intros e I.
    destruct (pid_evict_append (PID.performance_history c) entry) as (_ & _ & M).
    destruct (M e I) as [J | ->]; [apply H; exact J|].
    rewrite E2, A, L. cbn [fst snd]. apply np_clip_bounds. exact W.
  - unfold PID.reset. cbv zeta. destruct (negb _); pid_fields;
      (split; [exact L | intros e []]).
  - split; assumption.
  - unfold PID.set_integral_limits. destruct (Qleb b a); split; assumption.
  - unfold PID.cleanup. pid_fields. split; [exact L | intros e []].
Qed.

Lemma recorded_drive (ops : list PID.Op) :
  forall (c : PID.PIDController) (lo hi : Q),
    lo <= hi ->
    forallb (fun op => negb (PID.changes_output_limits op)) ops = true ->
    PID.output_limits c = (lo, hi) ->
    (forall e, In e (PID.performance_history c) -> lo <= PID.h_output e <= hi) ->
    forall e, In e (PID.performance_history (PID.drive c ops)) ->
              lo <= PID.h_output e <= hi.
Proof.
  induction ops as [|op ops IH]; intros c lo hi W N L H; [exact H|].
  cbn [forallb] in N. apply andb_true_iff in N. destruct N as [N1 N2].
  apply negb_true_iff in N1.
  destruct (recorded_step c lo hi op W N1 L H) as [L' H'].
  exact (IH (PID.step c op) lo hi W N2 L' H').
Qed.

(** X14: the history of the PID controller.  With output limits
    [lo <= hi] given to the constructor and not changed since, every output
    in [performance_history] lies within [[lo, hi]], whether or not the
    limits contain 0 (values returned in [ERROR] or while rate limited are
    not recorded), and so does the [mean_output] of the statistics. *)
Theorem recorded_outputs_within_limits :
  forall (kP kI kD lo hi : Q) (integral_limits : Q * Q) (sample_time : Q)
         (name : string) (t_start t_ready : Q) (ops : list PID.Op),
    let c := PID.drive
               (PID.__init__ kP kI kD (lo, hi) integral_limits sample_time
                             name t_start t_ready) ops in
    lo <= hi ->
    forallb (fun op => negb (PID.changes_output_limits op)) ops = true ->
    Forall (fun e => lo <= PID.h_output e <= hi) (PID.performance_history c)
    /\ forall s : PID.Statistics,
         PID.get_performance_statistics c = Some s ->
         lo <= PID.mean_output (PID.recent_performance s) <= hi.
Proof.
  intros kP kI kD lo hi il st name ts tr ops c W N.
  assert (H : forall e, In e (PID.performance_history c) ->
                        lo <= PID.h_output e <= hi).
  { apply recorded_drive; try assumption; try reflexivity. intros e []. }
  split; [apply Forall_forall; exact H|].
  assert (M : PID.performance_history c <> [] ->
              lo <= mean_or_zero
                      (map PID.h_output
                           (py_last 50 (PID.performance_history c))) <= hi).
  { intro Hne. apply mean_or_zero_within.
    - intro M. apply map_eq_nil in M.
      apply (f_equal (@List.length PID.HistoryEntry)) in M.
      rewrite length_py_last in M. cbn [List.length] in M.
      destruct (PID.performance_history c); [contradiction|].
      cbn [List.length] in M. lia.
    - apply Forall_forall. intros x I. apply in_map_iff in I.
      destruct I as (y & <- & I). apply H. apply (In_py_last 50). exact I. }
  intros s E. unfold PID.get_performance_statistics in E.
  destruct (PID.performance_history c) as [|e rest] eqn:Hc; [discriminate E|].
  injection E as <-. cbn [PID.recent_performance PID.mean_output].
  exact (M ltac:(discriminate)).
Qed.

Lemma recorded_outputs_within_limits_witness :
  Forall (fun e => 5 <= PID.h_output e <= 10)
         (PID.performance_history
            (PID.drive (PID.__init__ 1 0 0 (5, 10) (-(50), 50) 0.01 "PID" 0 0)
               [PID.OpUpdate 1 1 1 (Some 200); PID.OpUpdate 2 2 2 None;
                PID.OpUpdate 3 3 3 (Some 1)])).
Proof.
  apply (recorded_outputs_within_limits 1 0 0 5 10 (-(50), 50) 0.01 "PID" 0 0
           [PID.OpUpdate 1 1 1 (Some 200); PID.OpUpdate 2 2 2 None;
            PID.OpUpdate 3 3 3 (Some 1)]).
  - vm_compute. discriminate.
  - reflexivity.
Defined.

(** The running mean of the update durations. *)
Lemma mean_step (a u s : Q) (k : nat) :
  a * inject_Z (Z.of_nat k) == s ->
  let n := inject_Z (Z.of_nat (S k)) in
  (a * (n - 1) + u) / n * n == s + u.
Proof.
  intros H n.
  assert (P : ~ n == 0).
  { pose proof (inject_nat_pos k). unfold n. lra. }
  assert (E : n - 1 == inject_Z (Z.of_nat k)).
  { unfold n. rewrite inject_nat_succ. ring. }
  rewrite E, H. field. exact P.
Qed.

Lemma Qsum_app (l1 l2 : list Q) : Qsum (l1 ++ l2) == Qsum l1 + Qsum l2.
Proof.
  induction l1 as [|x l1 IH].
  - change (Qsum []) with 0. cbn [app]. ring.
  - cbn [app]. change (Qsum (x :: l1 ++ l2)) with (x + Qsum (l1 ++ l2)).
    change (Qsum (x :: l1)) with (x + Qsum l1). rewrite IH. ring.
Qed.

Lemma durations_drive (ops : list PID.Op) :
  forall (c : PID.PIDController) (s : Q),
    PID.average_update_time c * inject_Z (Z.of_nat (PID.total_updates c)) == s ->
    PID.total_updates (PID.drive c ops)
    = (PID.total_updates c + List.length (PID.durations c ops))%nat
    /\ PID.average_update_time (PID.drive c ops)
       * inject_Z (Z.of_nat (PID.total_updates (PID.drive c ops)))
       == s + Qsum (PID.durations c ops).
Proof.
  induction ops as [|op ops IH]; intros c s H.
  - cbn [PID.drive fold_left PID.durations List.length].
    change (Qsum []) with 0. split; [lia|]. rewrite H. ring.
  - assert (G : forall c' : PID.PIDController,
               PID.total_updates c' = PID.total_updates c ->
               PID.average_update_time c' = PID.average_update_time c ->
               PID.total_updates (PID.drive c' ops)
               = (PID.total_updates c + List.length (PID.durations c' ops))%nat
               /\ PID.average_update_time (PID.drive c' ops)
                  * inject_Z (Z.of_nat (PID.total_updates (PID.drive c' ops)))
                  == s + Qsum (PID.durations c' ops)).
    { intros c' T A. rewrite <- T. apply IH. rewrite T, A. exact H. }
    change (PID.drive c (op :: ops)) with (PID.drive (PID.step c op) ops).
    destruct op as [t0 t1 t2 e|now|p i d|a b|a b|];
      cbn [PID.durations PID.step].
    + destruct (update_cases c t0 t1 t2 e)
        as [[S1 U] | [(_ & R & U) | [(R & -> & U) | (R & x & ->)]]].
      * assert (R : PID.recomputes c t1 = false).
        { unfold PID.recomputes. rewrite S1. reflexivity. }
        rewrite R, U. cbn [snd app]. apply G; reflexivity.
      * rewrite R, U. cbn [snd app]. apply G; reflexivity.
      * rewrite R, U. cbn [snd app]. apply G; reflexivity.
      * rewrite R. cbn [app List.length].
        destruct (update_recomputed c t0 t1 t2 x R)
          as (_ & _ & _ & _ & _ & _ & T).
        destruct (update_books c t0 t1 t2 x R) as (_ & _ & A & _).
        cbv zeta in T, A.
        destruct (IH (snd (PID.update c t0 t1 t2 (Some x))) (s + (t2 - t0)))
          as [I1 I2].
        { rewrite T, A. apply mean_step. exact H. }
        split; [rewrite I1, T; lia|].
        rewrite I2.
        change (Qsum ((t2 - t0)
                      :: PID.durations (snd (PID.update c t0 t1 t2 (Some x))) ops))
          with ((t2 - t0)
                + Qsum (PID.durations (snd (PID.update c t0 t1 t2 (Some x))) ops)).
        ring.
    + apply G; unfold PID.reset; cbv zeta; destruct (negb _); reflexivity.
    + apply G; reflexivity.
    + apply G; unfold PID.set_output_limits; destruct (Qleb b a); reflexivity.
    + apply G; unfold PID.set_integral_limits; destruct (Qleb b a); reflexivity.
    + apply G; reflexivity.
Qed.

(** X15: [total_updates] and [average_update_time].  For a controller built
    by the constructor and driven by any sequence of its calls,
    [total_updates] is the number of [update] calls that recomputed from a
    number since the construction, and [average_update_time] is the mean of
    their measured durations (0 when there is none): rate-limited calls,
    calls in [ERROR] and calls that raise are not counted, and [reset] and
    [cleanup] restart neither. *)
Theorem average_update_time_is_the_mean :
  forall (kP kI kD : Q) (output_limits integral_limits : Q * Q)
         (sample_time : Q) (name : string) (t_start t_ready : Q)
         (ops : list PID.Op),
    let c0 := PID.__init__ kP kI kD output_limits integral_limits
                           sample_time name t_start t_ready in
    PID.total_updates (PID.drive c0 ops) = List.length (PID.durations c0 ops)
    /\ PID.average_update_time (PID.drive c0 ops)
       == mean_or_zero (PID.durations c0 ops).
Proof.
  intros kP kI kD ol il st name ts tr ops c0.
  destruct (durations_drive ops c0 0) as [T A].
  { unfold c0. cbn [PID.__init__ PID.average_update_time PID.total_updates].
    ring. }
  change (PID.total_updates c0) with 0%nat in T. cbn [Nat.add] in T.
  split; [exact T|].
  rewrite T in A. unfold mean_or_zero, np_mean.
  destruct (PID.durations c0 ops) as [|u rest] eqn:D.
  - destruct ops as [|op ops]; [reflexivity|].
    cbn [List.length] in T.
    (* nothing was counted: the average is the constructor's 0 *)
    clear A D. revert T. generalize (op :: ops). intros l T.
    assert (K : forall (l : list PID.Op) (c : PID.PIDController),
               PID.total_updates (PID.drive c l) = PID.total_updates c ->
               PID.average_update_time (PID.drive c l)
               = PID.average_update_time c).
    { clear. induction l as [|op l IH]; intros c T; [reflexivity|].
      change (PID.drive c (op :: l)) with (PID.drive (PID.step c op) l) in *.
      destruct (durations_drive l (PID.step c op)
                  (PID.average_update_time (PID.step c op)
                   * inject_Z (Z.of_nat (PID.total_updates (PID.step c op)))))
        as [T' _]; [reflexivity|].
      assert (M : (PID.total_updates c <= PID.total_updates (PID.step c op))%nat
                  /\ (PID.total_updates (PID.step c op) = PID.total_updates c ->
                      PID.average_update_time (PID.step c op)
                      = PID.average_update_time c)).
      { destruct op as [t0 t1 t2 e|now|p i d|a b|a b|]; cbn [PID.step].
        - destruct (update_cases c t0 t1 t2 e)
            as [[_ U] | [(_ & _ & U) | [(_ & _ & U) | (R & x & ->)]]];
            try (rewrite U; cbn [snd]; pid_fields; split; [lia|reflexivity]).
          destruct (update_recomputed c t0 t1 t2 x R)
            as (_ & _ & _ & _ & _ & _ & T2).
          cbv zeta in T2. rewrite T2. split; [lia|]. intro. lia.
        - unfold PID.reset; cbv zeta; destruct (negb _);
            (split; [apply Nat.le_refl|reflexivity]).
        - split; [apply Nat.le_refl|reflexivity].
        - unfold PID.set_output_limits; destruct (Qleb b a);
            split; try apply Nat.le_refl; reflexivity.
        - unfold PID.set_integral_limits; destruct (Qleb b a);
            split; try apply Nat.le_refl; reflexivity.
        - split; [apply Nat.le_refl|reflexivity]. }
      destruct M as [M1 M2].
      rewrite IH by lia. apply M2. lia. }
    rewrite (K l c0) by (rewrite T; reflexivity). reflexivity.
  - pose proof (inject_nat_pos (List.length rest)) as P.
    change (S (List.length rest)) with (List.length (u :: rest)) in P.
    apply Qmult_inj_r with (z := inject_Z (Z.of_nat (List.length (u :: rest)))).
    + lra.
    + rewrite A. field. lra.
Qed.

(** ** [reset] and the rate limit; [is_stable] *)

(** X16: [reset] followed by [update].  [reset] restarts the clock of the
    rate limit but not [total_updates].  So on a controller that is not in
    [ERROR] and has been updated before, an [update] that comes within
    [sample_time] of the [reset] is skipped: it returns the 0 that [reset]
    stored, whatever the error (even one that is not a number), records
    nothing and leaves the integral at 0; only the status moves, to
    [RUNNING].  On a new controller the first [update] is never skipped. *)
Theorem update_right_after_reset_is_skipped :
  forall (c : PID.PIDController) (now t0 t1 t2 : Q) (e : option Q),
    PID.status c <> PID.ERROR ->
    (0 < PID.total_updates c)%nat ->
    t1 - now < PID.sample_time c ->
    PID.update (PID.reset c now) t0 t1 t2 e
    = (0, PID.set_status (PID.reset c now) PID.RUNNING)
    /\ PID.performance_history (snd (PID.update (PID.reset c now) t0 t1 t2 e))
       = []
    /\ PID.integral (PID.state (snd (PID.update (PID.reset c now) t0 t1 t2 e)))
       = 0
    /\ forall (kP kI kD : Q) (output_limits integral_limits : Q * Q)
              (sample_time : Q) (name : string) (t_start t_ready : Q),
         PID.recomputes
           (PID.__init__ kP kI kD output_limits integral_limits sample_time
                         name t_start t_ready) t1 = true.
Proof.
  intros c now t0 t1 t2 e S T D.
  assert (R : PID.status (PID.reset c now) <> PID.ERROR
              /\ PID.recomputes (PID.reset c now) t1 = false
              /\ PID.output (PID.state (PID.reset c now)) = 0
              /\ PID.performance_history (PID.reset c now) = []
              /\ PID.integral (PID.state (PID.reset c now)) = 0).
  { apply PIDStatus_eqb_false in S. unfold PID.reset, PID.recomputes.
    cbv zeta. pid_fields. rewrite S. cbn [negb]. pid_fields.
    cbn [PID.PIDStatus_eqb negb andb].
    apply Qltb_spec in D. rewrite D.
    apply Nat.ltb_lt in T. rewrite T.
    repeat split; try reflexivity. discriminate. }
  destruct R as (R1 & R2 & R3 & R4 & R5).
  rewrite (update_rate_limited _ t0 t1 t2 e R1 R2), R3. cbn [snd]. pid_fields.
  repeat split; try assumption.
  intros. unfold PID.recomputes, PID.__init__. pid_fields.
  cbn [PID.PIDStatus_eqb negb Nat.ltb Nat.leb].
  rewrite andb_false_r. reflexivity.
Qed.

Lemma update_right_after_reset_is_skipped_witness :
  PID.update
    (PID.reset (snd (PID.update (PID.default 1 0 0 0 0) 1 1 1 (Some 30))) 2)
    2 2.005 2 (Some 30)
  = (0, PID.set_status
          (PID.reset (snd (PID.update (PID.default 1 0 0 0 0) 1 1 1 (Some 30))) 2)
          PID.RUNNING).
Proof.
  apply (update_right_after_reset_is_skipped
           (snd (PID.update (PID.default 1 0 0 0 0) 1 1 1 (Some 30)))
           2 2 2.005 2 (Some 30)).
  - vm_compute. discriminate.
  - vm_compute. lia.
  - vm_compute. reflexivity.
Defined.

(** The variance of a list of equal numbers is 0. *)
Lemma var_or_zero_constant (l : list Q) (x : Q) :
  l <> [] ->
  Forall (fun y => y == x) l ->
  exists v, np_var l = Some v /\ v == 0.
Proof.
  intros N F.
  assert (M : mean_or_zero l == x).
  { assert (B : x <= mean_or_zero l <= x).
    { apply mean_or_zero_within; [exact N|].
      eapply Forall_impl; [|exact F]. cbv beta. intros a Ha. lra. }
    lra. }
  destruct l as [|a rest]; [contradiction|].
  unfold np_var. unfold mean_or_zero in M.
  destruct (np_mean (a :: rest)) as [m|] eqn:E; [|discriminate E].
  set (sq := map (fun y => (y - m) * (y - m)) (a :: rest)).
  assert (B : 0 <= mean_or_zero sq <= 0).
  { apply mean_or_zero_within; [discriminate|].
    apply Forall_forall. intros z I. apply in_map_iff in I.
    destruct I as (y & <- & I).
    rewrite Forall_forall in F. specialize (F y I). cbv beta in F.
    assert (Z : y - m == 0) by lra.
    rewrite Z. lra. }
  unfold mean_or_zero in B.
  destruct (np_mean sq) as [v|] eqn:V; [|discriminate V].
  exists v. split; [reflexivity|lra].
Qed.

(** X17: [is_stable].  It answers [True] only when the history holds at
    least [window_size] entries, is not empty and the tolerance is
    positive; so never right after [reset] or [cleanup], and never with a
    tolerance of 0.  When these three hold and the outputs of the last
    [window_size] entries are all equal, it answers [True]. *)
Theorem is_stable_needs_a_full_window :
  forall (c : PID.PIDController) (tolerance : Q) (window_size : nat),
    (PID.is_stable c tolerance window_size = true ->
     (window_size <= List.length (PID.performance_history c))%nat
     /\ PID.performance_history c <> []
     /\ 0 < tolerance)
    /\ (forall now, PID.is_stable (PID.reset c now) tolerance window_size = false)
    /\ PID.is_stable (PID.cleanup c) tolerance window_size = false
    /\ forall x : Q,
         (window_size <= List.length (PID.performance_history c))%nat ->
         PID.performance_history c <> [] ->
         0 < tolerance ->
         Forall (fun e => PID.h_output e == x)
                (py_last window_size (PID.performance_history c)) ->
         PID.is_stable c tolerance window_size = true.
Proof.
  intros c tol w.
  assert (E0 : forall c', PID.performance_history c' = [] ->
                          PID.is_stable c' tol w = false).
  { intros c' H. unfold PID.is_stable. rewrite H.
    destruct (Nat.ltb _ _); [reflexivity|].
    destruct w; reflexivity. }
  split; [|split; [|split]].
  - intro S.
    assert (N : PID.performance_history c <> []).
    { intro H. rewrite (E0 c H) in S. discriminate S. }
    unfold PID.is_stable in S.
    destruct (Nat.ltb _ _) eqn:L; [discriminate S|].
    apply Nat.ltb_ge in L. split; [exact L|]. split; [exact N|].
    pose proof (var_or_zero_nonneg
                  (map PID.h_output (py_last w (PID.performance_history c))))
      as V.
    unfold var_or_zero in V.
    destruct (np_var _) as [v|]; [|discriminate S].
    apply Qltb_spec in S. lra.
  - intro now. apply E0. unfold PID.reset. cbv zeta.
    destruct (negb _); reflexivity.
  - apply E0. reflexivity.
  - intros x L N T F. unfold PID.is_stable.
    apply Nat.ltb_ge in L. rewrite L.
    destruct (var_or_zero_constant
                (map PID.h_output (py_last w (PID.performance_history c))) x)
      as (v & V & Z).
    + intro M. apply map_eq_nil in M.
      apply Nat.ltb_ge in L.
      destruct (py_last_nonempty w (PID.performance_history c) N L)
        as [-> | P]; [|contradiction].
      cbn [py_last] in M. contradiction.
    + apply Forall_forall. intros y I. apply in_map_iff in I.
      destruct I as (e & <- & I). rewrite Forall_forall in F. apply F. exact I.
    + rewrite V. apply Qltb_spec. lra.
Qed.

Lemma is_stable_needs_a_full_window_witness :
  PID.is_stable
    (PID.drive (PID.default 1 0 0 0 0)
       [PID.OpUpdate 1 1 1 (Some 200); PID.OpUpdate 2 2 2 (Some 300)])
    0.5 2 = true.
Proof.
  apply (proj2 (proj2 (proj2
           (is_stable_needs_a_full_window
              (PID.drive (PID.default 1 0 0 0 0)
                 [PID.OpUpdate 1 1 1 (Some 200); PID.OpUpdate 2 2 2 (Some 300)])
              0.5 2))) 90).
  - vm_compute. lia.
  - vm_compute. discriminate.
  - vm_compute. reflexivity.
  - vm_compute. repeat constructor.
Defined.

(** ** The detector *)

Lemma DetectorStatus_eqb_spec (a b : Yolo.DetectorStatus) :
  Yolo.DetectorStatus_eqb a b = true <-> a = b.
Proof. destruct a, b; simpl; split; congruence. Qed.

(** The head of the stable descending sort is the first element of
    greatest confidence. *)
Lemma sorted_by_confidence_head (l : list Yolo.Detection) :
  match hd_error (Yolo.sorted_by_confidence l) with
  | None => l = []
  | Some b =>
      exists before after,
        l = before ++ b :: after
        /\ (forall d, In d before -> Yolo.confidence d < Yolo.confidence b)
        /\ (forall d, In d after -> Yolo.confidence d <= Yolo.confidence b)
  end.
Proof.
  induction l as [|x l IH]; [reflexivity|].
  change (Yolo.sorted_by_confidence (x :: l))
    with (Yolo.insert_by_confidence x (Yolo.sorted_by_confidence l)).
  destruct (Yolo.sorted_by_confidence l) as [|y s].
  - cbn in IH. subst l. cbn. exists [], []. repeat split; intros d [].
  - cbn [hd_error] in IH. destruct IH as (l1 & l2 & E & B & A).
    cbn [Yolo.insert_by_confidence].
    destruct (Qltb (Yolo.confidence x) (Yolo.confidence y)) eqn:C.
    + apply Qltb_spec in C. cbn [hd_error].
      exists (x :: l1), l2. rewrite E. split; [reflexivity|]. split.
      * intros d [<-|I]; [exact C | apply B; exact I].
      * exact A.
    + apply Qltb_false in C. cbn [hd_error].
      exists [], l. split; [reflexivity|]. split; [intros d []|].
      intros d I. rewrite E in I. apply in_app_or in I.
      destruct I as [I|[<-|I]].
      * specialize (B d I). lra.
      * exact C.
      * specialize (A d I). lra.
Qed.

Lemma get_best_detection_none (l : list Yolo.Detection) :
  Yolo.get_best_detection l = None -> l = [].
Proof.
  intro E. pose proof (sorted_by_confidence_head l) as H.
  unfold Yolo.get_best_detection in E. destruct l as [|x l]; [reflexivity|].
  rewrite E in H. exact H.
Qed.

(** X18: [get_best_detection].  It returns [None] exactly for the empty
    list.  Otherwise it returns an element of the list whose confidence no
    other element exceeds, and among several of that confidence the one that
    comes first: every element before it has a strictly smaller
    confidence. *)
Theorem get_best_detection_first_maximum :
  forall detections : list Yolo.Detection,
    (Yolo.get_best_detection detections = None <-> detections = [])
    /\ forall best : Yolo.Detection,
         Yolo.get_best_detection detections = Some best ->
         exists before after,
           detections = before ++ best :: after
           /\ (forall d, In d before ->
                         Yolo.confidence d < Yolo.confidence best)
           /\ (forall d, In d after ->
                         Yolo.confidence d <= Yolo.confidence best).
Proof.
  intro l. pose proof (sorted_by_confidence_head l) as H.
  unfold Yolo.get_best_detection. destruct l as [|x l].
  - split; [tauto|]. intros b E. discriminate E.
  - destruct (hd_error (Yolo.sorted_by_confidence (x :: l))) as [b|].
    + split; [split; discriminate|].
      intros best E. injection E as <-. exact H.
    + discriminate H.
Qed.

Lemma get_best_detection_first_maximum_witness :
  exists before after,
    [Yolo.Detection__init__ 15 "Cat" 0.6 (0, 0, 10, 10)%Z;
     Yolo.Detection__init__ 16 "Dog" 0.9 (20, 20, 40, 40)%Z;
     Yolo.Detection__init__ 15 "Cat" 0.9 (50, 50, 60, 60)%Z]
    = before ++ Yolo.Detection__init__ 16 "Dog" 0.9 (20, 20, 40, 40)%Z :: after
    /\ (forall d, In d before -> Yolo.confidence d < 0.9)
    /\ (forall d, In d after -> Yolo.confidence d <= 0.9).
Proof.
  apply (proj2 (get_best_detection_first_maximum
                  [Yolo.Detection__init__ 15 "Cat" 0.6 (0, 0, 10, 10)%Z;
                   Yolo.Detection__init__ 16 "Dog" 0.9 (20, 20, 40, 40)%Z;
                   Yolo.Detection__init__ 15 "Cat" 0.9 (50, 50, 60, 60)%Z])).
  vm_compute. reflexivity.
Defined.

Ltac yolo_fields :=
  cbn [Yolo.model_path Yolo.confidence_threshold Yolo.image_size
       Yolo.target_classes Yolo.model Yolo.status Yolo.total_detections
       Yolo.detection_history Yolo.processing_times Yolo.fps_counter
       Yolo.fps_start_time Yolo.current_fps
       Yolo.set_status Yolo.set_model Yolo.set_confidence Yolo.set_records
       fst snd] in *.

Lemma scan_boxes_spec (d : Yolo.YOLODetector) (boxes : list Yolo.Box) :
  forall acc : list Yolo.Detection,
    fold_left (Yolo.scan_box d) boxes acc
    = acc ++ map Yolo.detection_of_box
               (filter (fun b => Yolo.is_target d (Yolo.py_int (Yolo.cls b)))
                       boxes).
Proof.
  induction boxes as [|b boxes IH]; intro acc.
  - cbn. rewrite app_nil_r. reflexivity.
  - cbn [fold_left]. rewrite IH. cbn [filter].
    assert (E : Yolo.scan_box d acc b
                = if Yolo.is_target d (Yolo.py_int (Yolo.cls b))
                  then acc ++ [Yolo.detection_of_box b] else acc).
    { unfold Yolo.scan_box, Yolo.detection_of_box.
      destruct (Yolo.xyxy b) as [[[x1 y1] x2] y2]. reflexivity. }
    rewrite E.
    destruct (Yolo.is_target d (Yolo.py_int (Yolo.cls b))); [|reflexivity].
    cbn [map]. rewrite <- app_assoc. reflexivity.
Qed.

Lemma scan_results_spec (d : Yolo.YOLODetector) (results : list Yolo.Result) :
  Yolo.scan_results d results
  = map Yolo.detection_of_box
        (filter (fun b => Yolo.is_target d (Yolo.py_int (Yolo.cls b)))
                (Yolo.all_boxes results)).
Proof.
  unfold Yolo.scan_results.
  assert (G : forall acc,
             fold_left
               (fun detections result =>
                  match result with
                  | None => detections
                  | Some boxes => fold_left (Yolo.scan_box d) boxes detections
                  end) results acc
             = acc ++ map Yolo.detection_of_box
                        (filter (fun b => Yolo.is_target d
                                            (Yolo.py_int (Yolo.cls b)))
                                (Yolo.all_boxes results))).
  { induction results as [|r results IH]; intro acc.
    - cbn. rewrite app_nil_r. reflexivity.
    - cbn [fold_left Yolo.all_boxes flat_map]. rewrite IH.
      fold (Yolo.all_boxes results).
      destruct r as [boxes|].
      + rewrite scan_boxes_spec, filter_app, map_app, app_assoc. reflexivity.
      + reflexivity. }
  apply (G []).
Qed.

Lemma detect_pets_on_results (d : Yolo.YOLODetector)
    (results : list Yolo.Result) (t0 t1 t2 : Q) :
  Yolo.status d = Yolo.READY -> Yolo.model d <> None ->
  fst (Yolo.detect_pets d (Yolo.ModelReturns results) t0 t1 t2)
  = map Yolo.detection_of_box
        (filter (fun b => Yolo.is_target d (Yolo.py_int (Yolo.cls b)))
                (Yolo.all_boxes results))
  /\ snd (Yolo.detect_pets d (Yolo.ModelReturns results) t0 t1 t2)
     = Yolo.set_status
         (Yolo.set_records (Yolo.set_status d Yolo.DETECTING)
            (Yolo.total_detections d
             + List.length
                 (Yolo.scan_results (Yolo.set_status d Yolo.DETECTING) results))
            (Yolo.evict 1000
               (Yolo.detection_history d
                ++ [{| Yolo.h_timestamp := t2;
                       Yolo.h_count :=
                         List.length
                           (Yolo.scan_results
                              (Yolo.set_status d Yolo.DETECTING) results);
                       Yolo.h_processing_time := t1 - t0 |}]))
            (Yolo.evict 100 (Yolo.processing_times d ++ [t1 - t0])))
         Yolo.READY.
Proof.
  intros S M. unfold Yolo.detect_pets. rewrite S.
  cbn [Yolo.DetectorStatus_eqb negb]. yolo_fields.
  destruct (Yolo.model d) as [m|]; [|contradiction].
  cbn [fst snd]. split; [|reflexivity].
  rewrite scan_results_spec. reflexivity.
Qed.

(** X19: [detect_pets].  A detector that is not [READY] returns the empty
    list and is left as it is.  A [READY] detector with its model, on a
    network that answers, returns one detection per box whose truncated
    class is a target class, in the order of the boxes, and nothing else:
    each has a target class, the midpoint of its truncated box as centre,
    and the count added to [total_detections]; the detector is [READY]
    again.  The confidence is not compared with the threshold here. *)
Theorem detect_pets_keeps_target_classes :
  forall (d : Yolo.YOLODetector) (outcome : Yolo.ModelOutcome)
         (results : list Yolo.Result) (t0 t1 t2 : Q),
    (Yolo.status d <> Yolo.READY ->
     Yolo.detect_pets d outcome t0 t1 t2 = ([], d))
    /\ (Yolo.status d = Yolo.READY -> Yolo.model d <> None ->
        let r := Yolo.detect_pets d (Yolo.ModelReturns results) t0 t1 t2 in
        fst r
        = map Yolo.detection_of_box
              (filter (fun b => Yolo.is_target d (Yolo.py_int (Yolo.cls b)))
                      (Yolo.all_boxes results))
        /\ (forall x, In x (fst r) ->
              In (Yolo.class_id x) (Yolo.target_classes d)
              /\ Yolo.center x = Yolo.calculate_center (Yolo.bbox x))
        /\ (List.length (fst r) <= List.length (Yolo.all_boxes results))%nat
        /\ Yolo.total_detections (snd r)
           = (Yolo.total_detections d + List.length (fst r))%nat
        /\ Yolo.status (snd r) = Yolo.READY
        /\ Yolo.confidence_threshold (snd r) = Yolo.confidence_threshold d).
Proof.
  intros d outcome results t0 t1 t2. split.
  - intro N. unfold Yolo.detect_pets.
    destruct (Yolo.DetectorStatus_eqb (Yolo.status d) Yolo.READY) eqn:E;
      [|reflexivity].
    apply DetectorStatus_eqb_spec in E. contradiction.
  - intros S M. cbv zeta. unfold Yolo.detect_pets. rewrite S.
    cbn [Yolo.DetectorStatus_eqb negb]. yolo_fields.
    destruct (Yolo.model d) as [m|]; [|contradiction].
    yolo_fields.
    assert (T : Yolo.scan_results (Yolo.set_status d Yolo.DETECTING) results
                = map Yolo.detection_of_box
                    (filter (fun b => Yolo.is_target d
                                        (Yolo.py_int (Yolo.cls b)))
                            (Yolo.all_boxes results))).
    { rewrite scan_results_spec. reflexivity. }
    rewrite T. split; [reflexivity|]. split; [|split; [|repeat split]].
    + intros x I. apply in_map_iff in I. destruct I as (b & <- & I).
      apply filter_In in I. destruct I as [_ I].
      unfold Yolo.is_target in I. apply existsb_exists in I.
      destruct I as (k & K1 & K2). apply Z.eqb_eq in K2. subst k.
      unfold Yolo.detection_of_box.
      destruct (Yolo.xyxy b) as [[[x1 y1] x2] y2].
      cbn. split; [exact K1 | reflexivity].
    + rewrite length_map. apply filter_length_le.
Qed.

Lemma detect_pets_keeps_target_classes_witness :
  fst (Yolo.detect_pets
         (snd (Yolo.load_model (Yolo.create_yolo_detector "yolov8n.pt" 0) true))
         (Yolo.ModelReturns
            [Some [{| Yolo.cls := 16; Yolo.conf := 0.8;
                      Yolo.xyxy := (10.7, 20.2, 110.9, 220.5) |};
                   {| Yolo.cls := 0; Yolo.conf := 0.99;
                      Yolo.xyxy := (0, 0, 50, 50) |}];
             None]) 1 2 3)
  = map Yolo.detection_of_box
        (filter (fun b =>
                   Yolo.is_target
                     (snd (Yolo.load_model
                             (Yolo.create_yolo_detector "yolov8n.pt" 0) true))
                     (Yolo.py_int (Yolo.cls b)))
                (Yolo.all_boxes
                   [Some [{| Yolo.cls := 16; Yolo.conf := 0.8;
                             Yolo.xyxy := (10.7, 20.2, 110.9, 220.5) |};
                          {| Yolo.cls := 0; Yolo.conf := 0.99;
                             Yolo.xyxy := (0, 0, 50, 50) |}];
                    None])).
Proof.
  apply (proj2 (detect_pets_keeps_target_classes
                  (snd (Yolo.load_model
                          (Yolo.create_yolo_detector "yolov8n.pt" 0) true))
                  Yolo.ModelRaises _ 1 2 3)).
  - reflexivity.
  - discriminate.
Defined.

Lemma yolo_evict_length {A : Type} (n : nat) (h : list A) (e : A) :
  (List.length h <= S n)%nat ->
  (List.length (Yolo.evict (S n) (h ++ [e])) <= S n)%nat.
Proof.
  intro L. unfold Yolo.evict. rewrite length_app. cbn [List.length].
  destruct (Nat.ltb (S n) (List.length h + 1)) eqn:E.
  - destruct h; cbn in *; [lia|]. rewrite length_app. cbn. lia.
  - apply Nat.ltb_ge in E. rewrite length_app. cbn. lia.
Qed.

Lemma at_rest_step (d : Yolo.YOLODetector) (op : Yolo.Op) :
  Yolo.at_rest d -> Yolo.at_rest (Yolo.step d op).
Proof.
  intros (A & B & C & P & H).
  destruct op as [loads|o t0 t1 t2|t|]; cbn [Yolo.step].
  - unfold Yolo.load_model. destruct loads; cbn [snd]; unfold Yolo.at_rest;
      yolo_fields; repeat split; try assumption; discriminate.
  - unfold Yolo.detect_pets.
    destruct (Yolo.DetectorStatus_eqb (Yolo.status d) Yolo.READY) eqn:E;
      cbn [negb snd].
    + apply DetectorStatus_eqb_spec in E. specialize (A E). yolo_fields.
      destruct (Yolo.model d) as [m|] eqn:M; [|contradiction].
      destruct o as [|results]; cbn [snd]; unfold Yolo.at_rest; yolo_fields.
      * split; [intro X; discriminate X|].
        repeat split; try assumption; discriminate.
      * split; [intros _; rewrite M; discriminate|].
        split; [discriminate|]. split; [discriminate|].
        split; apply yolo_evict_length; assumption.
    + unfold Yolo.at_rest. repeat split; assumption.
  - unfold Yolo.set_confidence_threshold.
    destruct (Qleb 0 t && Qleb t 1); unfold Yolo.at_rest; yolo_fields;
      repeat split; assumption.
  - unfold Yolo.cleanup, Yolo.at_rest. yolo_fields.
    repeat split; try assumption; discriminate.
Qed.

Lemma threshold_step (d : Yolo.YOLODetector) (op : Yolo.Op) :
  0 <= Yolo.confidence_threshold d <= 1 ->
  0 <= Yolo.confidence_threshold (Yolo.step d op) <= 1
  /\ Yolo.target_classes (Yolo.step d op) = Yolo.target_classes d.
Proof.
  intro T. destruct op as [loads|o t0 t1 t2|t|]; cbn [Yolo.step].
  - unfold Yolo.load_model. destruct loads; cbn [snd]; yolo_fields;
      split; [exact T|reflexivity|exact T|reflexivity].
  - unfold Yolo.detect_pets.
    destruct (negb _); [split; [exact T|reflexivity]|].
    yolo_fields. destruct (Yolo.model d); [destruct o|]; cbn [snd];
      yolo_fields; split; try exact T; reflexivity.
  - unfold Yolo.set_confidence_threshold.
    destruct (Qleb 0 t && Qleb t 1) eqn:E; [|split; [exact T|reflexivity]].
    apply andb_true_iff in E. destruct E as [E1 E2].
    apply Qleb_spec in E1. apply Qleb_spec in E2.
    yolo_fields. split; [split; assumption|reflexivity].
  - unfold Yolo.cleanup. yolo_fields. split; [exact T|reflexivity].
Qed.

(** X20: the detector over whole runs.  A detector built by the
    constructor and driven by any sequence of [load_model], [detect_pets],
    [set_confidence_threshold] and [cleanup] calls is, between calls, never
    [LOADING] or [DETECTING]; when it is [READY] its model is loaded, so
    [detect_pets] never calls a missing model; it holds at most 100
    processing times and 1000 history entries; its target classes are the
    constructor's; and its recent detection rate lies in [[0, 1]].  If the
    constructor's threshold lies in [[0, 1]], so does the threshold ever
    after. *)
Theorem detector_invariants :
  forall (model_path : string) (confidence_threshold : Q)
         (target_classes : option (list Z)) (image_size : Z * Z) (fps_now : Q)
         (ops : list Yolo.Op),
    let d0 := Yolo.__init__ model_path confidence_threshold target_classes
                            image_size fps_now in
    let d := Yolo.run d0 ops in
    Yolo.at_rest d
    /\ 0 <= Yolo.recent_detection_rate d <= 1
    /\ (0 <= confidence_threshold <= 1 ->
        0 <= Yolo.confidence_threshold d <= 1
        /\ Yolo.target_classes d = Yolo.target_classes d0).
Proof.
  intros mp ct tc sz t ops d0 d.
  split; [|split].
  - assert (G : forall (l : list Yolo.Op) (x : Yolo.YOLODetector),
               Yolo.at_rest x -> Yolo.at_rest (fold_left Yolo.step l x)).
    { clear. induction l as [|op l IH]; intros x R; [exact R|].
      cbn [fold_left]. apply IH. apply at_rest_step. exact R. }
    apply G. unfold d0, Yolo.at_rest. cbn.
    repeat split; try discriminate; lia.
  - unfold Yolo.recent_detection_rate. cbv zeta. apply unit_ratio.
    + etransitivity; [apply filter_length_le|]. lia.
    + lia.
  - intro T. unfold d, Yolo.run.
    assert (G : forall (l : list Yolo.Op) (x : Yolo.YOLODetector),
               0 <= Yolo.confidence_threshold x <= 1 ->
               0 <= Yolo.confidence_threshold (fold_left Yolo.step l x) <= 1
               /\ Yolo.target_classes (fold_left Yolo.step l x)
                  = Yolo.target_classes x).
    { clear. induction l as [|op l IH]; intros x T; [split; [exact T|reflexivity]|].
      cbn [fold_left]. destruct (threshold_step x op T) as [T' E].
      destruct (IH _ T') as [T'' E']. split; [exact T''|].
      rewrite E', E. reflexivity. }
    apply G. exact T.
Qed.

Lemma detector_invariants_witness :
  0 <= Yolo.confidence_threshold
         (Yolo.run (Yolo.create_yolo_detector "yolov8n.pt" 0)
            [Yolo.OpLoadModel true;
             Yolo.OpSetConfidenceThreshold 1.5;
             Yolo.OpDetectPets (Yolo.ModelReturns []) 1 2 3;
             Yolo.OpSetConfidenceThreshold 0.25;
             Yolo.OpDetectPets Yolo.ModelRaises 4 5 6]) <= 1.
Proof.
  apply (proj2 (proj2 (detector_invariants "yolov8n.pt" 0.5 None (640, 480)%Z 0
                         [Yolo.OpLoadModel true;
                          Yolo.OpSetConfidenceThreshold 1.5;
                          Yolo.OpDetectPets (Yolo.ModelReturns []) 1 2 3;
                          Yolo.OpSetConfidenceThreshold 0.25;
                          Yolo.OpDetectPets Yolo.ModelRaises 4 5 6]))).
  split; vm_compute; discriminate.
Defined.

(** ** The main loop of the coordinator *)

Ltac coord_fields :=
  cbn [Coordinator.camera_id Coordinator.image_width Coordinator.image_height
       Coordinator.detection_interval Coordinator.lost_target_timeout
       Coordinator.show_display Coordinator.status Coordinator.is_running
       Coordinator.system_start_time Coordinator.camera
       Coordinator.servo_controller Coordinator.yolo_detector
       Coordinator.simple_p_controller
       Coordinator.mode Coordinator.target_detected Coordinator.target_class
       Coordinator.target_confidence Coordinator.pan_angle
       Coordinator.tilt_angle Coordinator.correction_applied
       Coordinator.last_detection_time Coordinator.total_detections
       Coordinator.tracking_duration
       Coordinator.set_sys Coordinator.set_system_start_time
       Coordinator.set_camera Coordinator.set_servo_controller
       Coordinator.set_yolo_detector Coordinator.set_simple_p_controller
       Coordinator.set_mode Coordinator.set_target_detected
       Coordinator.set_cached_angles Coordinator.set_correction_applied
       Coordinator.set_detection_info Coordinator.set_counters
       Coordinator.set_is_running fst snd] in *.

(** What [_process_detection] hands over is empty or one [Detection]
    object. *)
Lemma _process_detection_objects (y : option Yolo.YOLODetector)
    (o : Yolo.ModelOutcome) (t0 t1 t2 : Q) :
  fst (Coordinator._process_detection y o t0 t1 t2) = []
  \/ exists d, fst (Coordinator._process_detection y o t0 t1 t2)
               = [Coordinator.DetObject d].
Proof.
  unfold Coordinator._process_detection. destruct y as [d|]; [|left; reflexivity].
  destruct (Yolo.detect_pets d o t0 t1 t2) as [l d'].
  destruct l as [|x l]; [left; reflexivity|].
  destruct (Yolo.get_best_detection (x :: l)) as [b|]; [|left; reflexivity].
  right. unfold Coordinator.of_detector.
  destruct (Yolo.bbox b) as [[[x1 y1] x2] y2]. eexists. reflexivity.
Qed.

(** The actuator side and the detection record are those of [c]; the mode
    is the one of [c] or [TRACKING]. *)
Lemma quiet_refl (c : Coordinator.TrackingCoordinator) :
  Coordinator.last_detection_time (Coordinator.status c) = None ->
  Coordinator.actuator_untouched c c
  /\ (Coordinator.mode (Coordinator.status c)
      = Coordinator.mode (Coordinator.status c)
      \/ Coordinator.mode (Coordinator.status c) = Coordinator.TRACKING).
Proof.
  intro H. unfold Coordinator.actuator_untouched.
  repeat split; try reflexivity; try assumption. left. reflexivity.
Qed.

Lemma quiet_pass (np_sin : Q -> Q) (c : Coordinator.TrackingCoordinator)
    (y : option Yolo.YOLODetector) (env : Coordinator.LoopEnv) :
  Coordinator.last_detection_time (Coordinator.status c) = None ->
  let c' := fst (snd (Coordinator._main_loop_body np_sin c y env)) in
  Coordinator.actuator_untouched c c'
  /\ (Coordinator.mode (Coordinator.status c')
      = Coordinator.mode (Coordinator.status c)
      \/ Coordinator.mode (Coordinator.status c') = Coordinator.TRACKING)
  /\ Coordinator.is_running c' = Coordinator.is_running c.
Proof.
  intros H. cbv zeta. unfold Coordinator._main_loop_body.
  destruct (Coordinator.frame_read env); cbn [negb].
  2:{ cbn [fst snd]. unfold Coordinator.actuator_untouched.
      repeat split; try reflexivity; try assumption. left. reflexivity. }
  destruct (Coordinator.detect_clock env) as [[t0 t1] t2].
  pose proof (_process_detection_objects y (Coordinator.model_outcome env)
                t0 t1 t2) as O.
  destruct (Coordinator._process_detection y (Coordinator.model_outcome env)
              t0 t1 t2) as [dets y'].
  cbn [fst] in O.
  assert (U : let c1 := Coordinator._update_tracking_control np_sin c
                          (Coordinator.control env) dets in
              Coordinator.actuator_untouched c c1
              /\ (Coordinator.mode (Coordinator.status c1)
                  = Coordinator.mode (Coordinator.status c)
                  \/ Coordinator.mode (Coordinator.status c1)
                     = Coordinator.TRACKING)
              /\ Coordinator.is_running c1 = Coordinator.is_running c).
  { cbv zeta. destruct O as [-> | [d ->]].
    - rewrite (no_sweep_without_detection_time np_sin c _ H).
      unfold Coordinator.actuator_untouched. coord_fields.
      repeat split; try reflexivity; try assumption. left. reflexivity.
    - unfold Coordinator._update_tracking_control.
      destruct (negb _); unfold Coordinator.actuator_untouched; coord_fields;
        repeat split; try reflexivity; try assumption;
        [right|left]; reflexivity. }
  cbv zeta in U.
  set (c1 := Coordinator._update_tracking_control np_sin c
               (Coordinator.control env) dets) in *.
  clearbody c1. destruct U as (A & M & R).
  destruct (Coordinator.show_display c1 && Coordinator.quit_key env);
    cbn [fst snd].
  - split; [exact A | split; assumption].
  - unfold Coordinator._update_system_status, Coordinator.actuator_untouched
      in *. coord_fields. tauto.
Qed.

Lemma quiet_loop (np_sin : Q -> Q) (envs : list Coordinator.LoopEnv) :
  forall (c : Coordinator.TrackingCoordinator) (y : option Yolo.YOLODetector),
    Coordinator.last_detection_time (Coordinator.status c) = None ->
    let c' := fst (Coordinator._main_loop np_sin c y envs) in
    Coordinator.actuator_untouched c c'
    /\ (Coordinator.mode (Coordinator.status c')
        = Coordinator.mode (Coordinator.status c)
        \/ Coordinator.mode (Coordinator.status c') = Coordinator.TRACKING).
Proof.
  induction envs as [|env envs IH]; intros c y H; cbv zeta.
  - cbn [Coordinator._main_loop fst]. apply quiet_refl. exact H.
  - cbn [Coordinator._main_loop].
    destruct (negb (Coordinator.is_running c));
      [cbn [fst]; apply quiet_refl; exact H|].
    pose proof (quiet_pass np_sin c y env H) as P. cbv zeta in P.
    destruct (Coordinator._main_loop_body np_sin c y env) as [ctl [c1 y1]].
    cbn [fst snd] in P. destruct P as (A & M & _).
    destruct ctl; [|cbn [fst]; split; assumption].
    assert (H1 : Coordinator.last_detection_time (Coordinator.status c1) = None)
      by apply A.
    specialize (IH c1 y1 H1). cbv zeta in IH. destruct IH as (A' & M').
    unfold Coordinator.actuator_untouched in *.
    destruct A as (A1 & A2 & A3 & A4 & A5 & A6 & A7).
    destruct A' as (B1 & B2 & B3 & B4 & B5 & B6 & B7).
    repeat split; try congruence.
    destruct M' as [M'|M']; [rewrite M'; exact M | right; exact M'].
Qed.

(** X21: the main loop.  [_process_detection] hands [Detection] objects of
    the detector to [_update_tracking_control], which subscripts them like
    dictionaries; the [TypeError] is caught after the mode was set.  So
    through any number of passes of the loop, starting before any detection
    was recorded (as after [initialize_system]), the servo controller, the
    cached angles, the applied correction, the proportional controller, the
    target class and the time of the last detection stay as they were, and
    the mode changes at most to [TRACKING].  A pass with a frame in which a
    ready detector finds a box of a target class does set the mode to
    [TRACKING]. *)
Theorem main_loop_never_moves_the_servos :
  forall (np_sin : Q -> Q) (c : Coordinator.TrackingCoordinator)
         (y : option Yolo.YOLODetector) (envs : list Coordinator.LoopEnv),
    Coordinator.last_detection_time (Coordinator.status c) = None ->
    let c' := fst (Coordinator._main_loop np_sin c y envs) in
    Coordinator.actuator_untouched c c'
    /\ (Coordinator.mode (Coordinator.status c')
        = Coordinator.mode (Coordinator.status c)
        \/ Coordinator.mode (Coordinator.status c') = Coordinator.TRACKING)
    /\ forall (env : Coordinator.LoopEnv) (d : Yolo.YOLODetector)
              (results : list Yolo.Result) (b : Yolo.Box),
         y = Some d ->
         Yolo.status d = Yolo.READY -> Yolo.model d <> None ->
         Coordinator.frame_read env = true ->
         Coordinator.model_outcome env = Yolo.ModelReturns results ->
         In b (Yolo.all_boxes results) ->
         Yolo.is_target d (Yolo.py_int (Yolo.cls b)) = true ->
         Coordinator.mode
           (Coordinator.status
              (fst (snd (Coordinator._main_loop_body np_sin c y env))))
         = Coordinator.TRACKING.
Proof.
  intros np_sin c y envs H. cbv zeta.
  destruct (quiet_loop np_sin envs c y H) as [A M].
  split; [exact A|]. split; [exact M|].
  intros env d results b -> S Mo F O I T.
  unfold Coordinator._main_loop_body. rewrite F, O. cbn [negb].
  destruct (Coordinator.detect_clock env) as [[t0 t1] t2].
  unfold Coordinator._process_detection.
  destruct (detect_pets_on_results d results t0 t1 t2 S Mo)
    as [E _].
  destruct (Yolo.detect_pets d (Yolo.ModelReturns results) t0 t1 t2)
    as [l d'].
  cbn [fst] in E.
  assert (N : l <> []).
  { rewrite E. intro Z. apply map_eq_nil in Z.
    assert (J : In b (filter (fun b0 => Yolo.is_target d
                                          (Yolo.py_int (Yolo.cls b0)))
                             (Yolo.all_boxes results))).
    { apply filter_In. split; assumption. }
    rewrite Z in J. destruct J. }
  destruct l as [|x l]; [contradiction|].
  destruct (Yolo.get_best_detection (x :: l)) as [best|] eqn:G.
  2:{ apply get_best_detection_none in G. discriminate G. }
  unfold Coordinator.of_detector.
  destruct (Yolo.bbox best) as [[[x1 y1] x2] y2].
  match goal with
  | |- context [Coordinator._update_tracking_control np_sin c ?e ?l] =>
      pose proof (detection_sets_tracking np_sin c e
                    (Coordinator.DetObject
                       {| Coordinator.class_name := Yolo.class_name best;
                          Coordinator.confidence := Yolo.confidence best;
                          Coordinator.bbox :=
                            (inject_Z x1, inject_Z y1, inject_Z x2,
                             inject_Z y2) |}) []) as D;
      set (c1 := Coordinator._update_tracking_control np_sin c e l) in *
  end.
  clearbody c1.
  destruct (Coordinator.show_display c1 && Coordinator.quit_key env);
    cbn [fst snd]; [exact D|].
  unfold Coordinator._update_system_status. coord_fields. exact D.
Qed.

Lemma main_loop_never_moves_the_servos_witness :
  Coordinator.actuator_untouched
    (Coordinator.start_tracking Coordinator.default (Coordinator.all_up 0))
    (fst (Coordinator._main_loop Coordinator.bounded_wave
            (Coordinator.start_tracking Coordinator.default
               (Coordinator.all_up 0))
            (Some (snd (Yolo.load_model
                          (Yolo.create_yolo_detector "yolov8n.pt" 0) true)))
            [{| Coordinator.frame_read := true;
                Coordinator.model_outcome :=
                  Yolo.ModelReturns
                    [Some [{| Yolo.cls := 16; Yolo.conf := 0.9;
                              Yolo.xyxy := (370, 190, 470, 290) |}]];
                Coordinator.detect_clock := (1, 1, 1);
                Coordinator.control := Coordinator.at_time 1 ServoCtl.WriteOk;
                Coordinator.quit_key := false;
                Coordinator.status_now := 1 |};
             {| Coordinator.frame_read := true;
                Coordinator.model_outcome := Yolo.ModelReturns [];
                Coordinator.detect_clock := (10, 10, 10);
                Coordinator.control := Coordinator.at_time 10 ServoCtl.WriteOk;
                Coordinator.quit_key := false;
                Coordinator.status_now := 10 |}])).
Proof.
  apply (main_loop_never_moves_the_servos Coordinator.bounded_wave
           (Coordinator.start_tracking Coordinator.default
              (Coordinator.all_up 0))).
  vm_compute. reflexivity.
Defined.

(** ** The cached angles over whole runs *)

Lemma guarded_default_init :
  ServoCtl.guarded
    (ServoCtl.__init__ ServoCtl.default_pan_range ServoCtl.default_tilt_range).
Proof.
  split; servo_inv; cbn [ServoCtl.__init__ ServoCtl.default_pan_range
                         ServoCtl.default_tilt_range fst snd];
    repeat split; intros; try discriminate; lra.
Qed.

(** Calls that leave the servo controller and the cached angles alone keep
    the cache in range. *)
Lemma cache_in_range_frame (c c' : Coordinator.TrackingCoordinator) :
  Coordinator.servo_controller c' = Coordinator.servo_controller c ->
  Coordinator.pan_angle (Coordinator.status c')
  = Coordinator.pan_angle (Coordinator.status c) ->
  Coordinator.tilt_angle (Coordinator.status c')
  = Coordinator.tilt_angle (Coordinator.status c) ->
  Coordinator.cache_in_range c -> Coordinator.cache_in_range c'.
Proof.
  intros S P T (sc & A & B). exists sc. rewrite S, P, T. split; assumption.
Qed.

(** A guarded move keeps the cache in range. *)
Lemma cache_in_range_move (c c' : Coordinator.TrackingCoordinator)
    (sc : ServoCtl.ServoController) (hw : ServoCtl.HwOutcome) (p t : Q) :
  Coordinator.cache_in_range c ->
  Coordinator.servo_controller c = Some sc ->
  ServoCtl.is_angle_safe sc p t = true ->
  Coordinator.servo_controller c'
  = Some (snd (ServoCtl.set_angles sc hw p t)) ->
  Coordinator.pan_angle (Coordinator.status c') = p ->
  Coordinator.tilt_angle (Coordinator.status c') = t ->
  Coordinator.cache_in_range c'.
Proof.
  intros (sc0 & A & G & RP & RT & _) S U S' P T.
  rewrite S in A. injection A as <-.
  apply is_angle_safe_spec in U.
  destruct (keeps_set_angles sc hw p t G) as [G' R].
  exists (snd (ServoCtl.set_angles sc hw p t)).
  split; [exact S'|]. split; [exact G'|].
  destruct R as (R1 & R2 & R3 & R4).
  rewrite R1, R2, R3, R4, P, T. split; [exact RP|]. split; [exact RT|].
  unfold ServoCtl.in_range in *. rewrite R1, R2, R3, R4. exact U.
Qed.

Lemma cache_in_range_sweep (np_sin : Q -> Q)
    (c : Coordinator.TrackingCoordinator) (env : Coordinator.CycleEnv) :
  Coordinator.cache_in_range c ->
  Coordinator.cache_in_range (Coordinator._execute_scan_pattern np_sin c env).
Proof.
  intro I. pose proof I as (sc & S & _).
  destruct (sweep_step np_sin c env sc S) as (A & B & _). cbv zeta in A, B.
  destruct (ServoCtl.is_angle_safe sc
              (30 * np_sin (Coordinator.clock env * 0.1)) 0) eqn:U.
  - destruct (A eq_refl) as (A1 & A2 & A3).
    exact (cache_in_range_move c _ sc _ _ _ I S U A1 A2 A3).
  - rewrite (B eq_refl). exact I.
Qed.

Lemma cache_in_range_control (np_sin : Q -> Q)
    (c : Coordinator.TrackingCoordinator) (env : Coordinator.CycleEnv)
    (detections : list Coordinator.PyDetection) :
  Coordinator.cache_in_range c ->
  Coordinator.cache_in_range
    (Coordinator._update_tracking_control np_sin c env detections).
Proof.
  intro I. destruct detections as [|det rest].
  - unfold Coordinator._update_tracking_control.
    assert (I1 : Coordinator.cache_in_range
                   (Coordinator.set_target_detected c false)).
    { apply (cache_in_range_frame c); [reflexivity..|exact I]. }
    set (c1 := Coordinator.set_target_detected c false) in *. clearbody c1.
    destruct (Coordinator.last_detection_time (Coordinator.status c1));
      [|exact I1].
    destruct (Qltb _ _); [|exact I1].
    apply cache_in_range_sweep.
    destruct (Coordinator.TrackingMode_eqb _ _); [|exact I1].
    apply (cache_in_range_frame c1); [reflexivity..|exact I1].
  - unfold Coordinator._update_tracking_control.
    assert (I1 : Coordinator.cache_in_range
                   (if negb (Coordinator.TrackingMode_eqb
                               (Coordinator.mode (Coordinator.status c))
                               Coordinator.TRACKING)
                    then Coordinator.set_mode c Coordinator.TRACKING else c)).
    { destruct (negb _); [|exact I].
      apply (cache_in_range_frame c); [reflexivity..|exact I]. }
    set (c1 := if negb (Coordinator.TrackingMode_eqb
                          (Coordinator.mode (Coordinator.status c))
                          Coordinator.TRACKING)
               then Coordinator.set_mode c Coordinator.TRACKING else c) in *.
    clearbody c1. destruct det as [d|d]; [|exact I1].
    destruct (Coordinator.bbox d) as [[[x1 y1] x2] y2].
    destruct (Coordinator.simple_p_controller c1) as [p|]; [|exact I1].
    destruct (SimpleP.calculate_correction p _ _) as [corr p'].
    assert (I2 : Coordinator.cache_in_range
                   (Coordinator.set_simple_p_controller c1 (Some p'))).
    { apply (cache_in_range_frame c1); [reflexivity..|exact I1]. }
    set (c2 := Coordinator.set_simple_p_controller c1 (Some p')) in *.
    clearbody c2.
    destruct (Coordinator.servo_controller c2) as [sc|] eqn:S; [|exact I2].
    destruct (ServoCtl.is_angle_safe sc _ _) eqn:U.
    + destruct (ServoCtl.set_angles sc (Coordinator.hw env) _ _) as [r sc']
        eqn:M.
      apply (cache_in_range_frame
               (Coordinator.set_correction_applied
                  (Coordinator.set_cached_angles
                     (Coordinator.set_servo_controller c2 (Some sc'))
                     (Coordinator.pan_angle (Coordinator.status c2) + fst corr)
                     (Coordinator.tilt_angle (Coordinator.status c2) + snd corr))
                  corr)); [reflexivity..|].
      apply (cache_in_range_move c2 _ sc (Coordinator.hw env)
               (Coordinator.pan_angle (Coordinator.status c2) + fst corr)
               (Coordinator.tilt_angle (Coordinator.status c2) + snd corr)
               I2 S U); [rewrite M|..]; reflexivity.
    + apply (cache_in_range_frame c2); [reflexivity..|exact I2].
Qed.

Lemma mode_after_control (np_sin : Q -> Q)
    (c : Coordinator.TrackingCoordinator) (env : Coordinator.CycleEnv)
    (detections : list Coordinator.PyDetection) :
  Coordinator.mode (Coordinator.status c) <> Coordinator.STANDBY ->
  Coordinator.mode
    (Coordinator.status
       (Coordinator._update_tracking_control np_sin c env detections))
  <> Coordinator.STANDBY.
Proof.
  intro N. destruct detections as [|det rest].
  - unfold Coordinator._update_tracking_control.
    assert (N1 : Coordinator.mode
                   (Coordinator.status (Coordinator.set_target_detected c false))
                 <> Coordinator.STANDBY) by exact N.
    set (c1 := Coordinator.set_target_detected c false) in *. clearbody c1.
    destruct (Coordinator.last_detection_time (Coordinator.status c1));
      [|exact N1].
    destruct (Qltb _ _); [|exact N1].
    rewrite _execute_scan_pattern_mode.
    destruct (Coordinator.TrackingMode_eqb _ _); [discriminate|exact N1].
  - rewrite detection_sets_tracking. discriminate.
Qed.

Lemma cycles_invariant (np_sin : Q -> Q)
    (steps : list (Coordinator.CycleEnv * Q * list Coordinator.PyDetection)) :
  forall c : Coordinator.TrackingCoordinator,
    Coordinator.cache_in_range c ->
    Coordinator.mode (Coordinator.status c) <> Coordinator.STANDBY ->
    Coordinator.cache_in_range (Coordinator.cycles np_sin c steps)
    /\ Coordinator.mode (Coordinator.status (Coordinator.cycles np_sin c steps))
       <> Coordinator.STANDBY.
Proof.
  induction steps as [|[[env now] dets] steps IH]; intros c I N;
    [split; assumption|].
  change (Coordinator.cycles np_sin c ((env, now, dets) :: steps))
    with (Coordinator.cycles np_sin
            (Coordinator._update_system_status
               (Coordinator._update_tracking_control np_sin c env dets)
               now dets) steps).
  apply IH.
  - apply (cache_in_range_frame
             (Coordinator._update_tracking_control np_sin c env dets));
      [reflexivity..|].
    apply cache_in_range_control. exact I.
  - exact (mode_after_control np_sin c env dets N).
Qed.

Lemma initialize_system_cache (c : Coordinator.TrackingCoordinator)
    (env : Coordinator.InitEnv) :
  fst (Coordinator.initialize_system c env) = true ->
  Coordinator.cache_in_range (snd (Coordinator.initialize_system c env)).
Proof.
  unfold Coordinator.initialize_system.
  destruct (Coordinator.camera_outcome env); cbn [fst snd];
    try discriminate.
  pose proof (keeps_initialize
                (ServoCtl.__init__ ServoCtl.default_pan_range
                                   ServoCtl.default_tilt_range)
                (Coordinator.bus_up env) (Coordinator.init_write env)
                guarded_default_init) as [G1 R1].
  destruct (ServoCtl.initialize _ (Coordinator.bus_up env)
              (Coordinator.init_write env)) as [ok sc1].
  cbn [snd] in G1, R1.
  destruct ok; cbn [negb fst snd]; [|discriminate].
  pose proof (keeps_set_angles sc1 (Coordinator.center_write env) 0 0 G1)
    as [G2 R2].
  unfold ServoCtl.move_to_center.
  destruct (ServoCtl.set_angles sc1 (Coordinator.center_write env) 0 0)
    as [r sc2].
  cbn [snd] in G2, R2.
  destruct (Coordinator.yolo_outcome env); cbn [fst snd]; try discriminate.
  intros _. exists sc2. coord_fields.
  split; [reflexivity|]. split; [exact G2|].
  destruct R1 as (A1 & A2 & A3 & A4). destruct R2 as (B1 & B2 & B3 & B4).
  rewrite B1, B2, B3, B4, A1, A2, A3, A4.
  split; [reflexivity|]. split; [reflexivity|].
  unfold ServoCtl.in_range. rewrite B1, B2, B3, B4, A1, A2, A3, A4.
  cbn. lra.
Qed.

(** X22: the cached angles.  After a successful [initialize_system], through
    any sequence of control cycles ([_update_tracking_control] then
    [_update_system_status]) on any detections, with a driver that may fail
    at any write and whatever the sweep asks for, the cached pan angle stays
    within [[-90, 90]] and the cached tilt angle within [[-45, 45]]; the
    servo controller keeps these ranges and stays within them; and the mode
    is never [STANDBY] again. *)
Theorem cached_angles_stay_in_range :
  forall (np_sin : Q -> Q) (c : Coordinator.TrackingCoordinator)
         (env : Coordinator.InitEnv)
         (steps : list (Coordinator.CycleEnv * Q
                        * list Coordinator.PyDetection)),
    fst (Coordinator.initialize_system c env) = true ->
    let c' := Coordinator.cycles np_sin
                (snd (Coordinator.initialize_system c env)) steps in
    -(90) <= Coordinator.pan_angle (Coordinator.status c') <= 90
    /\ -(45) <= Coordinator.tilt_angle (Coordinator.status c') <= 45
    /\ Coordinator.mode (Coordinator.status c') <> Coordinator.STANDBY
    /\ exists sc : ServoCtl.ServoController,
         Coordinator.servo_controller c' = Some sc
         /\ ServoCtl.within_limits sc
         /\ (ServoCtl.pan_min sc, ServoCtl.pan_max sc) = (-(90), 90)
         /\ (ServoCtl.tilt_min sc, ServoCtl.tilt_max sc) = (-(45), 45).
Proof.
  intros np_sin c env steps H c'.
  destruct (cycles_invariant np_sin steps
              (snd (Coordinator.initialize_system c env)))
    as [(sc & S & G & RP & RT & I) N].
  - apply initialize_system_cache. exact H.
  - destruct (initialize_system_mode c env) as [M _]. rewrite (M H).
    discriminate.
  - fold c' in S, I, N.
    unfold ServoCtl.in_range in I.
    injection RP as P1 P2. injection RT as T1 T2.
    rewrite P1, P2, T1, T2 in I.
    split; [apply I|]. split; [apply I|]. split; [exact N|].
    exists sc. split; [exact S|]. split; [apply G|].
    rewrite P1, P2, T1, T2. split; reflexivity.
Qed.

Lemma cached_angles_stay_in_range_witness :
  -(90) <= Coordinator.pan_angle
             (Coordinator.status
                (Coordinator.cycles Coordinator.bounded_wave
                   (snd (Coordinator.initialize_system Coordinator.default
                           (Coordinator.all_up 0)))
                   [(Coordinator.at_time 1 ServoCtl.PanWriteRaises, 1,
                     [Coordinator.dog_right]);
                    (Coordinator.at_time 2 ServoCtl.WriteOk, 2,
                     [Coordinator.dog_right]);
                    (Coordinator.at_time 9 ServoCtl.WriteOk, 9, [])])) <= 90.
Proof.
  apply (cached_angles_stay_in_range Coordinator.bounded_wave
           Coordinator.default (Coordinator.all_up 0)
           [(Coordinator.at_time 1 ServoCtl.PanWriteRaises, 1,
             [Coordinator.dog_right]);
            (Coordinator.at_time 2 ServoCtl.WriteOk, 2,
             [Coordinator.dog_right]);
            (Coordinator.at_time 9 ServoCtl.WriteOk, 9, [])]).
  vm_compute. reflexivity.
Defined.

Lemma Qabs_same (x m : Q) : 0 <= m -> Qabs (x - x) <= m.
Proof.
  intro H. assert (E : x - x == 0) by ring. rewrite E. exact H.
Qed.

Lemma Qabs_added (x a m : Q) : Qabs a <= m -> Qabs (x + a - x) <= m.
Proof.
  intro H. assert (E : x + a - x == a) by ring. rewrite E. exact H.
Qed.

(** X23: one tracking step.  In a cycle with a detection, the cached pan
    and tilt angles each change by at most [max_correction] of the
    proportional controller (15 degrees by default), provided that bound is
    not negative: they move by the correction when the new pair is within
    the servo ranges and stay otherwise.  The sweep of a cycle without
    detection is not bounded in this way. *)
Theorem tracking_step_is_bounded :
  forall (np_sin : Q -> Q) (c : Coordinator.TrackingCoordinator)
         (env : Coordinator.CycleEnv) (detection : Coordinator.PyDetection)
         (rest : list Coordinator.PyDetection)
         (p : SimpleP.SimpleProportionalController),
    Coordinator.simple_p_controller c = Some p ->
    0 <= SimpleP.max_correction p ->
    let c' := Coordinator._update_tracking_control np_sin c env
                (detection :: rest) in
    Qabs (Coordinator.pan_angle (Coordinator.status c')
          - Coordinator.pan_angle (Coordinator.status c))
      <= SimpleP.max_correction p
    /\ Qabs (Coordinator.tilt_angle (Coordinator.status c')
             - Coordinator.tilt_angle (Coordinator.status c))
      <= SimpleP.max_correction p.
Proof.
  intros np_sin c env det rest p P M c'. subst c'.
  unfold Coordinator._update_tracking_control.
  set (c1 := if negb (Coordinator.TrackingMode_eqb
                        (Coordinator.mode (Coordinator.status c))
                        Coordinator.TRACKING)
             then Coordinator.set_mode c Coordinator.TRACKING else c).
  assert (E : Coordinator.simple_p_controller c1 = Some p
              /\ Coordinator.pan_angle (Coordinator.status c1)
                 = Coordinator.pan_angle (Coordinator.status c)
              /\ Coordinator.tilt_angle (Coordinator.status c1)
                 = Coordinator.tilt_angle (Coordinator.status c)).
  { subst c1. destruct (negb _); coord_fields;
      repeat split; assumption || reflexivity. }
  clearbody c1. destruct E as (E1 & E2 & E3).
  destruct det as [d|d].
  2:{ rewrite E2, E3. split; apply Qabs_same; exact M. }
  destruct (Coordinator.bbox d) as [[[x1 y1] x2] y2].
  rewrite E1.
  pose proof (calculate_correction_bounded p (Coordinator.clock env)
                (Some ((x1 + x2) / 2, (y1 + y2) / 2)) M) as [B1 B2].
  destruct (SimpleP.calculate_correction p (Coordinator.clock env)
              (Some ((x1 + x2) / 2, (y1 + y2) / 2))) as [corr p'].
  cbn [fst snd] in B1, B2. coord_fields.
  destruct (Coordinator.servo_controller c1) as [sc|].
  2:{ coord_fields. rewrite E2, E3. split; apply Qabs_same; exact M. }
  destruct (ServoCtl.is_angle_safe sc _ _).
  - destruct (ServoCtl.set_angles sc (Coordinator.hw env) _ _) as [r sc'].
    coord_fields. rewrite E2, E3. split; apply Qabs_added; assumption.
  - coord_fields. rewrite E2, E3. split; apply Qabs_same; exact M.
Qed.

Lemma tracking_step_is_bounded_witness :
  Qabs (Coordinator.pan_angle
          (Coordinator.status
             (Coordinator._update_tracking_control Coordinator.bounded_wave
                Coordinator.started (Coordinator.at_time 1 ServoCtl.WriteOk)
                [Coordinator.dog_right]))
        - Coordinator.pan_angle (Coordinator.status Coordinator.started))
  <= 15.
Proof.
  apply (tracking_step_is_bounded Coordinator.bounded_wave Coordinator.started
           (Coordinator.at_time 1 ServoCtl.WriteOk) Coordinator.dog_right []
           (SimpleP.default 640 480 0 0)).
  - vm_compute. reflexivity.
  - vm_compute. discriminate.
Defined.

(** ** Stopping *)

Lemma _set_servo_angles_centres (c : ServoCtl.ServoController) :
  ServoCtl.pan_servo c <> None -> ServoCtl.tilt_servo c <> None ->
  exists c',
    ServoCtl._set_servo_angles c ServoCtl.WriteOk 0 0 = (Normal, c')
    /\ ServoCtl.commanded (ServoCtl.pan_servo c') = Some 90
    /\ ServoCtl.commanded (ServoCtl.tilt_servo c') = Some 90
    /\ ServoCtl.status c' = ServoCtl.status c.
Proof.
  intros P T. unfold ServoCtl._set_servo_angles.
  destruct (ServoCtl.pan_servo c) as [ps|] eqn:EP; [|contradiction].
  cbv zeta. cbn [ServoCtl.tilt_servo ServoCtl.set_pan_servo].
  destruct (ServoCtl.tilt_servo c) as [ts|] eqn:ET; [|contradiction].
  eexists. split; [reflexivity|]. cbn. repeat split; reflexivity.
Qed.

Lemma set_angles_keeps_servos (c : ServoCtl.ServoController)
    (hw : ServoCtl.HwOutcome) (p t : Q) :
  ServoCtl.pan_servo c <> None -> ServoCtl.tilt_servo c <> None ->
  ServoCtl.status c <> ServoCtl.UNINITIALIZED ->
  let c' := snd (ServoCtl.set_angles c hw p t) in
  ServoCtl.pan_servo c' <> None /\ ServoCtl.tilt_servo c' <> None
  /\ ServoCtl.status c' <> ServoCtl.UNINITIALIZED.
Proof.
  intros P T S. cbv zeta. unfold ServoCtl.set_angles.
  destruct (negb (ServoCtl._is_ready c)); [cbn [snd]; tauto|].
  destruct (negb (ServoCtl.is_angle_safe c p t)); [cbn [snd]; tauto|].
  destruct c as [pmin pmax tmin tmax ps ts cp ct st ms stl].
  cbn in P, T, S.
  destruct ps as [ps|]; [|contradiction].
  destruct ts as [ts|]; [|contradiction].
  destruct hw; cbn; repeat split; discriminate.
Qed.

(** X24: [stop_tracking].  It clears [is_running] first.  When it is called
    on the thread of the main loop itself, as the [finally] clause of
    [_main_loop] does on the thread [start_tracking] created, the [join]
    raises: the method is left with nothing else changed, so the servos are
    not parked and nothing is cleaned up.  When the caller is not that
    thread, on a coordinator whose servo controller has its two servo
    objects and is not [UNINITIALIZED], when closing the windows does not
    raise and the last write to the servos goes through, it returns with
    both servos told to go to the centre (90 in servo coordinates), also
    when the controller was in [ERROR] and [move_to_center] was refused or
    failed; the proportional controller is cleaned up; and when the PWM
    board is released the servo controller is [UNINITIALIZED], so that
    nothing moves it afterwards. *)
Theorem stop_tracking_parks_the_servos :
  forall (c : Coordinator.TrackingCoordinator) (th : Coordinator.MainThread)
         (env : Coordinator.CleanupEnv) (sc : ServoCtl.ServoController),
    Coordinator.is_running (snd (Coordinator.stop_tracking c th env)) = false
    /\ Coordinator.stop_tracking c Coordinator.CallerIsMainThread env
       = (Raised, Coordinator.set_is_running c false)
    /\ (th <> Coordinator.CallerIsMainThread ->
        Coordinator.servo_controller c = Some sc ->
        ServoCtl.pan_servo sc <> None -> ServoCtl.tilt_servo sc <> None ->
        ServoCtl.status sc <> ServoCtl.UNINITIALIZED ->
        Coordinator.show_display c && negb (Coordinator.gui_ok env) = false ->
        Coordinator.stop_cleanup_write env = ServoCtl.WriteOk ->
        let c' := snd (Coordinator.stop_tracking c th env) in
        fst (Coordinator.stop_tracking c th env) = Normal
        /\ (exists sc' : ServoCtl.ServoController,
              Coordinator.servo_controller c' = Some sc'
              /\ ServoCtl.commanded (ServoCtl.pan_servo sc') = Some 90
              /\ ServoCtl.commanded (ServoCtl.tilt_servo sc') = Some 90
              /\ (Coordinator.stop_pca_ok env = true ->
                  ServoCtl.status sc' = ServoCtl.UNINITIALIZED
                  /\ forall hw p t,
                       ServoCtl.set_angles sc' hw p t = (false, sc')))
        /\ (forall p, Coordinator.simple_p_controller c = Some p ->
              Coordinator.simple_p_controller c' = Some (SimpleP.cleanup p))).
Proof.
  intros c th env sc.
  assert (R : forall e, Coordinator.is_running
                          (Coordinator._cleanup_resources
                             (Coordinator.set_is_running c false) e) = false).
  { intro e. unfold Coordinator._cleanup_resources. coord_fields.
    destruct (Coordinator.show_display c && negb (Coordinator.gui_ok e));
      [reflexivity|].
    destruct (Coordinator.servo_controller c) as [s0|]; coord_fields.
    - destruct (ServoCtl.move_to_center s0 _) as [r s1]. coord_fields.
      destruct (Coordinator.yolo_detector c); coord_fields;
        destruct (Coordinator.simple_p_controller c); reflexivity.
    - destruct (Coordinator.yolo_detector c); coord_fields;
        destruct (Coordinator.simple_p_controller c); reflexivity. }
  split; [|split; [reflexivity|]].
  { unfold Coordinator.stop_tracking. destruct th; cbn [snd];
      try apply R. reflexivity. }
  intros N S P T U G W c'. subst c'.
  assert (E : Coordinator.stop_tracking c th env
              = (Normal, Coordinator._cleanup_resources
                           (Coordinator.set_is_running c false) env)).
  { unfold Coordinator.stop_tracking. destruct th; try reflexivity.
    contradiction. }
  rewrite E. cbn [fst snd]. split; [reflexivity|].
  unfold Coordinator._cleanup_resources.
  coord_fields. rewrite G, S, W. unfold ServoCtl.move_to_center.
  pose proof (set_angles_keeps_servos sc (Coordinator.stop_center_write env)
                0 0 P T U) as K. cbv zeta in K.
  destruct (ServoCtl.set_angles sc (Coordinator.stop_center_write env) 0 0)
    as [r sc1].
  cbn [snd] in K. destruct K as (P1 & T1 & U1).
  assert (C : exists sc',
             ServoCtl.cleanup sc1 ServoCtl.WriteOk (Coordinator.stop_pca_ok env)
             = sc'
             /\ ServoCtl.commanded (ServoCtl.pan_servo sc') = Some 90
             /\ ServoCtl.commanded (ServoCtl.tilt_servo sc') = Some 90
             /\ (Coordinator.stop_pca_ok env = true ->
                 ServoCtl.status sc' = ServoCtl.UNINITIALIZED)).
  { unfold ServoCtl.cleanup.
    destruct (ServoCtl.ServoStatus_eqb (ServoCtl.status sc1)
                ServoCtl.UNINITIALIZED) eqn:E1.
    { apply ServoStatus_eqb_spec in E1. contradiction. }
    destruct (_set_servo_angles_centres sc1 P1 T1) as (sc2 & M & A & B & _).
    destruct (ServoCtl.pan_servo sc1); [|contradiction].
    destruct (ServoCtl.tilt_servo sc1); [|contradiction].
    rewrite M. eexists. split; [reflexivity|].
    destruct (Coordinator.stop_pca_ok env); servo_fields;
      repeat split; try assumption; try reflexivity. discriminate. }
  destruct C as (sc' & C0 & C1 & C2 & C3). rewrite C0.
  coord_fields. split.
  - exists sc'. split.
    + destruct (Coordinator.yolo_detector c); coord_fields;
        destruct (Coordinator.simple_p_controller c); reflexivity.
    + split; [exact C1|]. split; [exact C2|].
      intro O. split; [exact (C3 O)|].
      intros hw p t. apply not_ready_blocks. rewrite (C3 O). discriminate.
  - intros p E1.
    destruct (Coordinator.yolo_detector c); coord_fields; rewrite E1;
      reflexivity.
Qed.

Lemma stop_tracking_parks_the_servos_witness :
  fst (Coordinator.stop_tracking
         (Coordinator._update_tracking_control Coordinator.bounded_wave
            (Coordinator.start_tracking Coordinator.default
               (Coordinator.all_up 0))
            (Coordinator.at_time 1 ServoCtl.PanWriteRaises)
            [Coordinator.dog_right])
         Coordinator.LiveThreadJoined
         {| Coordinator.gui_ok := true;
            Coordinator.stop_center_write := ServoCtl.WriteOk;
            Coordinator.stop_cleanup_write := ServoCtl.WriteOk;
            Coordinator.stop_pca_ok := true |}) = Normal.
Proof.
  eapply (proj2 (proj2
            (stop_tracking_parks_the_servos
               (Coordinator._update_tracking_control Coordinator.bounded_wave
                  (Coordinator.start_tracking Coordinator.default
                     (Coordinator.all_up 0))
                  (Coordinator.at_time 1 ServoCtl.PanWriteRaises)
                  [Coordinator.dog_right])
               Coordinator.LiveThreadJoined _ _))).
  - discriminate.
  - vm_compute. reflexivity.
  - vm_compute. discriminate.
  - vm_compute. discriminate.
  - vm_compute. discriminate.
  - vm_compute. reflexivity.
  - vm_compute. reflexivity.
Defined.

(** ** From a box to a correction *)

(** X25: boxes and the proportional law.  [update_from_bbox] of the dual
    controller is [update] at the centre of the box.  On a controller that
    is not in [ERROR], its answer is the law applied to what
    [calculate_tracking_error] reports for the box: 0 on an axis where that
    error is within the deadband (and the limit is not negative), the
    clipped gain times the error elsewhere, with the tilt sign reversed.
    [calculate_tracking_error] reports (0, 0) for a box that is not four
    numbers, as for a box centred on the image centre.  For a [Detection] of
    the detector, the error the detector computes against the controller's
    image centre is the one the controller computes from the box. *)
Theorem bbox_error_feeds_the_law :
  forall (c : SimpleP.SimpleProportionalController) (t x1 y1 x2 y2 : Q),
    SimpleP.status c <> SimpleP.ERROR ->
    let d := {| SimpleP.controller := c |} in
    let e := SimpleP.calculate_tracking_error c (Some (x1, y1, x2, y2)) in
    let r := fst (SimpleP.dual_update_from_bbox d t (x1, y1, x2, y2)) in
    let m := SimpleP.max_correction c in
    SimpleP.dual_update_from_bbox d t (x1, y1, x2, y2)
    = SimpleP.dual_update d t (Some ((x1 + x2) / 2, (y1 + y2) / 2))
    /\ (0 <= m -> Qabs (fst e) < SimpleP.deadband c -> fst r == 0)
    /\ (0 <= m -> Qabs (snd e) < SimpleP.deadband c -> snd r == 0)
    /\ (SimpleP.deadband c <= Qabs (fst e) ->
        fst r = np_clip (fst e * SimpleP.pan_gain c) (- m) m)
    /\ (SimpleP.deadband c <= Qabs (snd e) ->
        snd r = np_clip (- snd e * SimpleP.tilt_gain c) (- m) m)
    /\ SimpleP.calculate_tracking_error c None = (0, 0)
    /\ forall (class_id : Z) (class_name : string) (confidence : Q)
              (a1 b1 a2 b2 : Z),
         Qpair_eq
           (Yolo.calculate_tracking_error
              (Yolo.Detection__init__ class_id class_name confidence
                 (a1, b1, a2, b2))
              (inject_Z (fst (SimpleP.image_center c)),
               inject_Z (snd (SimpleP.image_center c))))
           (SimpleP.calculate_tracking_error c
              (Some (inject_Z a1, inject_Z b1, inject_Z a2, inject_Z b2))).
Proof.
  intros c t x1 y1 x2 y2 S d e r m.
  assert (V : r = (np_clip (SimpleP.apply_deadband c (fst e)
                            * SimpleP.pan_gain c) (- m) m,
                   np_clip (- SimpleP.apply_deadband c (snd e)
                            * SimpleP.tilt_gain c) (- m) m)).
  { subst r e d. unfold SimpleP.dual_update_from_bbox.
    cbn [SimpleP.controller].
    pose proof (calculate_correction_value c t ((x1 + x2) / 2)
                  ((y1 + y2) / 2) S) as V.
    destruct (SimpleP.calculate_correction c t
                (Some ((x1 + x2) / 2, (y1 + y2) / 2))) as [r c'].
    cbn [fst] in V |- *. exact V. }
  split; [reflexivity|].
  rewrite V. cbn [fst snd].
  split; [|split; [|split; [|split; [|split]]]].
  - intros M D. rewrite (apply_deadband_inside c _ D).
    apply np_clip_zero; [exact M | ring].
  - intros M D. rewrite (apply_deadband_inside c _ D).
    apply np_clip_zero; [exact M | ring].
  - intro D. rewrite (apply_deadband_outside c _ D). reflexivity.
  - intro D. rewrite (apply_deadband_outside c _ D). reflexivity.
  - reflexivity.
  - intros k nm cf a1 b1 a2 b2.
    unfold Qpair_eq, Yolo.calculate_tracking_error, Yolo.Detection__init__,
      SimpleP.calculate_tracking_error.
    cbn [Yolo.center fst snd]. rewrite !inject_Z_plus. split; reflexivity.
Qed.

Lemma bbox_error_feeds_the_law_witness :
  fst (fst (SimpleP.dual_update_from_bbox
              (SimpleP.create_dual_simple_p_controller 640 480 0 0) 1
              (370, 190, 470, 290)))
  = np_clip
      (fst (SimpleP.calculate_tracking_error
              (SimpleP.controller
                 (SimpleP.create_dual_simple_p_controller 640 480 0 0))
              (Some (370, 190, 470, 290)))
       * 0.0156) (- (15)) 15.
Proof.
  apply (bbox_error_feeds_the_law
           (SimpleP.controller
              (SimpleP.create_dual_simple_p_controller 640 480 0 0))
           1 370 190 470 290).
  - vm_compute. discriminate.
  - vm_compute. discriminate.
Defined.
